(** * State and StateTensor of all/core/state.py

    A shallow embedding of the two classes of [all/core/state.py] and the
    properties of their constructors, [update], [flatten], [view],
    [apply_mask], [from_list] and [__getitem__].

    Conventions of the embedding.
    - A Python [dict] with string keys is a [gmap string value]; two dicts
      that Python's [==] identifies (same keys, same values, any insertion
      order) are equal maps.
    - A tensor is its dtype, its shape, its entries and its strides.  The
      entries are listed in the order of their indices (row-major),
      whatever the strides; the strides say how the tensor lies in its
      storage, on which [view] depends.  [Tensor dt s d] is the tensor
      with the row-major strides of its shape.
    - The value of a float is a finite number, an infinity or NaN.  The
      finite numbers are integers here: the constants [0.], [1.], the
      masks and the products with a mask are exact there.  Rounding, the
      sign of a zero, and a finite result too large for the float type,
      are outside this development.  The entries of an int64 tensor wrap
      around.
    - A size tuple holds natural numbers; [-1] as a size to be inferred is
      outside this development.
    - A call that raises returns [Raise e]; nothing is caught except where
      the source has a [try].
    - The methods are functions on immutable instances.  Where a property
      is about which objects a call changes, the same code is also given
      on a store of objects passed by reference. *)

From stdpp Require Import gmap strings list fin_maps numbers.

Local Open Scope string_scope.
Local Open Scope list_scope.

(** ** Exceptions and results *)

Inductive exn :=
  | Exception (msg : string)
  | KeyError
  | TypeError
  | IndexError
  | ValueError
  | AttributeError
  | RuntimeError
  | OverflowError.

Inductive result (A : Type) :=
  | Ok (a : A)
  | Raise (e : exn).
Arguments Ok {A} a.
Arguments Raise {A} e.

Global Instance result_ret : MRet result := λ A a, Ok a.
Global Instance result_bind : MBind result := λ A B f m,
  match m with Ok a => f a | Raise e => Raise e end.
Global Instance result_fmap : FMap result := λ A B f m,
  match m with Ok a => Ok (f a) | Raise e => Raise e end.

Definition is_Ok {A} (m : result A) : Prop := ∃ a, m = Ok a.
Definition raises {A} (m : result A) : Prop := ∃ e, m = Raise e.

(** [try: ... except: pass] around a computation whose value is kept only
    when it did not raise. *)
Definition try_pass {A} (m : result A) : option A :=
  match m with Ok a => Some a | Raise _ => None end.

(** ** Numbers *)

(** The value of a float, and of an entry of a tensor. *)
Inductive num :=
  | Fin (z : Z)
  | PInf
  | NInf
  | NaN.

Coercion Fin : Z >-> num.
Bind Scope Z_scope with num.

Global Instance num_eq_dec : EqDecision num.
Proof. solve_decision. Defined.

Definition is_finite (x : num) : bool :=
  match x with Fin _ => true | _ => false end.

(** The finite entries [zs]. *)
Definition ints (zs : list Z) : list num := Fin <$> zs.

(** The integer an entry holds. *)
Definition to_Z (x : num) : option Z :=
  match x with Fin z => Some z | _ => None end.

(** [x * y] on floats: [0 * inf] and every product with NaN are NaN. *)
Definition fmul (x y : num) : num :=
  match x, y with
  | NaN, _ | _, NaN => NaN
  | Fin a, Fin b => Fin (a * b)
  | Fin a, PInf | PInf, Fin a =>
      if decide (a = 0)%Z then NaN else if decide (0 < a)%Z then PInf else NInf
  | Fin a, NInf | NInf, Fin a =>
      if decide (a = 0)%Z then NaN else if decide (0 < a)%Z then NInf else PInf
  | PInf, PInf | NInf, NInf => PInf
  | PInf, NInf | NInf, PInf => NInf
  end.

(** [x - y] on floats. *)
Definition fsub (x y : num) : num :=
  match x, y with
  | NaN, _ | _, NaN => NaN
  | Fin a, Fin b => Fin (a - b)
  | Fin _, PInf | NInf, Fin _ | NInf, PInf => NInf
  | Fin _, NInf | PInf, Fin _ | PInf, NInf => PInf
  | PInf, PInf | NInf, NInf => NaN
  end.

(** The integers of int64, and the one a result wraps around to. *)
Definition int64 (z : Z) : Prop := (- 2 ^ 63 ≤ z < 2 ^ 63)%Z.

Global Instance int64_dec z : Decision (int64 z).
Proof. unfold int64. apply _. Defined.

Definition wrap64 (z : Z) : Z := ((z + 2 ^ 63) `mod` 2 ^ 64 - 2 ^ 63)%Z.

(** The integers that [float] converts: beyond them Python raises
    [OverflowError]. *)
Definition float_bound : Z := (2 ^ 1024 - 2 ^ 970)%Z.

Definition float_of_int (z : Z) : result num :=
  if decide (Z.abs z < float_bound)%Z then Ok (Fin z) else Raise OverflowError.

(** ** Tensors *)

Inductive dtype := DBool | DLong | DFloat.

Global Instance dtype_eq_dec : EqDecision dtype.
Proof. solve_decision. Defined.

Record tensor := MkTensor {
  tdtype : dtype;
  tshape : list nat;
  tdata : list num;
  tstrides : list nat
}.

Global Instance tensor_eq_dec : EqDecision tensor.
Proof. solve_decision. Defined.

(** Number of entries of a tensor of the given shape. *)
Definition numel (s : list nat) : nat := foldr Nat.mul 1 s.

Definition tensor_wf (t : tensor) : Prop := length (tdata t) = numel (tshape t).

(** The row-major strides of a shape: the last dimension has stride 1,
    every other one the stride of the next times its size, a size of 0
    counting as 1. *)
Fixpoint contiguous_strides (s : list nat) : list nat :=
  match s with
  | [] => []
  | _ :: rest => foldr (λ n acc, (n `max` 1) * acc) 1 rest :: contiguous_strides rest
  end.

(** The tensor of dtype [dt] and shape [s] with the entries [d], laid
    out row-major. *)
Abbreviation Tensor dt s d := (MkTensor dt s d (contiguous_strides s)).

Definition contiguous (t : tensor) : Prop :=
  tstrides t = contiguous_strides (tshape t).

Global Instance contiguous_dec t : Decision (contiguous t).
Proof. unfold contiguous. apply _. Defined.

(** Result type of an arithmetic operation on two dtypes. *)
Definition promote (a b : dtype) : dtype :=
  match a, b with
  | DFloat, _ | _, DFloat => DFloat
  | DLong, _ | _, DLong => DLong
  | DBool, DBool => DBool
  end.

(** A result stored with dtype [dt]: in int64 it wraps around. *)
Definition cast (dt : dtype) (x : num) : num :=
  match dt, x with
  | DLong, Fin z => Fin (wrap64 z)
  | _, _ => x
  end.

(** [x * y] computed in dtype [dt]. *)
Definition num_mul (dt : dtype) (x y : num) : num := cast dt (fmul x y).

(** An entry that a tensor of dtype [dt] can hold. *)
Definition entry_ok (dt : dtype) (x : num) : Prop :=
  match dt with
  | DBool => x = Fin 0 ∨ x = Fin 1
  | DLong => ∃ z, x = Fin z ∧ int64 z
  | DFloat => True
  end.

(** [numpy.prod] of a shape tuple: an integer for a non-empty tuple, the
    float [1.0] for the empty one. *)
Inductive npnum := NpInt (n : nat) | NpFloat (z : Z).

Definition np_prod (s : list nat) : npnum :=
  match s with
  | [] => NpFloat 1
  | _ => NpInt (numel s)
  end.

(** A numpy scalar used where an integer is required (a list repetition
    count, an entry of a size tuple): a float is a [TypeError]. *)
Definition as_index (n : npnum) : result nat :=
  match n with
  | NpInt k => Ok k
  | NpFloat _ => Raise TypeError
  end.

Module torch.

(** *** Strides *)

(** Whether dimension [d0] is to come after dimension [d1] in storage:
    decided by the first operand in which neither stride is 0, by its
    strides and, when they are equal, by the sizes. *)
Fixpoint should_swap (shp : list nat) (ops : list (list nat)) (d0 d1 : nat)
    : comparison :=
  match ops with
  | [] => Eq
  | st :: ops' =>
      let s0 := st !!! d0 in
      let s1 := st !!! d1 in
      if decide (s0 = 0 ∨ s1 = 0) then should_swap shp ops' d0 d1
      else if decide (s0 < s1) then Lt
      else if decide (s1 < s0) then Gt
      else if decide (shp !!! d1 < shp !!! d0) then Gt
      else should_swap shp ops' d0 d1
  end.

(** One pass of the insertion sort of the dimensions: the dimension at
    position [dim1] moves towards the front past the positions [pos - 1],
    ..., [0], as long as no comparison tells it to stay. *)
Fixpoint sift (shp : list nat) (ops : list (list nat)) (pos : nat)
    (perm : list nat) (dim1 : nat) : list nat :=
  match pos with
  | 0 => perm
  | S dim0 =>
      match should_swap shp ops (perm !!! dim0) (perm !!! dim1) with
      | Gt =>
          sift shp ops dim0
            (<[dim0 := perm !!! dim1]> (<[dim1 := perm !!! dim0]> perm)) dim0
      | Lt => perm
      | Eq => sift shp ops dim0 perm dim1
      end
  end.

(** The dimensions from the fastest to the slowest one. *)
Definition dim_order (shp : list nat) (ops : list (list nat)) : list nat :=
  let n := length shp in
  foldl (λ perm i, sift shp ops i perm i) (reverse (seq 0 n)) (seq 1 (n - 1)).

(** Dense strides for the dimensions in the order [perm]. *)
Definition dense_strides (shp perm : list nat) : list nat :=
  (foldl (λ acc d, (<[d := acc.2]> acc.1, acc.2 * (shp !!! d)))
     (replicate (length shp) 0, 1) perm).1.

(** Strides of the tensor that an elementwise operation allocates for
    its result, of shape [shp], from the strides of its operands under
    that shape: row-major when the operands are, and otherwise dense with
    the dimensions in the order in which the operands have them. *)
Definition elementwise_strides (shp : list nat) (ops : list (list nat))
    : list nat :=
  if decide (Forall (λ st, st = contiguous_strides shp) ops)
  then contiguous_strides shp
  else
    let perm := dim_order shp ops in
    if decide (perm = reverse (seq 0 (length shp)))
    then contiguous_strides shp
    else dense_strides shp perm.

(** The dimensions of the new shape, last one first, that the current
    chunk of [tn] entries with base stride [base] takes up: [vn] entries
    are covered so far. *)
Fixpoint absorb (view : list nat) (base tn vn : nat) (acc : list nat)
    : list nat * list nat * nat :=
  match view with
  | n :: view' =>
      if decide (vn < tn ∨ n = 1)
      then absorb view' base tn (vn * n) (vn * base :: acc)
      else (view, acc, vn)
  | [] => ([], acc, vn)
  end.

(** The dimensions of the tensor, last one first, are cut into chunks
    that lie evenly in storage; each chunk must be made of whole
    dimensions of the new shape. *)
Fixpoint chunk_strides (old : list (nat * nat)) (base tn : nat)
    (view acc : list nat) : option (list nat) :=
  match old with
  | [] => if decide (view = []) then Some acc else None
  | (sz, _) :: old' =>
      let tn := tn * sz in
      match old' with
      | (sz', st') :: _ =>
          if decide (sz' ≠ 1 ∧ st' ≠ tn * base) then
            let '(view', acc', vn) := absorb view base tn 1 acc in
            if decide (vn = tn) then chunk_strides old' st' 1 view' acc'
            else None
          else chunk_strides old' base tn view acc
      | [] =>
          let '(view', acc', vn) := absorb view base tn 1 acc in
          if decide (vn = tn) then chunk_strides old' base 1 view' acc'
          else None
      end
  end.

(** The strides with which a tensor of shape [old] and strides [st] is
    seen under the shape [new], of as many entries, without a copy; there
    are none when the entries do not lie in storage as the new shape
    needs them. *)
Definition view_strides (old st new : list nat) : option (list nat) :=
  if decide (old = []) then Some (replicate (length new) 1)
  else if decide (numel old = 0) then
    if decide (old = new) then Some st else Some (contiguous_strides new)
  else chunk_strides (reverse (zip old st)) (List.last st 1) 1
         (reverse new) [].

(** Strides of an operand of shape [s] and strides [st] seen under the
    shape [out] of a result it is broadcast to: 0 along the dimensions
    that are repeated. *)
Definition expand_strides (out s st : list nat) : list nat :=
  let r := length out in
  zip_with (λ o p, if decide (p.1 = 1 ∧ o ≠ 1) then 0 else p.2) out
    (zip (replicate (r - length s) 1 ++ s) (replicate (r - length st) 0 ++ st)).

(** *** Operations *)

(** [torch.zeros(shape)] *)
Definition zeros (s : list nat) : tensor :=
  Tensor DFloat s (replicate (numel s) (Fin 0)).

(** [t.view(s)]: the same entries under another shape with as many
    entries, when the strides allow it. *)
Definition view (t : tensor) (s : list nat) : result tensor :=
  if decide (numel s = numel (tshape t)) then
    match view_strides (tshape t) (tstrides t) s with
    | Some st => Ok (MkTensor (tdtype t) s (tdata t) st)
    | None => Raise RuntimeError
    end
  else Raise RuntimeError.

(** [t.float()]: the tensor itself when it is a float tensor. *)
Definition float (t : tensor) : tensor :=
  match tdtype t with
  | DFloat => t
  | _ =>
      MkTensor DFloat (tshape t) (tdata t)
        (elementwise_strides (tshape t) [tstrides t])
  end.

(** [t.unsqueeze(-1)] *)
Definition unsqueeze_last (t : tensor) : tensor :=
  MkTensor (tdtype t) (tshape t ++ [1]) (tdata t) (tstrides t ++ [1]).

(** The entries of [1. - t], in a new float tensor. *)
Definition one_sub (t : tensor) : tensor :=
  MkTensor DFloat (tshape t) (map (fsub 1) (tdata t))
    (elementwise_strides (tshape t) [tstrides t]).

(** [1. - t]; subtraction from a bool tensor is refused by torch. *)
Definition rsub1 (t : tensor) : result tensor :=
  match tdtype t with
  | DBool => Raise RuntimeError
  | _ => Ok (one_sub t)
  end.

(** Position of index [i] in a dimension of size [n]; negative indices
    count from the end. *)
Definition norm_index (n : nat) (i : Z) : option nat :=
  if decide (0 ≤ i < Z.of_nat n)%Z then Some (Z.to_nat i)
  else if decide (- Z.of_nat n ≤ i < 0)%Z then Some (Z.to_nat (Z.of_nat n + i))
  else None.

(** The [i]-th block of [size] entries. *)
Definition block (size i : nat) (d : list num) : list num :=
  take size (drop (i * size) d).

(** [t[i]] for an integer [i]: the [i]-th slice along the first
    dimension. *)
Definition select (t : tensor) (i : Z) : result tensor :=
  match tshape t with
  | [] => Raise IndexError
  | n :: rest =>
      match norm_index n i with
      | Some j =>
          Ok (MkTensor (tdtype t) rest (block (numel rest) j (tdata t))
                (drop 1 (tstrides t)))
      | None => Raise IndexError
      end
  end.

(** Broadcasting.  Shapes are aligned at their last dimension; the
    shorter one is completed with leading dimensions of size 1. *)
Definition pad_shape (r : nat) (s : list nat) : list nat :=
  replicate (r - length s) 1 ++ s.

(** Shape of the result for two shapes of the same rank: sizes must
    agree or one of them must be 1. *)
Fixpoint broadcast_shape (s1 s2 : list nat) : option (list nat) :=
  match s1, s2 with
  | [], [] => Some []
  | a :: r1, b :: r2 =>
      match broadcast_shape r1 r2 with
      | Some r =>
          if decide (a = b) then Some (a :: r)
          else if decide (a = 1) then Some (b :: r)
          else if decide (b = 1) then Some (a :: r)
          else None
      | None => None
      end
  | _, _ => None
  end.

(** The first [n] blocks of [size] entries. *)
Fixpoint chunks (n size : nat) (d : list num) : list (list num) :=
  match n with
  | 0 => []
  | S n' => take size d :: chunks n' size (drop size d)
  end.

(** Entries of the broadcast of a binary operation, for two shapes of
    the same rank that [broadcast_shape] accepts. *)
Fixpoint broadcast_data (f : num → num → num) (s1 s2 : list nat)
    (d1 d2 : list num) : list num :=
  match s1, s2 with
  | a :: r1, b :: r2 =>
      let c1 := chunks a (numel r1) d1 in
      let c2 := chunks b (numel r2) d2 in
      if decide (a = b) then
        concat (zip_with (broadcast_data f r1 r2) c1 c2)
      else if decide (a = 1) then
        concat (map (λ c, broadcast_data f r1 r2 d1 c) c2)
      else
        concat (map (λ c, broadcast_data f r1 r2 c d2) c1)
  | _, _ => zip_with f d1 d2
  end.

(** [t1 * t2] *)
Definition mul (t1 t2 : tensor) : result tensor :=
  let r := length (tshape t1) `max` length (tshape t2) in
  let s1 := pad_shape r (tshape t1) in
  let s2 := pad_shape r (tshape t2) in
  match broadcast_shape s1 s2 with
  | Some s =>
      let dt := promote (tdtype t1) (tdtype t2) in
      Ok (MkTensor dt s
            (broadcast_data (num_mul dt) s1 s2 (tdata t1) (tdata t2))
            (elementwise_strides s
               [expand_strides s (tshape t1) (tstrides t1);
                expand_strides s (tshape t2) (tstrides t2)]))
  | None => Raise RuntimeError
  end.

(** [t * c] for a Python number [c] of dtype [dt]. *)
Definition mul_scalar (t : tensor) (dt : dtype) (c : num) : tensor :=
  let rdt := promote (tdtype t) dt in
  MkTensor rdt (tshape t) (map (λ x, num_mul rdt x c) (tdata t))
    (elementwise_strides (tshape t) [tstrides t]).

(** [torch.stack(ts)]: tensors of one shape, along a new first
    dimension. *)
Definition stack (ts : list tensor) : result tensor :=
  match ts with
  | [] => Raise RuntimeError
  | t0 :: _ =>
      if decide (Forall (λ t, tshape t = tshape t0) ts)
      then Ok (Tensor (foldr promote DBool (tdtype <$> ts))
                 (length ts :: tshape t0) (concat (tdata <$> ts)))
      else Raise RuntimeError
  end.

(** [t[key]] for a bool tensor [key]: the blocks of [t] at the
    positions where [key] holds, in a new tensor; the shape of [key] must
    be the leading part of the shape of [t]. *)
Definition masked_select (t key : tensor) : result tensor :=
  let k := length (tshape key) in
  if decide (take k (tshape t) = tshape key) then
    let rest := drop k (tshape t) in
    let blocks := chunks (numel (tshape key)) (numel rest) (tdata t) in
    let kept := (filter (λ p, p.1 ≠ Fin 0) (zip (tdata key) blocks)).*2 in
    Ok (Tensor (tdtype t) (length kept :: rest) (concat kept))
  else Raise IndexError.

(** [t[key]] for a long tensor [key]: the blocks of [t] along its first
    dimension at the positions listed by [key], in a new tensor.  A key
    without dimensions is used as an integer: the result is the slice of
    [t] at that position, with the strides of [t]. *)
Definition index_select (t key : tensor) : result tensor :=
  match tshape t with
  | [] => Raise IndexError
  | n :: rest =>
      match mapM (λ x, to_Z x ≫= norm_index n) (tdata key) with
      | Some js =>
          Ok (MkTensor (tdtype t) (tshape key ++ rest)
                (concat ((λ j, block (numel rest) j (tdata t)) <$> js))
                (if decide (tshape key = []) then drop 1 (tstrides t)
                 else contiguous_strides (tshape key ++ rest)))
      | None => Raise IndexError
      end
  end.

(** [t[key]] for a tensor [key]. *)
Definition index (t key : tensor) : result tensor :=
  match tdtype key with
  | DBool => masked_select t key
  | DLong => index_select t key
  | DFloat => Raise IndexError
  end.

(** [t[start:stop:step]]: torch accepts only positive steps.  The
    entries stay where they are: the stride of the first dimension is
    multiplied by the step. *)
Definition clamp_bound (n : nat) (dflt : nat) (b : option Z) : nat :=
  match b with
  | None => dflt
  | Some z =>
      let z' := if decide (z < 0)%Z then (z + Z.of_nat n)%Z else z in
      Z.to_nat (Z.max 0 (Z.min (Z.of_nat n) z'))
  end.

Definition slice_positions (n : nat) (start stop : option Z) (step : nat)
    : list nat :=
  let lo := clamp_bound n 0 start in
  let hi := clamp_bound n n stop in
  (λ k, lo + k * step) <$> seq 0 ((hi - lo + step - 1) / step).

Definition slice_strides (st : list nat) (step : nat) : list nat :=
  match st with
  | s0 :: ss => s0 * step :: ss
  | [] => []
  end.

Definition slice (t : tensor) (start stop step : option Z) : result tensor :=
  match tshape t with
  | [] => Raise IndexError
  | n :: rest =>
      let st := default 1%Z step in
      if decide (0 < st)%Z then
        let js := slice_positions n start stop (Z.to_nat st) in
        Ok (MkTensor (tdtype t) (length js :: rest)
              (concat ((λ j, block (numel rest) j (tdata t)) <$> js))
              (slice_strides (tstrides t) (Z.to_nat st)))
      else Raise ValueError
  end.

(** [t.unsqueeze(0)] *)
Definition unsqueeze_first (t : tensor) : tensor :=
  MkTensor (tdtype t) (1 :: tshape t) (tdata t)
    (match tshape t, tstrides t with
     | n :: _, s0 :: _ => n * s0
     | _, _ => 1
     end :: tstrides t).

(** [t.squeeze(0)]: a first dimension of size 1 is removed; any other
    tensor is returned as it is. *)
Definition squeeze_first (t : tensor) : tensor :=
  match tshape t with
  | 1 :: rest => MkTensor (tdtype t) rest (tdata t) (drop 1 (tstrides t))
  | _ => t
  end.

(** [torch.from_numpy(np.array(a, dtype=dt))] for an array [a]: a copy
    of the entries under the dtype [dt], which keeps the order of the
    dimensions of [a]; a bool dtype keeps whether an entry is zero. *)
Definition from_array (dt : dtype) (a : tensor) : tensor :=
  MkTensor dt (tshape a)
    match dt with
    | DBool => map (λ x, if decide (x = Fin 0) then Fin 0 else Fin 1) (tdata a)
    | _ => tdata a
    end
    (elementwise_strides (tshape a) [tstrides a]).

End torch.

(** ** Python values held by the fields of a state *)

Inductive value :=
  | VNone
  | VBool (b : bool)
  | VInt (z : Z)
  | VFloat (x : num)
  | VTensor (t : tensor).

Global Instance value_eq_dec : EqDecision value.
Proof. solve_decision. Defined.

Definition Z_of_bool (b : bool) : Z := if b then 1%Z else 0%Z.

Module py.

(** [1. - v] *)
Definition rsub1 (v : value) : result value :=
  match v with
  | VNone => Raise TypeError
  | VBool b => Ok (VFloat (1 - Z_of_bool b))
  | VInt z => x ← float_of_int z; Ok (VFloat (fsub 1 x))
  | VFloat x => Ok (VFloat (fsub 1 x))
  | VTensor t => VTensor <$> torch.rsub1 t
  end.

(** [v.float()] *)
Definition float (v : value) : result value :=
  match v with
  | VTensor t => Ok (VTensor (torch.float t))
  | _ => Raise AttributeError
  end.

(** [v.view(s)] *)
Definition view (v : value) (s : list nat) : result value :=
  match v with
  | VTensor t => VTensor <$> torch.view t s
  | _ => Raise AttributeError
  end.

(** [v.view(s + v.shape[dims:])], the size tuple built by unpacking both. *)
Definition view_batch (v : value) (s : list nat) (dims : nat) : result value :=
  match v with
  | VTensor t => VTensor <$> torch.view t (s ++ drop dims (tshape t))
  | _ => Raise AttributeError
  end.

(** [v[i]] for an integer [i] *)
Definition getitem_int (v : value) (i : Z) : result value :=
  match v with
  | VTensor t => VTensor <$> torch.select t i
  | _ => Raise TypeError
  end.

(** [v[key]] for a tensor [key] *)
Definition getitem_tensor (v : value) (key : tensor) : result value :=
  match v with
  | VTensor t => VTensor <$> torch.index t key
  | _ => Raise TypeError
  end.

(** [v[start:stop:step]] *)
Definition getitem_slice (v : value) (start stop step : option Z)
    : result value :=
  match v with
  | VTensor t => VTensor <$> torch.slice t start stop step
  | _ => Raise TypeError
  end.

(** [v.shape] *)
Definition shape_of (v : value) : result (list nat) :=
  match v with
  | VTensor t => Ok (tshape t)
  | _ => Raise AttributeError
  end.

(** [v.unsqueeze(-1)] *)
Definition unsqueeze_last (v : value) : result tensor :=
  match v with
  | VTensor t => Ok (torch.unsqueeze_last t)
  | _ => Raise AttributeError
  end.

(** [tensor * v]: a Python integer must fit in int64. *)
Definition mul (t : tensor) (v : value) : result tensor :=
  match v with
  | VNone => Raise TypeError
  | VBool b => Ok (torch.mul_scalar t DBool (Z_of_bool b))
  | VInt z =>
      if decide (int64 z) then Ok (torch.mul_scalar t DLong z)
      else Raise RuntimeError
  | VFloat x => Ok (torch.mul_scalar t DFloat x)
  | VTensor m => torch.mul t m
  end.

(** [torch.is_tensor(v)] *)
Definition is_tensor (v : value) : bool :=
  match v with VTensor _ => true | _ => false end.

(** [torch.stack(vs)] on Python values: every one must be a tensor. *)
Definition stack (vs : list value) : result value :=
  match mapM (λ v, match v with VTensor t => Some t | _ => None end) vs with
  | Some ts => VTensor <$> torch.stack ts
  | None => Raise TypeError
  end.

(** One entry of the list given to [torch.tensor]: a Python number, or
    a tensor with a single entry, which is converted to a number.
    [None] and the other tensors are refused. *)
Definition scalar_entry (v : value) : option (dtype * num) :=
  match v with
  | VNone => None
  | VBool b => Some (DBool, Fin (Z_of_bool b))
  | VInt z => Some (DLong, Fin z)
  | VFloat x => Some (DFloat, x)
  | VTensor t =>
      match tdata t with
      | [x] => Some (tdtype t, x)
      | _ => None
      end
  end.

(** A Python integer that an int64 tensor, or a float tensor, can hold. *)
Definition fits (dt : dtype) (v : value) : bool :=
  match v, dt with
  | VInt z, DLong => bool_decide (int64 z)
  | VInt z, DFloat => bool_decide (Z.abs z < float_bound)%Z
  | _, _ => true
  end.

(** [torch.tensor(vs)] for a flat list of entries; the empty list
    gives an empty float tensor.  The dtype is inferred first, which
    fails on [None]; then the entries are converted. *)
Definition tensor_of_list (vs : list value) : result value :=
  match mapM scalar_entry vs with
  | Some [] => Ok (VTensor (Tensor DFloat [0] []))
  | Some es =>
      let dt := foldr promote DBool es.*1 in
      if forallb (fits dt) vs
      then Ok (VTensor (Tensor dt [length es] es.*2))
      else Raise (match dt with DLong => RuntimeError | _ => OverflowError end)
  | None => Raise (if decide (VNone ∈ vs) then RuntimeError else ValueError)
  end.

(** [v.unsqueeze(0)] *)
Definition unsqueeze_first (v : value) : result tensor :=
  match v with
  | VTensor t => Ok (torch.unsqueeze_first t)
  | _ => Raise AttributeError
  end.

(** [float(v)]: a number, or a tensor with a single entry. *)
Definition to_float (v : value) : result value :=
  match v with
  | VNone => Raise TypeError
  | VBool b => Ok (VFloat (Z_of_bool b))
  | VInt z => VFloat <$> float_of_int z
  | VFloat x => Ok (VFloat x)
  | VTensor t =>
      match tdata t with
      | [x] => Ok (VFloat x)
      | _ => Raise ValueError
      end
  end.

End py.

(** ** Dictionaries *)

(** [if k not in x: x[k] = v] *)
Definition setdefault (k : string) (v : value) (x : gmap string value)
    : gmap string value :=
  match x !! k with
  | Some _ => x
  | None => <[k := v]> x
  end.

(** [for k, v in kwargs.items(): x[k] = v] *)
Definition merge_kwargs (x kwargs : gmap string value) : gmap string value :=
  kwargs ∪ x.

(** [{k: f(v) for (k, v) in d.items()}]: raises as soon as one [f(v)]
    raises.  The fields are visited in the order of the map, which need
    not be the insertion order of the dict: when several fields raise,
    the exception reported may be that of another one of them. *)
Definition dict_mapM (f : value → result value) (d : gmap string value)
    : result (gmap string value) :=
  list_to_map <$> mapM (λ kv, (λ v', (kv.1, v')) <$> f kv.2) (map_to_list d).

(** The same comprehension with each [f(v)] inside [try: ... except: pass]:
    the keys whose [f(v)] raises are left out. *)
Definition dict_try_map (f : string → value → result value)
    (d : gmap string value) : gmap string value :=
  map_imap (λ k v, try_pass (f k v)) d.

(** ** Instances *)

Inductive class := CState | CStateTensor.

Record state := MkState {
  cls : class;
  items : gmap string value;
  shape : list nat;
  device : string
}.

(** First argument of the constructors: a dict, or anything else, which
    becomes the observation. *)
Inductive init_arg :=
  | ArgDict (d : gmap string value)
  | ArgOther (v : value).

Definition as_dict (x : init_arg) : gmap string value :=
  match x with
  | ArgDict d => d
  | ArgOther v => {["observation" := v]}
  end.

Definition core_keys : list string := ["observation"; "reward"; "done"; "mask"].

(** Every core key is bound. *)
Definition has_core (d : gmap string value) : Prop :=
  Forall (λ k, is_Some (d !! k)) core_keys.

(** [State.__init__], lines 8-19: the dict the new instance is filled
    from. *)
Definition State_fields (x : init_arg) (kwargs : gmap string value)
    : result (gmap string value) :=
  let x := as_dict x in
  let x := merge_kwargs x kwargs in
  match x !! "observation" with
  | None => Raise (Exception "State must contain an observation")
  | Some _ =>
      let x := setdefault "reward" (VFloat 0) x in
      let x := setdefault "done" (VBool false) x in
      match x !! "mask" with
      | Some _ => Ok x
      | None =>
          match x !! "done" with
          | Some d => m ← py.rsub1 d; Ok (<["mask" := m]> x)
          | None => Raise KeyError
          end
      end
  end.

(** [State(x, device=device, **kwargs)] *)
Definition State_init (x : init_arg) (dev : string)
    (kwargs : gmap string value) : result state :=
  d ← State_fields x kwargs;
  Ok (MkState CState d [] dev).

(** [StateTensor.__init__], lines 110-121. *)
Definition StateTensor_fields (x : init_arg) (shp : list nat)
    (kwargs : gmap string value) : result (gmap string value) :=
  let x := as_dict x in
  let x := merge_kwargs x kwargs in
  match x !! "observation" with
  | None => Raise (Exception "StateTensor must contain an observation")
  | Some _ =>
      let x := setdefault "reward" (VTensor (torch.zeros shp)) x in
      x ← match x !! "done" with
          | Some _ => Ok x
          | None =>
              n ← as_index (np_prod shp);
              t ← py.tensor_of_list (replicate n (VBool false));
              d ← py.view t shp;
              Ok (<["done" := d]> x)
          end;
      match x !! "mask" with
      | Some _ => Ok x
      | None =>
          match x !! "done" with
          | Some d => f ← py.float d; m ← py.rsub1 f; Ok (<["mask" := m]> x)
          | None => Raise KeyError
          end
      end
  end.

(** [StateTensor(x, shape, device=device, **kwargs)]: the dict is handed
    to [State.__init__], then [self.shape] is set. *)
Definition StateTensor_init (x : init_arg) (shp : list nat) (dev : string)
    (kwargs : gmap string value) : result state :=
  d ← StateTensor_fields x shp kwargs;
  s ← State_init (ArgDict d) dev ∅;
  Ok (MkState CStateTensor (items s) shp (device s)).

(** ** Subscripting *)

(** [dict.__getitem__(self, k)], which [State] inherits. *)
Definition State_getitem (s : state) (k : string) : result value :=
  match items s !! k with
  | Some v => Ok v
  | None => Raise KeyError
  end.

(** Keys accepted by [StateTensor.__getitem__]. *)
Inductive key :=
  | KSlice (start stop step : option Z)
  | KInt (i : Z)
  | KTensor (t : tensor)
  | KStr (k : string).

(** What a subscript returns: an instance or the value of a field. *)
Inductive item :=
  | IState (s : state)
  | IValue (v : value).

(** [StateTensor.__getitem__], last branch (lines 190-194). *)
Definition StateTensor_getitem_str (s : state) (k : string) : value :=
  match State_getitem s k with
  | Ok v => v
  | Raise _ => VNone
  end.

(** [StateTensor.__getitem__] *)
Definition StateTensor_getitem (s : state) (k : key) : result item :=
  match k with
  | KSlice start stop step =>
      m ← py.getitem_slice (StateTensor_getitem_str s "mask") start stop step;
      shp ← py.shape_of m;
      d ← dict_mapM (λ v, py.getitem_slice v start stop step) (items s);
      IState <$> StateTensor_init (ArgDict d) shp (device s) ∅
  | KInt i =>
      d ← dict_mapM (λ v, py.getitem_int v i) (items s);
      IState <$> State_init (ArgDict d) (device s) ∅
  | KTensor t =>
      m ← py.getitem_tensor (StateTensor_getitem_str s "mask") t;
      shp ← py.shape_of m;
      let d := dict_try_map (λ _ v, py.getitem_tensor v t) (items s) in
      IState <$> StateTensor_init (ArgDict d) shp (device s) ∅
  | KStr k => Ok (IValue (StateTensor_getitem_str s k))
  end.

(** [state[key]] for a string key, by the class of [state]. *)
Definition getitem_str (s : state) (k : string) : result value :=
  match cls s with
  | CState => State_getitem s k
  | CStateTensor => Ok (StateTensor_getitem_str s k)
  end.

(** ** Methods of State *)

(** [State.from_list], lines 32-35: the values of all the states under
    [k], stacked when the first one, [v], is a tensor and turned into a
    tensor otherwise. *)
Definition combine (list_of_states : list state) (k : string) (v : value)
    : result value :=
  vs ← mapM (λ st, getitem_str st k) list_of_states;
  if py.is_tensor v then py.stack vs else py.tensor_of_list vs.

(** [State.from_list] *)
Definition State_from_list (list_of_states : list state) : result state :=
  match list_of_states with
  | [] => Raise IndexError
  | s0 :: _ =>
      let dev := device s0 in
      let shp := length list_of_states :: shape s0 in
      let x := dict_try_map (combine list_of_states) (items s0) in
      StateTensor_init (ArgDict x) shp dev ∅
  end.

(** [State.apply_mask] *)
Definition State_apply_mask (s : state) (t : tensor) : result tensor :=
  m ← State_getitem s "mask";
  py.mul t m.

(** The dict built by [update]: every binding but the one of [k], then
    [k] bound to [v]. *)
Definition updated_items (s : state) (k : string) (v : value)
    : gmap string value :=
  <[k := v]> (filter (λ kv, kv.1 ≠ k) (items s)).

(** [State.update] *)
Definition State_update (s : state) (k : string) (v : value) : result state :=
  State_init (ArgDict (updated_items s k v)) (device s) ∅.

(** ** Methods of StateTensor *)

(** [StateTensor.update] *)
Definition StateTensor_update (s : state) (k : string) (v : value)
    : result state :=
  StateTensor_init (ArgDict (updated_items s k v)) (shape s) (device s) ∅.

(** [StateTensor.apply_mask] *)
Definition StateTensor_apply_mask (s : state) (t : tensor) : result tensor :=
  m ← py.unsqueeze_last (StateTensor_getitem_str s "mask");
  torch.mul t m.

(** [StateTensor.flatten] *)
Definition StateTensor_flatten (s : state) : result state :=
  let n := np_prod (shape s) in
  let dims := length (shape s) in
  x ← dict_mapM (λ v, k ← as_index n; py.view_batch v [k] dims) (items s);
  k ← as_index n;
  StateTensor_init (ArgDict x) [k] (device s) ∅.

(** [StateTensor.view] *)
Definition StateTensor_view (s : state) (shp : list nat) : result state :=
  let dims := length (shape s) in
  x ← dict_mapM (λ v, py.view_batch v shp dims) (items s);
  StateTensor_init (ArgDict x) shp (device s) ∅.

(** [s.update(k, v)], resolved by the class of [s]. *)
Definition update (s : state) (k : string) (v : value) : result state :=
  match cls s with
  | CState => State_update s k v
  | CStateTensor => StateTensor_update s k v
  end.

(** [s.apply_mask(t)], resolved by the class of [s]. *)
Definition apply_mask (s : state) (t : tensor) : result tensor :=
  match cls s with
  | CState => State_apply_mask s t
  | CStateTensor => StateTensor_apply_mask s t
  end.

(** An instance as the constructors leave it: the core keys are bound,
    and a plain [State] has the empty shape. *)
Definition constructed (s : state) : Prop :=
  has_core (items s) ∧ (cls s = CState → shape s = []).

(** Every field is a tensor whose leading dimensions are the batch
    shape. *)
Definition batched (s : state) : Prop :=
  ∀ k v, items s !! k = Some v →
    ∃ t, v = VTensor t ∧ take (length (shape s)) (tshape t) = shape s.

(** Every tensor field is laid out row-major. *)
Definition contiguous_fields (s : state) : Prop :=
  ∀ k t, items s !! k = Some (VTensor t) → contiguous t.

(** The default [done] of a batch of shape [shp]: what
    [torch.tensor([False] * n).view(shp)] evaluates to. *)
Definition default_done (shp : list nat) : tensor :=
  Tensor (if decide (numel shp = 0) then DFloat else DBool) shp
    (replicate (numel shp) (Fin 0)).

(** [1. - t.float()] *)
Definition one_minus (t : tensor) : tensor :=
  torch.one_sub (torch.float t).

(** ** Model inputs and outputs *)

(** [State.as_input] *)
Definition State_as_input (s : state) (k : string) : result tensor :=
  v ← State_getitem s k;
  py.unsqueeze_first v.

(** [State.as_output] *)
Definition State_as_output (t : tensor) : tensor :=
  torch.squeeze_first t.

(** [StateTensor.as_input]: the attribute [view] is looked up on the
    value before the size tuple is built. *)
Definition StateTensor_as_input (s : state) (k : string) : result tensor :=
  match StateTensor_getitem_str s k with
  | VTensor t =>
      n ← as_index (np_prod (shape s));
      t' ← torch.view t (n :: drop (length (shape s)) (tshape t));
      Ok (torch.float t')
  | _ => Raise AttributeError
  end.

(** [StateTensor.as_output] *)
Definition StateTensor_as_output (s : state) (t : tensor) : result tensor :=
  torch.view t (shape s ++ drop 1 (tshape t)).

(** [s.as_input(k)] and [s.as_output(t)], resolved by the class of [s]. *)
Definition as_input (s : state) (k : string) : result tensor :=
  match cls s with
  | CState => State_as_input s k
  | CStateTensor => StateTensor_as_input s k
  end.

Definition as_output (s : state) (t : tensor) : result tensor :=
  match cls s with
  | CState => Ok (State_as_output t)
  | CStateTensor => StateTensor_as_output s t
  end.

(** [State.apply], which [StateTensor] inherits: the model is any
    function from the list of its inputs to a tensor, and may raise. *)
Definition apply (s : state) (model : list tensor → result tensor)
    (keys : list string) : result tensor :=
  ins ← mapM (as_input s) keys;
  out ← model ins;
  o ← as_output s out;
  apply_mask s o.

(** [State.__len__] and [StateTensor.__len__] *)
Definition State_len (s : state) : nat := 1.

Definition StateTensor_len (s : state) : result nat :=
  match shape s with
  | [] => Raise IndexError
  | n :: _ => Ok n
  end.

(** [len(s)], resolved by the class of [s]. *)
Definition len (s : state) : result nat :=
  match cls s with
  | CState => Ok (State_len s)
  | CStateTensor => StateTensor_len s
  end.

(** ** States from gym *)

(** What [from_gym] is given: an observation array, or the tuple
    [(observation, reward, done, info)] that its unpacking expects, where
    [info] is a dict or [None]. *)
Inductive gym_state :=
  | GymObservation (a : tensor)
  | GymStep (a : tensor) (reward done : value)
      (info : option (gmap string value)).

(** [State.from_gym]: the entries of [info] are assigned after the three
    fields of the transition. *)
Definition State_from_gym (st : gym_state) (dev : string) (dt : dtype)
    : result state :=
  match st with
  | GymObservation a =>
      State_init (ArgDict {["observation" := VTensor (torch.from_array dt a)]})
        dev ∅
  | GymStep a reward done info =>
      let observation := VTensor (torch.from_array dt a) in
      r ← py.to_float reward;
      let x : gmap string value :=
        <["done" := done]>
          (<["reward" := r]> {["observation" := observation]}) in
      let info := default ∅ info in
      State_init (ArgDict (info ∪ x)) dev ∅
  end.

(** ** Objects and references

    [State.__init__] assigns into the dict it is given, and [update]
    builds a new dict from the fields of [self].  To say which objects
    these calls change, dicts and instances are also placed in a store
    and passed by reference. *)

Inductive object :=
  | ODict (d : gmap string value)
  | OState (s : state).

(** The bindings of an object: [State] is a subclass of [dict]. *)
Definition dict_of (o : object) : gmap string value :=
  match o with
  | ODict d => d
  | OState s => items s
  end.

(** The object after assignments that leave it with the bindings [d]. *)
Definition set_dict (o : object) (d : gmap string value) : object :=
  match o with
  | ODict _ => ODict d
  | OState s => OState (MkState (cls s) d (shape s) (device s))
  end.

(** A new object, at a reference that is not in use. *)
Definition alloc (o : object) (h : gmap nat object) : nat * gmap nat object :=
  let l := fresh (dom h) in (l, <[l := o]> h).

(** First argument of the constructors, by reference: an object of the
    store, or a value that is not a dict. *)
Inductive arg_ref :=
  | RefObj (l : nat)
  | RefOther (v : value).

(** The dict [x] of the constructors' first lines: the argument itself,
    or a new dict [{'observation': x}]. *)
Definition arg_dict (x : arg_ref) (h : gmap nat object)
    : nat * gmap nat object :=
  match x with
  | RefObj l => (l, h)
  | RefOther v => alloc (ODict {["observation" := v]}) h
  end.

(** [State(x, device=dev, **kwargs)] on the store: lines 10-19 assign into
    [x]; [super().__init__(x)] copies its bindings into the new instance.
    A reference always denotes an object; the remaining case has no
    counterpart in Python. *)
Definition State_init_h (x : arg_ref) (dev : string)
    (kwargs : gmap string value) (h : gmap nat object)
    : result (nat * gmap nat object) :=
  let '(lx, h) := arg_dict x h in
  match h !! lx with
  | None => Raise RuntimeError
  | Some o =>
      d ← State_fields (ArgDict (dict_of o)) kwargs;
      Ok (alloc (OState (MkState CState d [] dev)) (<[lx := set_dict o d]> h))
  end.

(** [StateTensor(x, shp, device=dev, **kwargs)] on the store. *)
Definition StateTensor_init_h (x : arg_ref) (shp : list nat) (dev : string)
    (kwargs : gmap string value) (h : gmap nat object)
    : result (nat * gmap nat object) :=
  let '(lx, h) := arg_dict x h in
  match h !! lx with
  | None => Raise RuntimeError
  | Some o =>
      d ← StateTensor_fields (ArgDict (dict_of o)) shp kwargs;
      d' ← State_fields (ArgDict d) ∅;
      Ok (alloc (OState (MkState CStateTensor d' shp dev))
            (<[lx := set_dict o d']> h))
  end.

(** The first lines of [update] on the store: [x = {}], the loop over
    [self.keys()], then [x[key] = value]. *)
Definition update_dict_h (s : state) (k : string) (v : value)
    (h : gmap nat object) : nat * gmap nat object :=
  let '(x, h) := alloc (ODict ∅) h in
  let h := <[x := ODict (filter (λ kv, kv.1 ≠ k) (items s))]> h in
  (x, <[x := ODict (updated_items s k v)]> h).

(** [self.update(key, value)] on the store, resolved by the class of
    [self]. *)
Definition update_h (self : nat) (k : string) (v : value)
    (h : gmap nat object) : result (nat * gmap nat object) :=
  match h !! self with
  | Some (OState s) =>
      let '(x, h) := update_dict_h s k v h in
      match cls s with
      | CState => State_init_h (RefObj x) (device s) ∅ h
      | CStateTensor => StateTensor_init_h (RefObj x) (shape s) (device s) ∅ h
      end
  | _ => Raise AttributeError
  end.

(** The value of a computation that did not raise. *)
Definition from_ok {A} (dflt : A) (m : result A) : A :=
  match m with Ok a => a | Raise _ => dflt end.

(** ** Fields under reshaping and indexing *)

(** A tensor field after a reshape of its [dims] batch dimensions to
    [new]: the same entries, the trailing dimensions kept. *)
Definition reshape_field (new : list nat) (dims : nat) (v : value) : value :=
  match v with
  | VTensor t =>
      VTensor (Tensor (tdtype t) (new ++ drop dims (tshape t)) (tdata t))
  | _ => v
  end.

(** Slot [j] of a tensor field: the first dimension removed, the [j]-th
    block of entries. *)
Definition slot_field (j : nat) (v : value) : value :=
  match v with
  | VTensor t =>
      VTensor (MkTensor (tdtype t) (drop 1 (tshape t))
                 (torch.block (numel (drop 1 (tshape t))) j (tdata t))
                 (drop 1 (tstrides t)))
  | _ => v
  end.

(** [s.flatten().view(s.shape)] gives [s] again. *)
Definition flatten_view_restores (s : state) : Prop :=
  (f ← StateTensor_flatten s; StateTensor_view f (shape s)) = Ok s.

(** ** Masking slot by slot *)

(** The blocks of [size] entries of [d], the [j]-th one multiplied by the
    [j]-th entry of [m]; [f] is the product. *)
Fixpoint scale_blocks (f : num → num → num) (size : nat) (d m : list num)
    : list num :=
  match m with
  | [] => []
  | c :: m' =>
      map (λ x, f x c) (take size d) ++ scale_blocks f size (drop size d) m'
  end.

(** What the specification asks of [apply_mask] on a batch, for a tensor
    with any number of trailing dimensions: the tensor keeps its shape,
    and all the entries of a slot are multiplied by the mask of that
    slot. *)
Definition masked_slots (t m : tensor) : tensor :=
  Tensor (promote (tdtype t) (tdtype m)) (tshape t)
    (scale_blocks (num_mul (promote (tdtype t) (tdtype m)))
       (numel (drop (length (tshape m)) (tshape t))) (tdata t) (tdata m)).

(** A mask that is a number or a tensor without dimensions, with its
    dtype: a Python integer must fit in int64. *)
Definition scalar_mask (v : value) : option (dtype * num) :=
  match v with
  | VNone => None
  | VBool b => Some (DBool, Fin (Z_of_bool b))
  | VInt z => if decide (int64 z) then Some (DLong, Fin z) else None
  | VFloat x => Some (DFloat, x)
  | VTensor m =>
      match tshape m, tdata m with
      | [], [c] => Some (tdtype m, c)
      | _, _ => None
      end
  end.

(** The instance without its field [k]. *)
Definition without (k : string) (s : state) : state :=
  MkState (cls s) (delete k (items s)) (shape s) (device s).

(** ** Row-major strides *)

(** The stride that the sizes [s] of the following dimensions give. *)
Definition numel1 (s : list nat) : nat := foldr (λ n acc, (n `max` 1) * acc) 1 s.

(** The strides that [absorb] gives to the dimensions [view]. *)
Fixpoint stride_acc (view : list nat) (vn : nat) (acc : list nat) : list nat :=
  match view with
  | [] => acc
  | n :: view' => stride_acc view' (vn * n) (vn :: acc)
  end.

(** Dimensions, last one first, each with the stride that the sizes
    before it give it. *)
Fixpoint chain (L : list (nat * nat)) (tn : nat) : Prop :=
  match L with
  | [] => True
  | (sz, st) :: L' => st = tn ∧ chain L' (tn * sz)
  end.

(** The product of the sizes. *)
Definition sizes (L : list (nat * nat)) : nat := foldr (λ p acc, p.1 * acc) 1 L.

(** ** Sample values *)

(** A batch of two observations with three features each. *)
Definition sample_obs : value :=
  VTensor (Tensor DFloat [2; 3] (ints [1; 2; 3; 4; 5; 6]%Z)).

(** A plain state whose observation is a vector of three features. *)
Definition sample_state : state :=
  MkState CState
    (<["observation" := VTensor (Tensor DFloat [3] (ints [1; 2; 3]%Z))]>
       (<["reward" := VFloat 0]>
          (<["done" := VBool false]> {["mask" := VFloat 1]})))
    [] "cpu".

(** A batch whose shape is the empty tuple. *)
Definition scalar_batch : state :=
  MkState CStateTensor
    (<["observation" := VTensor (Tensor DFloat [] (ints [5]%Z))]>
       (<["reward" := VTensor (Tensor DFloat [] (ints [0]%Z))]>
          (<["done" := VTensor (Tensor DBool [] (ints [0]%Z))]>
             {["mask" := VTensor (Tensor DFloat [] (ints [1]%Z))]})))
    [] "cpu".

(** A batch of two slots, the second one terminated. *)
Definition sample_batch : state :=
  MkState CStateTensor
    (<["observation" := sample_obs]>
       (<["reward" := VTensor (Tensor DFloat [2] (ints [0; 0]%Z))]>
          (<["done" := VTensor (Tensor DBool [2] (ints [0; 1]%Z))]>
             {["mask" := VTensor (Tensor DFloat [2] (ints [1; 0]%Z))]})))
    [2] "cpu".

(** A batch of shape (2, 2) with one feature per slot. *)
Definition sample_grid : state :=
  MkState CStateTensor
    (<["observation" := VTensor (Tensor DFloat [2; 2; 1] (ints [1; 2; 3; 4]%Z))]>
       (<["reward" := VTensor (Tensor DFloat [2; 2] (ints [0; 0; 0; 0]%Z))]>
          (<["done" := VTensor (Tensor DBool [2; 2] (ints [0; 0; 0; 1]%Z))]>
             {["mask" := VTensor (Tensor DFloat [2; 2] (ints [1; 1; 1; 0]%Z))]})))
    [2; 2] "cpu".

(** A batch of shape (4, 2) with one feature per slot, none of them
    terminated. *)
Definition tall_batch : state :=
  MkState CStateTensor
    (<["observation" :=
         VTensor (Tensor DFloat [4; 2; 1] (ints [1; 2; 3; 4; 5; 6; 7; 8]%Z))]>
       (<["reward" := VTensor (torch.zeros [4; 2])]>
          (<["done" := VTensor (default_done [4; 2])]>
             {["mask" := VTensor (Tensor DFloat [4; 2]
                                    (replicate 8 (Fin 1)))]})))
    [4; 2] "cpu".

(** Every second row of [tall_batch]: the fields keep the strides of
    the rows they are taken from. *)
Definition strided_batch : state :=
  MkState CStateTensor
    (<["observation" :=
         VTensor (MkTensor DFloat [2; 2; 1] (ints [1; 2; 5; 6]%Z) [4; 1; 1])]>
       (<["reward" :=
            VTensor (MkTensor DFloat [2; 2] (replicate 4 (Fin 0)) [4; 1])]>
          (<["done" :=
               VTensor (MkTensor DBool [2; 2] (replicate 4 (Fin 0)) [4; 1])]>
             {["mask" :=
                 VTensor (MkTensor DFloat [2; 2] (replicate 4 (Fin 1))
                            [4; 1])]})))
    [2; 2] "cpu".

(** A batch of three slots with a side-channel field that is a number. *)
Definition noted_batch : state :=
  MkState CStateTensor
    (<["observation" := VTensor (Tensor DFloat [3] (ints [1; 2; 3]%Z))]>
       (<["reward" := VTensor (torch.zeros [3])]>
          (<["done" := VTensor (default_done [3])]>
             (<["info" := VFloat 7]>
                {["mask" := VTensor (Tensor DFloat [3]
                                       (replicate 3 (Fin 1)))]}))))
    [3] "cpu".

(** A plain state whose mask is the integer 4. *)
Definition scaled_state : state :=
  MkState CState
    (<["observation" := VTensor (Tensor DFloat [3] (ints [1; 2; 3]%Z))]>
       (<["reward" := VFloat 0]>
          (<["done" := VBool false]> {["mask" := VInt 4]})))
    [] "cpu".

(** A batch of three slots whose [done] is not a tensor. *)
Definition indexed_batch : state :=
  MkState CStateTensor
    (<["observation" := VTensor (Tensor DFloat [3] (ints [1; 2; 3]%Z))]>
       (<["reward" := VTensor (torch.zeros [3])]>
          (<["done" := VBool false]>
             {["mask" := VTensor (Tensor DFloat [3]
                                    (replicate 3 (Fin 1)))]})))
    [3] "cpu".


(** Two plain states whose observations have different shapes. *)
Definition short_state : state :=
  MkState CState
    (<["observation" := VTensor (Tensor DFloat [2] (ints [1; 2]%Z))]>
       (<["reward" := VFloat 0]>
          (<["done" := VBool false]> {["mask" := VFloat 1]})))
    [] "cpu".

Definition long_state : state :=
  MkState CState
    (<["observation" := VTensor (Tensor DFloat [3] (ints [1; 2; 3]%Z))]>
       (<["reward" := VFloat 0]>
          (<["done" := VBool false]> {["mask" := VFloat 1]})))
    [] "cpu".

(** A plain state whose reward is a zero-dimensional tensor, and one
    whose reward is a number. *)
Definition tensor_reward_state : state :=
  MkState CState
    (<["observation" := VTensor (Tensor DFloat [3] (ints [1; 2; 3]%Z))]>
       (<["reward" := VTensor (Tensor DFloat [] (ints [1]%Z))]>
          (<["done" := VBool false]> {["mask" := VFloat 1]})))
    [] "cpu".

Definition float_reward_state : state :=
  MkState CState
    (<["observation" := VTensor (Tensor DFloat [3] (ints [4; 5; 6]%Z))]>
       (<["reward" := VFloat 2]>
          (<["done" := VBool false]> {["mask" := VFloat 1]})))
    [] "cpu".

(** A plain state with a side-channel field that is [None]. *)
Definition info_state : state :=
  MkState CState
    (<["observation" := VTensor (Tensor DFloat [3] (ints [1; 2; 3]%Z))]>
       (<["reward" := VFloat 0]>
          (<["done" := VBool false]>
             (<["info" := VNone]> {["mask" := VFloat 1]}))))
    [] "cpu".

(** * Properties *)

(** ** The sample instances are instances the constructors return *)

Example sample_state_init :
  State_init (ArgOther (VTensor (Tensor DFloat [3] (ints [1; 2; 3]%Z)))) "cpu" ∅ =
    Ok sample_state.
Proof. vm_compute. reflexivity. Qed.

Example sample_batch_init :
  StateTensor_init (ArgOther sample_obs) [2] "cpu"
    {["done" := VTensor (Tensor DBool [2] (ints [0; 1]%Z))]} = Ok sample_batch.
Proof. vm_compute. reflexivity. Qed.

Example sample_grid_init :
  StateTensor_init
    (ArgDict {["observation" :=
                 VTensor (Tensor DFloat [2; 2; 1] (ints [1; 2; 3; 4]%Z))]})
    [2; 2] "cpu"
    {["done" := VTensor (Tensor DBool [2; 2] (ints [0; 0; 0; 1]%Z))]} =
    Ok sample_grid.
Proof. vm_compute. reflexivity. Qed.

Example info_state_init :
  State_init (ArgOther (VTensor (Tensor DFloat [3] (ints [1; 2; 3]%Z)))) "cpu"
    {["info" := VNone]} = Ok info_state.
Proof. vm_compute. reflexivity. Qed.

(** The last slot of [sample_batch], as a batch of one slot. *)
Example sample_batch_slice :
  StateTensor_getitem sample_batch (KSlice (Some 1%Z) None None) =
    Ok (IState (MkState CStateTensor
      (<["observation" := VTensor (Tensor DFloat [1; 3] (ints [4; 5; 6]%Z))]>
         (<["reward" := VTensor (Tensor DFloat [1] (ints [0]%Z))]>
            (<["done" := VTensor (Tensor DBool [1] (ints [1]%Z))]>
               {["mask" := VTensor (Tensor DFloat [1] (ints [0]%Z))]})))
      [1] "cpu")).
Proof. vm_compute. reflexivity. Qed.

(** The slots of [sample_batch] selected by a bool tensor. *)
Example sample_batch_select :
  StateTensor_getitem sample_batch (KTensor (Tensor DBool [2] (ints [1; 0]%Z))) =
    Ok (IState (MkState CStateTensor
      (<["observation" := VTensor (Tensor DFloat [1; 3] (ints [1; 2; 3]%Z))]>
         (<["reward" := VTensor (Tensor DFloat [1] (ints [0]%Z))]>
            (<["done" := VTensor (Tensor DBool [1] (ints [0]%Z))]>
               {["mask" := VTensor (Tensor DFloat [1] (ints [1]%Z))]})))
      [1] "cpu")).
Proof. vm_compute. reflexivity. Qed.

(** The last row of [sample_grid]: a plain state whose fields keep the
    second batch dimension. *)
Example sample_grid_last_row :
  StateTensor_getitem sample_grid (KInt (-1)) =
    Ok (IState (MkState CState
      (<["observation" := VTensor (Tensor DFloat [2; 1] (ints [3; 4]%Z))]>
         (<["reward" := VTensor (Tensor DFloat [2] (ints [0; 0]%Z))]>
            (<["done" := VTensor (Tensor DBool [2] (ints [0; 1]%Z))]>
               {["mask" := VTensor (Tensor DFloat [2] (ints [1; 0]%Z))]})))
      [] "cpu")).
Proof. vm_compute. reflexivity. Qed.

(** ** Strides *)

Lemma contiguous_strides_cons a s :
  contiguous_strides (a :: s) = numel1 s :: contiguous_strides s.
Proof. done. Qed.

Lemma length_contiguous_strides s : length (contiguous_strides s) = length s.
Proof. induction s as [|a s IH]; simpl; [done|]. by rewrite IH. Qed.

Lemma numel_pos s : numel s ≠ 0 ↔ Forall (λ n : nat, (1 ≤ n)%nat) s.
Proof.
  induction s as [|a s IH]; simpl.
  - split; [constructor|lia].
  - fold (numel s). rewrite list.Forall_cons, <-IH. nia.
Qed.

Lemma numel1_pos s : Forall (λ n : nat, (1 ≤ n)%nat) s → numel1 s = numel s.
Proof.
  induction 1 as [|a s Ha _ IH]; simpl; [done|].
  fold (numel1 s) (numel s). rewrite IH. lia.
Qed.

Lemma contiguous_strides_snoc s n :
  contiguous_strides (s ++ [n]) =
    map (λ x, x * (n `max` 1)) (contiguous_strides s) ++ [1].
Proof.
  induction s as [|a s IH]; [done|].
  cbn [app]. rewrite !contiguous_strides_cons, IH. cbn [map app]. f_equal.
  clear. unfold numel1. induction s as [|b s IH]; simpl; [lia|].
  rewrite IH. lia.
Qed.

Lemma contiguous_strides_ones s :
  numel s = 1 → contiguous_strides s = replicate (length s) 1.
Proof.
  induction s as [|a s IH]; [done|]. simpl. fold (numel s). intros H.
  assert (a = 1 ∧ numel s = 1) as [-> Hs] by (by apply Nat.eq_mul_1).
  rewrite IH by done. f_equal.
  assert (Forall (λ n : nat, (1 ≤ n)%nat) s) as Hp by (apply numel_pos; lia).
  fold (numel1 s). by rewrite numel1_pos.
Qed.

Lemma absorb_all view N vn acc :
  0 < N → vn * numel view = N →
  torch.absorb view 1 N vn acc = ([], stride_acc view vn acc, N).
Proof.
  intros HN. revert vn acc. induction view as [|n view IH]; intros vn acc H.
  - simpl in *. do 2 f_equal. lia.
  - simpl in H. fold (numel view) in H. cbn [torch.absorb stride_acc].
    rewrite decide_True.
    + rewrite Nat.mul_1_r. apply IH. lia.
    + destruct (decide (vn < N)) as [|Hge]; [by left|right].
      set (k := n * numel view) in *.
      assert (k = 1) as Hk.
      { destruct k as [|[|k]]; [lia|done|]. exfalso.
        assert (vn * 2 ≤ vn * S (S k))%nat by (apply Nat.mul_le_mono_l; lia).
        lia. }
      by apply Nat.eq_mul_1 in Hk as [? _].
Qed.

Lemma stride_acc_contiguous view vn acc :
  Forall (λ n : nat, (1 ≤ n)%nat) view →
  stride_acc view vn acc =
    map (λ x, x * vn) (contiguous_strides (reverse view)) ++ acc.
Proof.
  intros Hv. revert vn acc.
  induction Hv as [|n view Hn _ IH]; intros vn acc; [done|].
  cbn [stride_acc]. rewrite IH, reverse_cons, contiguous_strides_snoc.
  rewrite map_app, <-(assoc_L (++)). cbn [map app]. f_equal.
  - rewrite map_map. apply map_ext. intros x. rewrite Nat.max_l by lia. lia.
  - f_equal. lia.
Qed.

Lemma chain_app L1 L2 tn :
  chain (L1 ++ L2) tn ↔ chain L1 tn ∧ chain L2 (tn * sizes L1).
Proof.
  revert tn. induction L1 as [|[sz st] L1 IH]; intros tn; simpl.
  - rewrite Nat.mul_1_r. tauto.
  - rewrite IH. fold (sizes L1). rewrite Nat.mul_assoc. tauto.
Qed.

Lemma sizes_app L1 L2 : sizes (L1 ++ L2) = sizes L1 * sizes L2.
Proof.
  induction L1 as [|[sz st] L1 IH]; simpl; [lia|].
  fold (sizes (L1 ++ L2)) (sizes L1). rewrite IH. lia.
Qed.

Lemma sizes_contiguous s :
  sizes (reverse (zip s (contiguous_strides s))) = numel s.
Proof.
  induction s as [|a s IH]; [done|].
  rewrite contiguous_strides_cons. cbn [zip zip_with].
  rewrite reverse_cons, sizes_app.
  change (zip_with pair s (contiguous_strides s)) with (zip s (contiguous_strides s)).
  rewrite IH. simpl. fold (numel s). lia.
Qed.

Lemma chain_contiguous s :
  Forall (λ n : nat, (1 ≤ n)%nat) s → chain (reverse (zip s (contiguous_strides s))) 1.
Proof.
  induction 1 as [|a s Ha Hs IH]; [done|].
  rewrite contiguous_strides_cons. cbn [zip zip_with].
  change (zip_with pair s (contiguous_strides s)) with (zip s (contiguous_strides s)).
  rewrite reverse_cons, chain_app. split; [done|].
  rewrite sizes_contiguous. simpl. rewrite numel1_pos by done. lia.
Qed.

Lemma chunk_strides_chain L tn view acc :
  L ≠ [] → chain L tn →
  torch.chunk_strides L 1 tn view acc =
    let '(view', acc', vn) := torch.absorb view 1 (tn * sizes L) 1 acc in
    if decide (vn = tn * sizes L)
    then (if decide (view' = []) then Some acc' else None)
    else None.
Proof.
  revert tn. induction L as [|[sz st] L IH]; intros tn HL Hc; [done|].
  destruct Hc as [-> Hc]. cbn [torch.chunk_strides].
  destruct L as [|[sz' st'] L'].
  - simpl. rewrite Nat.mul_1_r.
    destruct (torch.absorb view 1 (tn * sz) 1 acc) as [[v' a'] vn].
    case_decide; [|done]. done.
  - pose proof Hc as [-> _].
    rewrite decide_False by lia.
    rewrite IH by done.
    simpl. fold (sizes L'). by rewrite !Nat.mul_assoc.
Qed.

Lemma numel_app (a b : list nat) : numel (a ++ b) = numel a * numel b.
Proof. induction a as [|x a IH]; simpl; [lia|]. rewrite IH. lia. Qed.

Lemma numel_reverse (s : list nat) : numel (reverse s) = numel s.
Proof.
  induction s as [|a s IH]; [done|].
  rewrite reverse_cons, numel_app, IH. simpl. fold (numel s). lia.
Qed.

Lemma view_strides_contiguous old new :
  numel new = numel old →
  torch.view_strides old (contiguous_strides old) new =
    Some (contiguous_strides new).
Proof.
  intros Hn. unfold torch.view_strides.
  case_decide as Ho.
  { subst old. by rewrite contiguous_strides_ones. }
  case_decide as H0.
  { case_decide; by subst. }
  assert (Forall (λ n : nat, (1 ≤ n)%nat) old) as Hold by (by apply numel_pos).
  assert (Forall (λ n : nat, (1 ≤ n)%nat) new) as Hnew by (apply numel_pos; lia).
  assert (List.last (contiguous_strides old) 1 = 1) as ->.
  { clear -Ho. induction old as [|a [|b old] IH]; try done.
    change (List.last (contiguous_strides (b :: old)) 1 = 1). by apply IH. }
  rewrite chunk_strides_chain.
  - rewrite sizes_contiguous, Nat.mul_1_l.
    rewrite absorb_all.
    + rewrite decide_True by done. rewrite decide_True by done.
      rewrite stride_acc_contiguous by (by apply Forall_reverse).
      rewrite reverse_involutive, (right_id_L [] (++)). f_equal.
      rewrite <-(map_id (contiguous_strides new)) at 2.
      apply map_ext. intros. lia.
    + lia.
    + rewrite numel_reverse. lia.
  - destruct old as [|a old]; [done|]. rewrite contiguous_strides_cons.
    cbn [zip zip_with]. rewrite reverse_cons. by destruct (reverse _).
  - by apply chain_contiguous.
Qed.

Lemma view_contiguous t s :
  contiguous t → numel s = numel (tshape t) →
  torch.view t s = Ok (Tensor (tdtype t) s (tdata t)).
Proof.
  intros Hc Hn. unfold torch.view. rewrite decide_True by done.
  by rewrite Hc, view_strides_contiguous.
Qed.

Lemma elementwise_strides_contiguous shp :
  torch.elementwise_strides shp [contiguous_strides shp] =
    contiguous_strides shp.
Proof.
  unfold torch.elementwise_strides. rewrite decide_True; [done|].
  by repeat constructor.
Qed.

Lemma float_dtype t : tdtype (torch.float t) = DFloat.
Proof. unfold torch.float. by destruct (tdtype t) eqn:E. Qed.

Lemma float_contiguous t :
  contiguous t → torch.float t = Tensor DFloat (tshape t) (tdata t).
Proof.
  intros Hc. unfold torch.float. destruct t as [dt sh d st].
  cbn [tdtype tshape tdata tstrides] in *. unfold contiguous in Hc.
  cbn [tshape tstrides] in Hc. subst st.
  destruct dt; by rewrite ?elementwise_strides_contiguous.
Qed.

Lemma one_sub_contiguous t :
  contiguous t →
  torch.one_sub t = Tensor DFloat (tshape t) (map (fsub 1) (tdata t)).
Proof.
  intros Hc. unfold torch.one_sub. by rewrite Hc, elementwise_strides_contiguous.
Qed.

Lemma one_minus_contiguous t :
  contiguous t →
  one_minus t = Tensor DFloat (tshape t) (map (fsub 1) (tdata t)).
Proof.
  intros Hc. unfold one_minus. rewrite float_contiguous by done.
  by rewrite one_sub_contiguous.
Qed.

Lemma one_minus_fields t :
  tdtype (one_minus t) = DFloat ∧ tshape (one_minus t) = tshape t ∧
  tdata (one_minus t) = map (fsub 1) (tdata t).
Proof. unfold one_minus, torch.one_sub, torch.float. by destruct (tdtype t). Qed.

(** ** Dictionaries *)

(** A literal key is not in a list of other literal keys. *)
Ltac notin_list :=
  repeat (apply not_elem_of_cons; split; [discriminate|]);
  apply not_elem_of_nil.

Lemma setdefault_lookup k v (x : gmap string value) k' :
  setdefault k v x !! k' =
  if decide (k = k') then Some (default v (x !! k)) else x !! k'.
Proof.
  unfold setdefault. destruct (x !! k) as [w|] eqn:E; case_decide; subst; simpl.
  - by rewrite E.
  - done.
  - by rewrite lookup_insert_eq.
  - by rewrite lookup_insert_ne.
Qed.

Lemma setdefault_id k v (x : gmap string value) :
  is_Some (x !! k) → setdefault k v x = x.
Proof. intros [w Hw]. unfold setdefault. by rewrite Hw. Qed.

Lemma merge_kwargs_empty (x : gmap string value) : merge_kwargs x ∅ = x.
Proof. unfold merge_kwargs. by rewrite (left_id_L ∅ (∪)). Qed.

Lemma has_core_lookup (d : gmap string value) k :
  has_core d → k ∈ core_keys → is_Some (d !! k).
Proof.
  unfold has_core. intros H Hk.
  by apply (proj1 (list.Forall_forall _ _) H k Hk).
Qed.

Lemma has_core_intro (d : gmap string value) :
  is_Some (d !! "observation") → is_Some (d !! "reward") →
  is_Some (d !! "done") → is_Some (d !! "mask") → has_core d.
Proof. intros. unfold has_core, core_keys. repeat constructor; done. Qed.

Lemma has_core_elim (d : gmap string value) :
  has_core d →
  is_Some (d !! "observation") ∧ is_Some (d !! "reward") ∧
  is_Some (d !! "done") ∧ is_Some (d !! "mask").
Proof.
  intros H.
  repeat split; apply (has_core_lookup _ _ H); unfold core_keys; set_solver.
Qed.

(** ** The constructors *)

Lemma State_fields_spec x kw d :
  State_fields x kw = Ok d →
  let x0 := merge_kwargs (as_dict x) kw in
  is_Some (x0 !! "observation") ∧
  d !! "reward" = Some (default (VFloat 0) (x0 !! "reward")) ∧
  d !! "done" = Some (default (VBool false) (x0 !! "done")) ∧
  (∃ m, d !! "mask" = Some m ∧
        match x0 !! "mask" with
        | Some m0 => m = m0
        | None => py.rsub1 (default (VBool false) (x0 !! "done")) = Ok m
        end) ∧
  (∀ k, k ∉ ["reward"; "done"; "mask"] → d !! k = x0 !! k).
Proof.
  intros H x0. unfold State_fields in H. fold x0 in H.
  destruct (x0 !! "observation") as [o|] eqn:Eo; [|done].
  split; [eauto|].
  set (x2 := setdefault "done" _ _) in H.
  assert (Hx2 : ∀ k, x2 !! k =
     if decide (k = "done") then Some (default (VBool false) (x0 !! "done"))
     else if decide (k = "reward") then Some (default (VFloat 0) (x0 !! "reward"))
     else x0 !! k).
  { intros k. unfold x2. rewrite !setdefault_lookup.
    repeat case_decide; subst; try done. }
  destruct (x2 !! "mask") as [m|] eqn:Em.
  - injection H as <-. rewrite Hx2 in Em. simpl in Em.
    split; [by rewrite Hx2|]. split; [by rewrite Hx2|]. split.
    + exists m. rewrite Hx2. simpl. by rewrite Em.
    + intros k Hk. rewrite Hx2. repeat case_decide; subst; try done; set_solver.
  - rewrite Hx2 in H. simpl in H.
    destruct (py.rsub1 _) as [m|e] eqn:Er; [|done]. simpl in H. injection H as <-.
    rewrite Hx2 in Em. simpl in Em.
    split; [by rewrite lookup_insert_ne, Hx2|].
    split; [by rewrite lookup_insert_ne, Hx2|]. split.
    + exists m. rewrite lookup_insert_eq. by rewrite Em.
    + intros k Hk. rewrite lookup_insert_ne by set_solver. rewrite Hx2.
      repeat case_decide; subst; try done; set_solver.
Qed.

Lemma State_fields_id d :
  has_core d → State_fields (ArgDict d) ∅ = Ok d.
Proof.
  intros (Ho & Hr & Hd & Hm)%has_core_elim.
  unfold State_fields. simpl. rewrite merge_kwargs_empty.
  destruct Ho as [o ->].
  rewrite (setdefault_id "reward") by done.
  rewrite (setdefault_id "done") by done.
  destruct Hm as [m ->]. done.
Qed.

Lemma State_fields_has_core x kw d :
  State_fields x kw = Ok d → has_core d.
Proof.
  intros H.
  destruct (State_fields_spec _ _ _ H) as (Ho & Hr & Hd & (m & Hm & _) & Hk).
  apply has_core_intro; eauto.
  rewrite Hk; [done|]. notin_list.
Qed.

Lemma State_init_Ok x dev kw s :
  State_init x dev kw = Ok s →
  State_fields x kw = Ok (items s) ∧ cls s = CState ∧ shape s = [] ∧
  device s = dev.
Proof.
  unfold State_init. destruct (State_fields x kw) as [d|e]; [|done].
  simpl. by intros [= <-].
Qed.

Lemma State_init_id d dev :
  has_core d → State_init (ArgDict d) dev ∅ = Ok (MkState CState d [] dev).
Proof. intros H. unfold State_init. by rewrite State_fields_id. Qed.

Lemma tensor_of_list_false n :
  py.tensor_of_list (replicate n (VBool false)) =
  Ok (VTensor (Tensor (if decide (n = 0) then DFloat else DBool) [n]
                 (replicate n (Fin 0)))).
Proof.
  unfold py.tensor_of_list.
  assert (mapM py.scalar_entry (replicate n (VBool false)) =
          Some (replicate n (DBool, Fin 0))) as ->.
  { induction n as [|n IH]; simpl; [done|]. by rewrite IH. }
  destruct n as [|n]; [done|].
  case_decide; [done|].
  assert (∀ m, foldr promote DBool (replicate m (DBool, Fin 0)).*1 = DBool)
    as Hdt.
  { intros m. rewrite fmap_replicate. cbn [fst].
    induction m as [|m IH]; simpl; [done|]. by rewrite IH. }
  assert (∀ m, forallb (py.fits DBool) (replicate m (VBool false)) = true)
    as Hfits.
  { intros m. by induction m. }
  change (replicate (S n) (DBool, Fin 0))
    with ((DBool, Fin 0) :: replicate n (DBool, Fin 0)) at 1.
  cbv zeta. rewrite Hdt, Hfits.
  by rewrite length_replicate, fmap_replicate.
Qed.

Lemma default_done_Ok shp :
  shp ≠ [] →
  (n ← as_index (np_prod shp);
   t ← py.tensor_of_list (replicate n (VBool false));
   py.view t shp) = Ok (VTensor (default_done shp)).
Proof.
  intros Hs. destruct shp as [|a r]; [done|]. simpl np_prod. simpl as_index.
  cbn [mbind result_bind]. rewrite tensor_of_list_false.
  cbn [mbind result_bind py.view].
  rewrite view_contiguous; [done|done|]. cbn [tshape]. simpl. lia.
Qed.

Lemma default_done_inv shp v :
  (n ← as_index (np_prod shp);
   t ← py.tensor_of_list (replicate n (VBool false));
   py.view t shp) = Ok v →
  shp ≠ [] ∧ v = VTensor (default_done shp).
Proof.
  destruct shp as [|a r]; [done|]. intros H. split; [done|].
  rewrite default_done_Ok in H by done. by injection H.
Qed.

Lemma float_rsub1 v m :
  (f ← py.float v; py.rsub1 f) = Ok m →
  ∃ t, v = VTensor t ∧ m = VTensor (one_minus t).
Proof.
  destruct v as [| | | |t]; try done.
  cbn [py.float mbind result_bind py.rsub1]. unfold torch.rsub1.
  rewrite float_dtype.
  cbn [fmap result_fmap]. intros [= <-]. by exists t.
Qed.

Lemma StateTensor_fields_spec x shp kw d :
  StateTensor_fields x shp kw = Ok d →
  let x0 := merge_kwargs (as_dict x) kw in
  is_Some (x0 !! "observation") ∧
  d !! "reward" = Some (default (VTensor (torch.zeros shp)) (x0 !! "reward")) ∧
  (∃ dn, d !! "done" = Some dn ∧
     match x0 !! "done" with
     | Some d0 => dn = d0
     | None => shp ≠ [] ∧ dn = VTensor (default_done shp)
     end ∧
     ∃ m, d !! "mask" = Some m ∧
       match x0 !! "mask" with
       | Some m0 => m = m0
       | None => ∃ t, dn = VTensor t ∧ m = VTensor (one_minus t)
       end) ∧
  (∀ k, k ∉ ["reward"; "done"; "mask"] → d !! k = x0 !! k).
Proof.
  intros H x0. unfold StateTensor_fields in H. fold x0 in H.
  destruct (x0 !! "observation") as [o|] eqn:Eo; [|done].
  split; [eauto|].
  set (x1 := setdefault "reward" _ x0) in H.
  assert (Hx1 : ∀ k, x1 !! k =
     if decide (k = "reward")
     then Some (default (VTensor (torch.zeros shp)) (x0 !! "reward"))
     else x0 !! k).
  { intros k. unfold x1. rewrite setdefault_lookup.
    repeat case_decide; subst; done. }
  assert (∃ x2 dn,
     (∀ k, x2 !! k = if decide (k = "done") then Some dn else x1 !! k) ∧
     match x0 !! "done" with
     | Some d0 => dn = d0
     | None => shp ≠ [] ∧ dn = VTensor (default_done shp)
     end ∧
     match x2 !! "mask" with
     | Some _ => Ok x2
     | None =>
         match x2 !! "done" with
         | Some d => f ← py.float d; m ← py.rsub1 f; Ok (<["mask" := m]> x2)
         | None => Raise KeyError
         end
     end = Ok d) as (x2 & dn & Hx2 & Hdn & H2).
  { destruct (x1 !! "done") as [d0|] eqn:Ed.
    - exists x1, d0. rewrite Hx1 in Ed. simpl in Ed. rewrite Ed.
      repeat split; [|done].
      intros k. case_decide; subst; [|done]. by rewrite Hx1.
    - rewrite Hx1 in Ed. simpl in Ed. rewrite Ed.
      destruct (n ← as_index (np_prod shp);
                t ← py.tensor_of_list (replicate n (VBool false));
                py.view t shp) as [dv|e] eqn:Edv.
      + apply default_done_inv in Edv as Hdv. destruct Hdv as [Hs ->].
        exists (<["done" := VTensor (default_done shp)]> x1), (VTensor (default_done shp)).
        repeat split; try done.
        * intros k. rewrite lookup_insert. by repeat case_decide; subst.
        * revert H. destruct (as_index (np_prod shp)) as [n|]; [|done].
          cbn [mbind result_bind] in *.
          destruct (py.tensor_of_list _) as [t|]; [|done].
          cbn [mbind result_bind] in *. rewrite Edv. done.
      + exfalso. revert H. destruct (as_index (np_prod shp)) as [n|]; [|done].
        cbn [mbind result_bind] in *.
        destruct (py.tensor_of_list _) as [t|]; [|done].
        cbn [mbind result_bind] in *. by rewrite Edv. }
  clear H. split; [|split].
  - destruct (x2 !! "mask") as [m|] eqn:Em.
    + injection H2 as <-. by rewrite Hx2, Hx1.
    + rewrite Hx2 in H2. simpl in H2.
      destruct (f ← py.float dn; py.rsub1 f) as [m|] eqn:Ef.
      * destruct (py.float dn) as [f|]; [|done]. cbn [mbind result_bind] in *.
        rewrite Ef in H2. injection H2 as <-.
        by rewrite lookup_insert_ne, Hx2, Hx1.
      * destruct (py.float dn) as [f|]; [|done]. cbn [mbind result_bind] in *.
        by rewrite Ef in H2.
  - exists dn. destruct (x2 !! "mask") as [m|] eqn:Em.
    + injection H2 as <-. split; [by rewrite Hx2|]. split; [done|].
      exists m. split; [done|]. rewrite Hx2, Hx1 in Em. simpl in Em. by rewrite Em.
    + rewrite Hx2 in H2. simpl in H2. rewrite Hx2, Hx1 in Em. simpl in Em.
      rewrite Em.
      destruct (f ← py.float dn; py.rsub1 f) as [m|] eqn:Ef.
      * apply float_rsub1 in Ef as Ht.
        destruct (py.float dn) as [f|]; [|done]. cbn [mbind result_bind] in *.
        rewrite Ef in H2. injection H2 as <-.
        split; [by rewrite lookup_insert_ne, Hx2|]. split; [done|].
        exists m. by rewrite lookup_insert_eq.
      * destruct (py.float dn) as [f|]; [|done]. cbn [mbind result_bind] in *.
        by rewrite Ef in H2.
  - intros k Hk.
    assert (k ≠ "reward" ∧ k ≠ "done" ∧ k ≠ "mask") as (? & ? & ?).
    { rewrite !not_elem_of_cons in Hk. tauto. }
    destruct (x2 !! "mask") as [m|] eqn:Em.
    + injection H2 as <-. rewrite Hx2, Hx1. by rewrite !decide_False.
    + rewrite Hx2 in H2. simpl in H2.
      destruct (py.float dn) as [f|]; [|done]. cbn [mbind result_bind] in *.
      destruct (py.rsub1 f) as [m|]; [|done]. cbn [mbind result_bind] in *.
      injection H2 as <-. rewrite lookup_insert_ne by done.
      rewrite Hx2, Hx1. by rewrite !decide_False.
Qed.

Lemma StateTensor_fields_id d shp :
  has_core d → StateTensor_fields (ArgDict d) shp ∅ = Ok d.
Proof.
  intros (Ho & Hr & Hd & Hm)%has_core_elim.
  unfold StateTensor_fields. simpl. rewrite merge_kwargs_empty.
  destruct Ho as [o ->]. rewrite (setdefault_id "reward") by done.
  destruct Hd as [dn ->]. cbn [mbind result_bind].
  destruct Hm as [m ->]. done.
Qed.

Lemma StateTensor_fields_has_core x shp kw d :
  StateTensor_fields x shp kw = Ok d → has_core d.
Proof.
  intros H. destruct (StateTensor_fields_spec _ _ _ _ H)
    as (Ho & Hr & (dn & Hd & _ & m & Hm & _) & Hk).
  apply has_core_intro; eauto.
  rewrite Hk; [done|]. notin_list.
Qed.

Lemma StateTensor_init_Ok x shp dev kw s :
  StateTensor_init x shp dev kw = Ok s →
  StateTensor_fields x shp kw = Ok (items s) ∧ cls s = CStateTensor ∧
  shape s = shp ∧ device s = dev.
Proof.
  unfold StateTensor_init.
  destruct (StateTensor_fields x shp kw) as [d|e] eqn:E; [|done].
  cbn [mbind result_bind].
  rewrite State_init_id by eauto using StateTensor_fields_has_core.
  cbn [mbind result_bind]. by intros [= <-].
Qed.

Lemma StateTensor_init_id d shp dev :
  has_core d →
  StateTensor_init (ArgDict d) shp dev ∅ = Ok (MkState CStateTensor d shp dev).
Proof.
  intros H. unfold StateTensor_init. rewrite StateTensor_fields_id by done.
  cbn [mbind result_bind]. by rewrite State_init_id.
Qed.

Lemma State_init_constructed x dev kw s :
  State_init x dev kw = Ok s → constructed s.
Proof.
  intros (H & _ & Hs & _)%State_init_Ok.
  split; eauto using State_fields_has_core.
Qed.

Lemma StateTensor_init_constructed x shp dev kw s :
  StateTensor_init x shp dev kw = Ok s → constructed s.
Proof.
  intros (H & Hc & _)%StateTensor_init_Ok.
  split; [eauto using StateTensor_fields_has_core|]. by rewrite Hc.
Qed.

Lemma one_minus_default_done shp :
  one_minus (default_done shp) =
    Tensor DFloat shp (replicate (numel shp) (Fin 1)).
Proof.
  rewrite one_minus_contiguous by done.
  unfold default_done. cbn [tshape tdata]. f_equal.
  induction (numel shp) as [|n IH]; simpl; [done|]. by rewrite IH.
Qed.

(** What [1. - d] is, for each kind of value [d]. *)
Lemma rsub1_value d m :
  py.rsub1 d = Ok m →
  match d with
  | VNone => False
  | VBool b => m = VFloat (if b then 0 else 1)
  | VInt z => m = VFloat (1 - z)
  | VFloat y => m = VFloat (fsub 1 y)
  | VTensor t =>
      ∃ t', m = VTensor t' ∧ tdtype t ≠ DBool ∧ tdtype t' = DFloat ∧
            tshape t' = tshape t ∧ tdata t' = map (fsub 1) (tdata t)
  end.
Proof.
  destruct d as [|b|z|y|t]; cbn [py.rsub1].
  - done.
  - intros [= <-]. by destruct b.
  - unfold float_of_int. case_decide; cbn [mbind result_bind].
    + by intros [= <-].
    + intros E. discriminate E.
  - by intros [= <-].
  - unfold torch.rsub1.
    destruct (tdtype t) eqn:E; cbn [fmap result_fmap];
      [intros H; discriminate H| |];
      intros [= <-]; (eexists; split; [reflexivity|done]).
Qed.

(** ** Construction *)

(** C1. An instance constructed without a [mask] has [mask = 1 - done].
    On a plain [State] the mask is the float [1. - done]: 0 when [done]
    is [True] and 1 when it is [False]; for a number, 1 minus that
    number; for a tensor that is not a bool tensor, the float tensor of
    the same shape whose entries are 1 minus the entries of [done].  On a
    batch the mask is [1. - done.float()]: a float tensor of the shape of
    [done] whose entries are 1 minus the entries of [done].  An omitted
    [reward] is 0 (a tensor of zeros for a batch) and an omitted [done]
    is false (a tensor of [False] for a batch), in which case the mask is
    1.  Such a construction succeeds as soon as the observation is
    given (for a batch, with a non-empty shape). *)
Theorem mask_is_one_minus_done (x : init_arg) (kw : gmap string value)
    (dev : string) :
  merge_kwargs (as_dict x) kw !! "mask" = None →
  (∀ s, State_init x dev kw = Ok s →
     (∀ d, items s !! "done" = Some d →
        ∃ m, items s !! "mask" = Some m ∧
          match d with
          | VNone => False
          | VBool b => m = VFloat (if b then 0 else 1)
          | VInt z => m = VFloat (1 - z)
          | VFloat y => m = VFloat (fsub 1 y)
          | VTensor t =>
              ∃ t', m = VTensor t' ∧ tdtype t ≠ DBool ∧ tdtype t' = DFloat ∧
                    tshape t' = tshape t ∧ tdata t' = map (fsub 1) (tdata t)
          end) ∧
     is_Some (items s !! "done") ∧
     (merge_kwargs (as_dict x) kw !! "reward" = None →
        items s !! "reward" = Some (VFloat 0)) ∧
     (merge_kwargs (as_dict x) kw !! "done" = None →
        items s !! "done" = Some (VBool false) ∧
        items s !! "mask" = Some (VFloat 1))) ∧
  (∀ shp s, StateTensor_init x shp dev kw = Ok s →
     (∃ d m, items s !! "done" = Some (VTensor d) ∧
             items s !! "mask" = Some (VTensor m) ∧
             tdtype m = DFloat ∧ tshape m = tshape d ∧
             tdata m = map (fsub 1) (tdata d)) ∧
     (merge_kwargs (as_dict x) kw !! "reward" = None →
        items s !! "reward" = Some (VTensor (torch.zeros shp))) ∧
     (merge_kwargs (as_dict x) kw !! "done" = None →
        items s !! "done" = Some (VTensor (default_done shp)) ∧
        items s !! "mask" =
          Some (VTensor (Tensor DFloat shp (replicate (numel shp) (Fin 1)))))) ∧
  (is_Some (merge_kwargs (as_dict x) kw !! "observation") →
   merge_kwargs (as_dict x) kw !! "done" = None →
     is_Ok (State_init x dev kw) ∧
     ∀ shp, shp ≠ [] → is_Ok (StateTensor_init x shp dev kw)).
Proof.
  intros Hmask. split; [|split].
  - intros s (H & _)%State_init_Ok.
    destruct (State_fields_spec _ _ _ H) as (_ & Hr & Hd & (m & Hm & Hm') & _).
    rewrite Hmask in Hm'. split; [|split; [|split]].
    + intros d Hd'. rewrite Hd in Hd'. injection Hd' as <-.
      exists m. split; [done|]. by apply rsub1_value.
    + by rewrite Hd.
    + intros E. by rewrite Hr, E.
    + intros E. rewrite E in *. simpl in *. split; [done|].
      injection Hm' as <-. done.
  - intros shp s (H & _)%StateTensor_init_Ok.
    destruct (StateTensor_fields_spec _ _ _ _ H)
      as (_ & Hr & (dn & Hd & Hdn & m & Hm & Hm') & _).
    rewrite Hmask in Hm'. destruct Hm' as (t & -> & ->). split; [|split].
    + exists t, (one_minus t). split; [done|]. split; [done|].
      apply one_minus_fields.
    + intros E. by rewrite Hr, E.
    + intros E. rewrite E in Hdn. destruct Hdn as [_ [= ->]].
      split; [done|]. by rewrite Hm, one_minus_default_done.
  - intros [o Ho] Hd.
    assert (Hsd : ∀ v, setdefault "reward" v (merge_kwargs (as_dict x) kw)
                     !! "done" = None).
    { intros v. rewrite setdefault_lookup. by rewrite decide_False. }
    split.
    + unfold is_Ok, State_init, State_fields. rewrite Ho.
      rewrite !setdefault_lookup, !decide_False by done. rewrite Hmask.
      rewrite decide_True by done. rewrite decide_False, Hd by done.
      simpl. eauto.
    + intros shp Hs. unfold is_Ok, StateTensor_init, StateTensor_fields.
      rewrite Ho, Hsd.
      pose proof (default_done_Ok shp Hs) as Hdd.
      destruct (as_index (np_prod shp)) as [n|]; [|done].
      cbn [mbind result_bind] in *.
      destruct (py.tensor_of_list _) as [t|]; [|done].
      cbn [mbind result_bind] in *. rewrite Hdd. cbn [mbind result_bind].
      rewrite lookup_insert_ne by done. rewrite setdefault_lookup.
      rewrite decide_False by done. rewrite Hmask.
      rewrite lookup_insert_eq. cbn [mbind result_bind py.float py.rsub1].
      unfold torch.rsub1.
      rewrite float_dtype.
      cbn [fmap result_fmap mbind result_bind].
      rewrite State_init_id; [simpl; eauto|].
      apply has_core_intro; rewrite ?lookup_insert_eq; eauto;
        rewrite !lookup_insert_ne by done.
      * rewrite setdefault_lookup, decide_False by done. eauto.
      * rewrite setdefault_lookup, decide_True by done. eauto.
      * by rewrite lookup_insert_eq.
Qed.

Lemma mask_is_one_minus_done_witness :
  merge_kwargs (as_dict (ArgOther sample_obs)) {["done" := VBool true]}
    !! "mask" = None ∧
  merge_kwargs (as_dict (ArgOther sample_obs)) ∅ !! "mask" = None ∧
  (∃ s, State_init (ArgOther sample_obs) "cpu" {["done" := VBool true]} =
          Ok s ∧
        items s !! "done" = Some (VBool true) ∧
        items s !! "mask" = Some (VFloat 0)) ∧
  (∃ s, State_init (ArgOther sample_obs) "cpu" ∅ = Ok s ∧
        items s !! "done" = Some (VBool false) ∧
        items s !! "mask" = Some (VFloat 1)) ∧
  (∃ s, StateTensor_init (ArgOther sample_obs) [2] "cpu" ∅ = Ok s ∧
        items s !! "mask" =
          Some (VTensor (Tensor DFloat [2] (ints [1; 1]%Z)))).
Proof.
  assert (merge_kwargs (as_dict (ArgOther sample_obs))
            {["done" := VBool true]} !! "mask" = None) as Hm1 by reflexivity.
  assert (merge_kwargs (as_dict (ArgOther sample_obs)) ∅ !! "mask" = None)
    as Hm by reflexivity.
  assert (merge_kwargs (as_dict (ArgOther sample_obs)) ∅ !! "done" = None)
    as Hd by reflexivity.
  set (s1 := MkState CState
    (<["observation" := sample_obs]>
       (<["reward" := VFloat 0]>
          (<["done" := VBool true]> {["mask" := VFloat 0]}))) [] "cpu").
  assert (State_init (ArgOther sample_obs) "cpu" {["done" := VBool true]} =
          Ok s1) as Hs1 by (vm_compute; reflexivity).
  assert (items s1 !! "done" = Some (VBool true)) as Hd1 by reflexivity.
  split; [exact Hm1|]. split; [exact Hm|]. split.
  { exists s1. split; [exact Hs1|]. split; [exact Hd1|].
    destruct (mask_is_one_minus_done (ArgOther sample_obs)
                {["done" := VBool true]} "cpu" Hm1) as (H1 & _).
    destruct (proj1 (H1 s1 Hs1) (VBool true) Hd1) as (m & Hmm & ->).
    exact Hmm. }
  destruct (mask_is_one_minus_done (ArgOther sample_obs) ∅ "cpu" Hm)
    as (H1 & H2 & H3).
  destruct H3 as [[s Hs] Ht]; [by eexists|exact Hd|].
  destruct (Ht [2]) as [t Ht2]; [discriminate|].
  split.
  - exists s. split; [exact Hs|].
    destruct (H1 s Hs) as (_ & _ & _ & H). exact (H Hd).
  - exists t. split; [exact Ht2|].
    destruct (H2 [2] t Ht2) as (_ & _ & H). exact (proj2 (H Hd)).
Defined.

(** C2. A constructor given a dict without [observation] (and no
    [observation] keyword) raises, and every instance a constructor
    returns has the key. *)
Theorem observation_required (x kw : gmap string value) (dev : string)
    (shp : list nat) :
  (x !! "observation" = None → kw !! "observation" = None →
     State_init (ArgDict x) dev kw =
       Raise (Exception "State must contain an observation") ∧
     StateTensor_init (ArgDict x) shp dev kw =
       Raise (Exception "StateTensor must contain an observation")) ∧
  (∀ a s, State_init a dev kw = Ok s → is_Some (items s !! "observation")) ∧
  (∀ a s, StateTensor_init a shp dev kw = Ok s →
     is_Some (items s !! "observation")).
Proof.
  split; [|split].
  - intros Hx Hk.
    assert (merge_kwargs (as_dict (ArgDict x)) kw !! "observation" = None) as Hm.
    { unfold merge_kwargs. simpl. by rewrite lookup_union_r. }
    unfold State_init, StateTensor_init, State_fields, StateTensor_fields.
    by rewrite Hm.
  - intros a s Hs. apply State_init_constructed in Hs as [Hc _].
    by apply has_core_elim in Hc as (? & _).
  - intros a s Hs. apply StateTensor_init_constructed in Hs as [Hc _].
    by apply has_core_elim in Hc as (? & _).
Qed.

Lemma observation_required_witness :
  ({["reward" := VFloat 1]} : gmap string value) !! "observation" = None ∧
  (∅ : gmap string value) !! "observation" = None ∧
  State_init (ArgDict {["reward" := VFloat 1]}) "cpu" ∅ =
    Raise (Exception "State must contain an observation") ∧
  StateTensor_init (ArgDict {["reward" := VFloat 1]}) [2] "cpu" ∅ =
    Raise (Exception "StateTensor must contain an observation").
Proof.
  assert (({["reward" := VFloat 1]} : gmap string value) !! "observation"
          = None) as Hx by reflexivity.
  assert ((∅ : gmap string value) !! "observation" = None) as Hk
    by reflexivity.
  split; [exact Hx|]. split; [exact Hk|].
  exact (proj1 (observation_required {["reward" := VFloat 1]} ∅ "cpu" [2])
           Hx Hk).
Defined.

(** ** Subscripting by a string *)

(** C10. Subscripting a [StateTensor] with a string that is not one of
    its keys returns [None]; a plain [State] raises [KeyError]. *)
Theorem missing_key (s : state) (k : string) :
  items s !! k = None →
  StateTensor_getitem s (KStr k) = Ok (IValue VNone) ∧
  State_getitem s k = Raise KeyError ∧
  (cls s = CStateTensor → getitem_str s k = Ok VNone) ∧
  (cls s = CState → getitem_str s k = Raise KeyError).
Proof.
  intros H. unfold getitem_str, StateTensor_getitem, StateTensor_getitem_str,
    State_getitem. rewrite H. repeat split; by intros ->.
Qed.

Lemma missing_key_witness :
  items sample_batch !! "info" = None ∧
  StateTensor_getitem sample_batch (KStr "info") = Ok (IValue VNone) ∧
  items sample_state !! "info" = None ∧
  State_getitem sample_state "info" = Raise KeyError.
Proof.
  assert (items sample_batch !! "info" = None) as Hb by reflexivity.
  assert (items sample_state !! "info" = None) as Hs by reflexivity.
  split; [exact Hb|]. split.
  - exact (proj1 (missing_key sample_batch "info" Hb)).
  - split; [exact Hs|].
    exact (proj1 (proj2 (missing_key sample_state "info" Hs))).
Defined.

(** ** Comprehensions *)

Lemma mapM_result_Ok {A B} (f : A → result B) (g : A → B) (l : list A) :
  Forall (λ a, f a = Ok (g a)) l → mapM f l = Ok (g <$> l).
Proof.
  induction 1 as [|a l Ha _ IH]; [done|].
  cbn [mapM]. rewrite Ha. cbn [mbind result_bind]. rewrite IH. done.
Qed.

Lemma mapM_result_Raise {A B} (f : A → result B) (l : list A) a e :
  a ∈ l → f a = Raise e → raises (mapM f l).
Proof.
  intros Hin Ha. induction l as [|b l IH]; [by apply elem_of_nil in Hin|].
  cbn [mapM]. apply elem_of_cons in Hin as [<-|Hin].
  - rewrite Ha. by eexists.
  - destruct (f b); [|by eexists]. cbn [mbind result_bind].
    destruct (IH Hin) as [e' ->]. by eexists.
Qed.

Lemma dict_mapM_Ok f g (d : gmap string value) :
  (∀ k v, d !! k = Some v → f v = Ok (g v)) →
  dict_mapM f d = Ok (g <$> d).
Proof.
  intros H. unfold dict_mapM.
  rewrite (mapM_result_Ok _ (prod_map id g)).
  - cbn [fmap result_fmap]. f_equal.
    by rewrite list_to_map_fmap, list_to_map_to_list.
  - apply list.Forall_forall. intros [k v] Hkv%elem_of_map_to_list.
    cbn [fst snd]. by rewrite (H k v).
Qed.

Lemma dict_mapM_Raise f (d : gmap string value) k v e :
  d !! k = Some v → f v = Raise e → raises (dict_mapM f d).
Proof.
  intros Hk Hv. unfold dict_mapM.
  destruct (mapM_result_Raise
    (λ kv : string * value, (λ v', (kv.1, v')) <$> f kv.2)
    (map_to_list d) (k, v) e) as [e' ->].
  - by apply elem_of_map_to_list.
  - cbn [fst snd]. by rewrite Hv.
  - by eexists.
Qed.

Lemma dict_mapM_inv f (d d' : gmap string value) :
  dict_mapM f d = Ok d' →
  (∀ k v, d !! k = Some v → is_Ok (f v)) ∧
  d' = (λ v, from_ok v (f v)) <$> d.
Proof.
  intros H.
  assert (∀ k v, d !! k = Some v → is_Ok (f v)) as Hall.
  { intros k v Hk. destruct (f v) as [w|e] eqn:E; [by eexists|].
    destruct (dict_mapM_Raise f d k v e Hk E) as [e' He']. congruence. }
  split; [done|].
  rewrite (dict_mapM_Ok f (λ v, from_ok v (f v))) in H; [by injection H|].
  intros k v Hk. by destruct (Hall k v Hk) as [w ->].
Qed.

Lemma dict_try_map_lookup f (d : gmap string value) k :
  dict_try_map f d !! k = d !! k ≫= λ v, try_pass (f k v).
Proof. unfold dict_try_map. by rewrite map_lookup_imap. Qed.

Lemma updated_items_lookup s k v k' :
  updated_items s k v !! k' =
  if decide (k = k') then Some v else items s !! k'.
Proof.
  unfold updated_items. rewrite lookup_insert. case_decide; [done|].
  apply option_eq. intros w. rewrite map_lookup_filter_Some. cbn [fst].
  split; [by intros [? _]|]. intros ?. split; [done|]. by intros ->.
Qed.

Lemma updated_items_has_core s k v :
  has_core (items s) → has_core (updated_items s k v).
Proof.
  intros (? & ? & ? & ?)%has_core_elim.
  apply has_core_intro; rewrite updated_items_lookup; case_decide; eauto.
Qed.

Lemma updated_items_twice s k v w dev shp c :
  items s !! k = Some w →
  updated_items (MkState c (updated_items s k v) shp dev) k w = items s.
Proof.
  intros Hk. apply map_eq. intros k'.
  rewrite updated_items_lookup. cbn [items].
  rewrite updated_items_lookup. case_decide; by subst.
Qed.

(** ** Update *)

Lemma update_Ok s k v :
  constructed s →
  update s k v =
    Ok (MkState (cls s) (updated_items s k v) (shape s) (device s)).
Proof.
  intros [Hc Hs]. pose proof (updated_items_has_core s k v Hc) as Hu.
  unfold update, State_update, StateTensor_update.
  destruct (cls s) eqn:E.
  - rewrite State_init_id by done. by rewrite Hs.
  - by rewrite StateTensor_init_id.
Qed.

(** C4. Updating a key that is present and then updating it back to its
    original value gives the original instance again: the same fields
    with the same values. *)
Theorem update_round_trip (s : state) (k : string) (v orig : value) :
  constructed s → is_Some (items s !! k) → getitem_str s k = Ok orig →
  ∃ s1, update s k v = Ok s1 ∧ getitem_str s1 k = Ok v ∧
        update s1 k orig = Ok s.
Proof.
  intros Hc [w Hw] Hg.
  assert (w = orig) as ->.
  { unfold getitem_str, StateTensor_getitem_str, State_getitem in Hg.
    rewrite Hw in Hg. destruct (cls s); by injection Hg. }
  eexists. split; [by apply update_Ok|]. split.
  - unfold getitem_str, StateTensor_getitem_str, State_getitem. cbn [cls items].
    rewrite updated_items_lookup, decide_True by done. by destruct (cls s).
  - rewrite update_Ok.
    + cbn [cls shape device]. rewrite updated_items_twice by done.
      by destruct s.
    + destruct Hc as [Hc Hs]. split; [|done].
      cbn [items]. by apply updated_items_has_core.
Qed.

Lemma update_round_trip_witness :
  constructed sample_state ∧
  is_Some (items sample_state !! "reward") ∧
  getitem_str sample_state "reward" = Ok (VFloat 0) ∧
  ∃ s1, update sample_state "reward" (VFloat 5) = Ok s1 ∧
        getitem_str s1 "reward" = Ok (VFloat 5) ∧
        update s1 "reward" (VFloat 0) = Ok sample_state.
Proof.
  assert (constructed sample_state) as Hc.
  { split; [|reflexivity]. repeat constructor; eexists; reflexivity. }
  assert (is_Some (items sample_state !! "reward")) as Hs
    by (eexists; reflexivity).
  assert (getitem_str sample_state "reward" = Ok (VFloat 0)) as Hg
    by reflexivity.
  split; [exact Hc|]. split; [exact Hs|]. split; [exact Hg|].
  exact (update_round_trip sample_state "reward" (VFloat 5) (VFloat 0)
           Hc Hs Hg).
Defined.

(** *** Update on the store *)

Lemma alloc_fresh o (h : gmap nat object) :
  h !! (alloc o h).1 = None ∧ (alloc o h).2 = <[(alloc o h).1 := o]> h.
Proof.
  unfold alloc. cbn [fst snd]. split; [|done].
  apply not_elem_of_dom, is_fresh.
Qed.

(** The constructors on the store agree with the constructors on dicts;
    the dict given as argument is left with the bindings of the new
    instance. *)
Lemma State_init_h_RefObj lx o dev kw (h : gmap nat object) :
  h !! lx = Some o →
  State_init_h (RefObj lx) dev kw h =
    (s ← State_init (ArgDict (dict_of o)) dev kw;
     Ok (alloc (OState s) (<[lx := set_dict o (items s)]> h))).
Proof.
  intros Hl. unfold State_init_h, State_init. cbn [arg_dict]. rewrite Hl.
  by destruct (State_fields _ _).
Qed.

Lemma StateTensor_init_h_RefObj lx o shp dev kw (h : gmap nat object) :
  h !! lx = Some o →
  StateTensor_init_h (RefObj lx) shp dev kw h =
    (s ← StateTensor_init (ArgDict (dict_of o)) shp dev kw;
     Ok (alloc (OState s) (<[lx := set_dict o (items s)]> h))).
Proof.
  intros Hl. unfold StateTensor_init_h, StateTensor_init, State_init.
  cbn [arg_dict]. rewrite Hl.
  destruct (StateTensor_fields _ _ _) as [d|]; [|done].
  cbn [mbind result_bind]. by destruct (State_fields _ _).
Qed.

Lemma State_init_h_dict x d dev (h : gmap nat object) :
  h !! x = Some (ODict d) → has_core d →
  State_init_h (RefObj x) dev ∅ h =
    Ok (alloc (OState (MkState CState d [] dev)) (<[x := ODict d]> h)).
Proof.
  intros Hx Hd. unfold State_init_h. cbn [arg_dict]. rewrite Hx.
  cbn [dict_of]. by rewrite State_fields_id.
Qed.

Lemma StateTensor_init_h_dict x d shp dev (h : gmap nat object) :
  h !! x = Some (ODict d) → has_core d →
  StateTensor_init_h (RefObj x) shp dev ∅ h =
    Ok (alloc (OState (MkState CStateTensor d shp dev)) (<[x := ODict d]> h)).
Proof.
  intros Hx Hd. unfold StateTensor_init_h. cbn [arg_dict]. rewrite Hx.
  cbn [dict_of]. rewrite StateTensor_fields_id by done.
  cbn [mbind result_bind]. by rewrite State_fields_id.
Qed.

(** C9. [update] leaves every other field as it is and changes no object
    that existed before the call, [self] included: the result is a new
    object.  When [done] is updated the old [mask] is carried over. *)
Theorem update_frame (h : gmap nat object) (l : nat) (s : state)
    (k : string) (v : value) :
  h !! l = Some (OState s) → constructed s →
  ∃ l' h' s',
    update_h l k v h = Ok (l', h') ∧
    update s k v = Ok s' ∧
    h !! l' = None ∧
    h' !! l' = Some (OState s') ∧
    (∀ l0 o, h !! l0 = Some o → h' !! l0 = Some o) ∧
    items s' !! k = Some v ∧
    (∀ k', k' ≠ k → items s' !! k' = items s !! k') ∧
    (k = "done" → items s' !! "mask" = items s !! "mask").
Proof.
  intros Hl Hc. pose proof (update_Ok s k v Hc) as Hu.
  pose proof (updated_items_has_core s k v (proj1 Hc)) as Hcore.
  unfold update_h, update_dict_h. rewrite Hl.
  destruct (alloc_fresh (ODict ∅) h) as [Hx Hh1].
  destruct (alloc (ODict ∅) h) as [x h1]. cbn [fst snd] in Hx, Hh1. subst h1.
  rewrite !insert_insert_eq.
  set (h2 := <[x := ODict (updated_items s k v)]> h).
  set (s' := MkState (cls s) (updated_items s k v) (shape s) (device s)).
  assert (h2 !! x = Some (ODict (updated_items s k v))) as Hx2
    by apply lookup_insert_eq.
  assert (∃ l' h', match cls s with
            | CState => State_init_h (RefObj x) (device s) ∅ h2
            | CStateTensor =>
                StateTensor_init_h (RefObj x) (shape s) (device s) ∅ h2
            end = Ok (l', h') ∧ h2 !! l' = None ∧ h' = <[l' := OState s']> h2)
    as (l' & h' & -> & Hl' & ->).
  { destruct (alloc_fresh (OState s') (<[x := ODict (updated_items s k v)]> h2))
      as [Hf Hh].
    unfold h2 in Hf, Hh. rewrite insert_insert_eq in Hf, Hh. fold h2 in Hf, Hh.
    destruct (cls s) eqn:Ecls.
    - rewrite (State_init_h_dict _ _ _ _ Hx2 Hcore).
      unfold h2 at 1. rewrite insert_insert_eq. fold h2.
      assert (MkState CState (updated_items s k v) [] (device s) = s') as ->.
      { unfold s'. rewrite ?Ecls. by rewrite (proj2 Hc Ecls). }
      destruct (alloc (OState s') h2) as [l' h']. cbn [fst snd] in *. eauto.
    - rewrite (StateTensor_init_h_dict _ _ _ _ _ Hx2 Hcore).
      unfold h2 at 1. rewrite insert_insert_eq. fold h2.
      assert (MkState CStateTensor (updated_items s k v) (shape s) (device s)
              = s') as ->.
      { unfold s'. by rewrite ?Ecls. }
      destruct (alloc (OState s') h2) as [l' h']. cbn [fst snd] in *. eauto. }
  exists l', (<[l' := OState s']> h2), s'.
  assert (l' ≠ x) as Hne by (intros ->; congruence).
  split; [done|]. split; [done|]. split.
  { unfold h2 in Hl'. by rewrite lookup_insert_ne in Hl'. }
  split; [apply lookup_insert_eq|]. split.
  { intros l0 o Ho. rewrite lookup_insert_ne.
    - unfold h2. rewrite lookup_insert_ne; [done|]. intros ->. congruence.
    - intros ->. unfold h2 in Hl'. rewrite lookup_insert_ne in Hl' by done.
      congruence. }
  unfold s'. cbn [items]. split; [|split].
  - by rewrite updated_items_lookup, decide_True.
  - intros k' Hk'. by rewrite updated_items_lookup, decide_False.
  - intros ->. by rewrite updated_items_lookup, decide_False.
Qed.

Lemma update_frame_witness :
  ({[0 := OState sample_state]} : gmap nat object) !! 0
    = Some (OState sample_state) ∧
  constructed sample_state ∧
  ∃ l' h' s',
    update_h 0 "done" (VBool true) {[0 := OState sample_state]} = Ok (l', h') ∧
    h' !! 0 = Some (OState sample_state) ∧
    h' !! l' = Some (OState s') ∧
    items s' !! "done" = Some (VBool true) ∧
    items s' !! "mask" = Some (VFloat 1).
Proof.
  assert (({[0 := OState sample_state]} : gmap nat object) !! 0
          = Some (OState sample_state)) as Hl by reflexivity.
  assert (constructed sample_state) as Hc.
  { split; [|reflexivity]. repeat constructor; eexists; reflexivity. }
  split; [exact Hl|]. split; [exact Hc|].
  destruct (update_frame _ 0 sample_state "done" (VBool true) Hl Hc)
    as (l' & h' & s' & H1 & _ & _ & H4 & H5 & H6 & _ & H8).
  exists l', h', s'. split; [exact H1|]. split; [exact (H5 0 _ Hl)|].
  split; [exact H4|]. split; [exact H6|].
  exact (eq_trans (H8 eq_refl) eq_refl).
Defined.

(** ** Shapes *)

Lemma numel_snoc (a : list nat) (f : nat) : numel (a ++ [f]) = numel a * f.
Proof. rewrite numel_app. simpl. lia. Qed.

Lemma numel_take_drop (n : nat) (sh : list nat) :
  numel sh = numel (take n sh) * numel (drop n sh).
Proof. by rewrite <-numel_app, take_drop. Qed.

Lemma tensor_eta t :
  contiguous t → Tensor (tdtype t) (tshape t) (tdata t) = t.
Proof. intros Hc. destruct t. unfold contiguous in Hc. simpl in *. by subst. Qed.

Lemma view_batch_Ok t shp new :
  take (length shp) (tshape t) = shp → contiguous t → numel new = numel shp →
  py.view_batch (VTensor t) new (length shp) =
    Ok (reshape_field new (length shp) (VTensor t)).
Proof.
  intros Ht Hc Hn. unfold py.view_batch.
  rewrite view_contiguous; [done|done|].
  rewrite numel_app, (numel_take_drop (length shp) (tshape t)), Ht. lia.
Qed.



Lemma has_core_fmap (g : value → value) (d : gmap string value) :
  has_core d → has_core (g <$> d).
Proof.
  intros (? & ? & ? & ?)%has_core_elim.
  apply has_core_intro; rewrite lookup_fmap; by apply fmap_is_Some.
Qed.

Lemma fmap_id_on (g : value → value) (d : gmap string value) :
  (∀ k v, d !! k = Some v → g v = v) → g <$> d = d.
Proof.
  intros H. apply map_eq. intros k. rewrite lookup_fmap.
  destruct (d !! k) as [v|] eqn:E; [|done]. simpl. by rewrite (H k v).
Qed.

Lemma StateTensor_view_Ok s new :
  constructed s → batched s → contiguous_fields s →
  numel new = numel (shape s) →
  StateTensor_view s new =
    Ok (MkState CStateTensor
          (reshape_field new (length (shape s)) <$> items s) new (device s)).
Proof.
  intros [Hc _] Hb Hcf Hn. unfold StateTensor_view.
  rewrite (dict_mapM_Ok _ (reshape_field new (length (shape s)))).
  - cbn [mbind result_bind]. by rewrite StateTensor_init_id by by apply has_core_fmap.
  - intros k v Hk. destruct (Hb k v Hk) as (t & -> & Ht).
    apply view_batch_Ok; [done| |done]. by apply (Hcf k).
Qed.

Lemma StateTensor_flatten_Ok s :
  constructed s → batched s → contiguous_fields s → shape s ≠ [] →
  StateTensor_flatten s =
    Ok (MkState CStateTensor
          (reshape_field [numel (shape s)] (length (shape s)) <$> items s)
          [numel (shape s)] (device s)).
Proof.
  intros [Hc _] Hb Hcf Hs. unfold StateTensor_flatten.
  assert (np_prod (shape s) = NpInt (numel (shape s))) as ->
    by by destruct (shape s).
  cbn [as_index mbind result_bind].
  rewrite (dict_mapM_Ok _
    (reshape_field [numel (shape s)] (length (shape s)))).
  - cbn [mbind result_bind].
    by rewrite StateTensor_init_id by by apply has_core_fmap.
  - intros k v Hk. destruct (Hb k v Hk) as (t & -> & Ht).
    apply view_batch_Ok; [done|by apply (Hcf k)|]. simpl. lia.
Qed.

(** A reshaped batch is a batch of the new shape, laid out row-major. *)
Lemma reshape_batched (s : state) (new : list nat) :
  batched s →
  batched (MkState CStateTensor
             (reshape_field new (length (shape s)) <$> items s) new (device s)).
Proof.
  intros Hb k v. cbn [items shape]. rewrite lookup_fmap.
  destruct (items s !! k) as [v0|] eqn:Ek; [|done]. cbn. intros [= <-].
  destruct (Hb k v0 Ek) as (t & -> & _). eexists. split; [done|].
  cbn [tshape]. by rewrite take_app_length.
Qed.

Lemma reshape_constructed (s : state) (new : list nat) :
  constructed s →
  constructed (MkState CStateTensor
                 (reshape_field new (length (shape s)) <$> items s) new
                 (device s)).
Proof. intros [Hc _]. split; [by apply has_core_fmap|done]. Qed.

Lemma reshape_contiguous (s : state) (new : list nat) :
  batched s →
  contiguous_fields
    (MkState CStateTensor
       (reshape_field new (length (shape s)) <$> items s) new (device s)).
Proof.
  intros Hb k t. cbn [items]. rewrite lookup_fmap.
  destruct (items s !! k) as [v0|] eqn:Ek; [|done]. cbn.
  destruct (Hb k v0 Ek) as (t0 & -> & _). cbn. by intros [= <-].
Qed.

(** ** Flatten and view *)

(** C3, as the code has it. For a batch of non-empty shape [S] whose
    fields all have leading dimensions [S] and are laid out row-major,
    [flatten] collapses the batch dimensions of every field into one of
    size [numel S], and [view S] on the result gives the original
    instance back, each field with its original shape and entries. *)
Theorem flatten_view_round_trip (s : state) :
  cls s = CStateTensor → constructed s → batched s → contiguous_fields s →
  shape s ≠ [] →
  ∃ f, StateTensor_flatten s = Ok f ∧
       shape f = [numel (shape s)] ∧
       (∀ k t, items s !! k = Some (VTensor t) →
          items f !! k =
            Some (VTensor (Tensor (tdtype t)
                    (numel (shape s) :: drop (length (shape s)) (tshape t))
                    (tdata t)))) ∧
       StateTensor_view f (shape s) = Ok s ∧
       flatten_view_restores s.
Proof.
  intros Hcls Hc Hb Hcf Hs.
  pose proof (StateTensor_flatten_Ok s Hc Hb Hcf Hs) as Hf.
  pose proof (reshape_constructed s [numel (shape s)] Hc) as Hfc.
  pose proof (reshape_batched s [numel (shape s)] Hb) as Hfb.
  pose proof (reshape_contiguous s [numel (shape s)] Hb) as Hfcf.
  set (f := MkState CStateTensor _ _ _) in *.
  assert (StateTensor_view f (shape s) = Ok s) as Hv.
  { rewrite StateTensor_view_Ok by (done || (cbn [shape f]; simpl; lia)).
    unfold f. cbn [items shape device length].
    rewrite <-map_fmap_compose. rewrite fmap_id_on.
    - destruct s. simpl in *. by subst.
    - intros k v Hk. destruct (Hb k v Hk) as (t & -> & Ht).
      unfold compose.
      cbn [reshape_field tshape tdtype tdata length drop app].
      rewrite drop_0.
      assert (shape s ++ drop (length (shape s)) (tshape t) = tshape t) as ->
        by (rewrite <-Ht at 1; apply take_drop).
      f_equal. apply tensor_eta. by apply (Hcf k). }
  exists f. split; [done|]. split; [done|]. split; [|split; [done|]].
  - intros k t Hk. unfold f. cbn [items]. by rewrite lookup_fmap, Hk.
  - unfold flatten_view_restores. rewrite Hf. cbn [mbind result_bind]. done.
Qed.

(** Checking [constructed], [batched] and [contiguous_fields] on a
    given instance. *)
Ltac check_constructed :=
  split; [repeat constructor; eexists; reflexivity | try reflexivity; discriminate].

Lemma batched_to_list s :
  Forall (λ kv, ∃ t, kv.2 = VTensor t ∧
                     take (length (shape s)) (tshape t) = shape s)
    (map_to_list (items s)) →
  batched s.
Proof.
  intros H k v Hk%elem_of_map_to_list.
  by apply (proj1 (list.Forall_forall _ _) H (k, v)).
Qed.

Ltac check_batched :=
  apply batched_to_list; vm_compute;
  repeat constructor; eexists; split; reflexivity.

Lemma contiguous_fields_to_list s :
  Forall (λ kv, ∀ t, kv.2 = VTensor t → contiguous t)
    (map_to_list (items s)) →
  contiguous_fields s.
Proof.
  intros H k t Hk%elem_of_map_to_list.
  by apply (proj1 (list.Forall_forall _ _) H (k, VTensor t)).
Qed.

Ltac check_contiguous :=
  apply contiguous_fields_to_list; vm_compute;
  repeat constructor; intros ? [= <-]; reflexivity.

Lemma flatten_view_round_trip_witness :
  cls sample_grid = CStateTensor ∧ constructed sample_grid ∧
  batched sample_grid ∧ contiguous_fields sample_grid ∧
  shape sample_grid ≠ [] ∧
  ∃ f, StateTensor_flatten sample_grid = Ok f ∧ shape f = [4] ∧
       items f !! "observation" =
         Some (VTensor (Tensor DFloat [4; 1] (ints [1; 2; 3; 4]%Z))) ∧
       StateTensor_view f [2; 2] = Ok sample_grid.
Proof.
  assert (constructed sample_grid) as Hc by check_constructed.
  assert (batched sample_grid) as Hb by check_batched.
  assert (contiguous_fields sample_grid) as Hcf by check_contiguous.
  assert (shape sample_grid ≠ []) as Hs by discriminate.
  split; [reflexivity|]. split; [exact Hc|]. split; [exact Hb|].
  split; [exact Hcf|]. split; [exact Hs|].
  destruct (flatten_view_round_trip sample_grid eq_refl Hc Hb Hcf Hs)
    as (f & H1 & H2 & H3 & H4 & _).
  exists f. split; [exact H1|]. split; [exact H2|]. split; [|exact H4].
  exact (H3 "observation" (Tensor DFloat [2; 2; 1] (ints [1; 2; 3; 4]%Z))
           eq_refl).
Defined.

(** C3, as stated, fails for the empty batch shape: [numpy.prod(())] is
    the float [1.0], which [view] refuses as a size, so [flatten] raises
    on an instance that the constructor accepts and whose fields all have
    the (empty) batch shape as leading dimensions. *)
Lemma flatten_scalar_batch_raises :
  StateTensor_init
    (ArgDict (<["observation" := VTensor (Tensor DFloat [] (ints [5]%Z))]>
                {["done" := VTensor (Tensor DBool [] (ints [0]%Z))]}))
    [] "cpu" ∅ = Ok scalar_batch ∧
  batched scalar_batch ∧ contiguous_fields scalar_batch ∧
  StateTensor_flatten scalar_batch = Raise TypeError ∧
  ¬ flatten_view_restores scalar_batch.
Proof.
  split; [vm_compute; reflexivity|]. split; [check_batched|].
  split; [check_contiguous|].
  assert (StateTensor_flatten scalar_batch = Raise TypeError) as H
    by (vm_compute; reflexivity).
  split; [exact H|]. unfold flatten_view_restores. rewrite H.
  intros E. discriminate E.
Qed.

(** It also fails for a batch whose fields do not lie row-major in their
    storage.  Every second row of [tall_batch], a batch of shape (4, 2),
    is a batch of shape (2, 2) whose fields have the strides of the rows
    they were taken from: [flatten], [view] with a shape of the same size
    and [as_input] raise on it. *)
Lemma flatten_strided_batch_raises :
  StateTensor_init
    (ArgOther (VTensor (Tensor DFloat [4; 2; 1]
                          (ints [1; 2; 3; 4; 5; 6; 7; 8]%Z))))
    [4; 2] "cpu" ∅ = Ok tall_batch ∧
  StateTensor_getitem tall_batch (KSlice None None (Some 2%Z)) =
    Ok (IState strided_batch) ∧
  constructed strided_batch ∧ batched strided_batch ∧
  StateTensor_flatten strided_batch = Raise RuntimeError ∧
  numel [4] = numel (shape strided_batch) ∧
  StateTensor_view strided_batch [4] = Raise RuntimeError ∧
  StateTensor_as_input strided_batch "observation" = Raise RuntimeError ∧
  ¬ flatten_view_restores strided_batch.
Proof.
  assert (StateTensor_flatten strided_batch = Raise RuntimeError) as Hf
    by (vm_compute; reflexivity).
  split; [vm_compute; reflexivity|]. split; [vm_compute; reflexivity|].
  split; [check_constructed|]. split; [check_batched|].
  split; [exact Hf|]. split; [vm_compute; reflexivity|].
  split; [vm_compute; reflexivity|]. split; [vm_compute; reflexivity|].
  unfold flatten_view_restores. rewrite Hf. intros E. discriminate E.
Qed.




(** ** Subscripting by an integer *)

Lemma norm_index_in_range n i :
  (- Z.of_nat n ≤ i < Z.of_nat n)%Z →
  torch.norm_index n i = Some (Z.to_nat (i `mod` Z.of_nat n)).
Proof.
  intros H. unfold torch.norm_index. case_decide.
  - by rewrite Z.mod_small.
  - rewrite decide_True by lia. do 2 f_equal.
    apply Z.mod_unique_pos with (q := (-1)%Z); lia.
Qed.

Lemma getitem_int_Ok t n i :
  take 1 (tshape t) = [n] → (- Z.of_nat n ≤ i < Z.of_nat n)%Z →
  py.getitem_int (VTensor t) i =
    Ok (slot_field (Z.to_nat (i `mod` Z.of_nat n)) (VTensor t)).
Proof.
  intros Ht Hi. unfold py.getitem_int, torch.select, slot_field.
  destruct (tshape t) as [|a rest]; [done|]. injection Ht as ->.
  by rewrite norm_index_in_range.
Qed.

(** C5, as the code has it. For a batch with a one-dimensional shape
    [(n)] whose fields are all tensors with first dimension [n], and an
    index [i] in range (from [0] to [n - 1], or from [-n] to [-1]
    counting from the end), [b[i]] is a plain [State] with the empty
    shape, the same keys, and under each key the field of [b] indexed at
    [i]: the block of its entries at position [i mod n] with the first
    dimension, and its stride, removed.  It is the state one builds by
    hand from those values. *)
Theorem getitem_int_is_slot (s : state) (n : nat) (i : Z) :
  constructed s → shape s = [n] → batched s →
  (- Z.of_nat n ≤ i < Z.of_nat n)%Z →
  ∃ r, StateTensor_getitem s (KInt i) = Ok (IState r) ∧
       cls r = CState ∧ shape r = [] ∧ device r = device s ∧
       dom (items r) = dom (items s) ∧
       (∀ k v, items s !! k = Some v →
          ∃ v', py.getitem_int v i = Ok v' ∧ items r !! k = Some v') ∧
       (∀ k t, items s !! k = Some (VTensor t) →
          items r !! k =
            Some (VTensor (MkTensor (tdtype t) (drop 1 (tshape t))
                    (torch.block (numel (drop 1 (tshape t)))
                       (Z.to_nat (i `mod` Z.of_nat n)) (tdata t))
                    (drop 1 (tstrides t))))) ∧
       (∀ d : gmap string value,
          (∀ k, d !! k = items s !! k ≫= λ v, try_pass (py.getitem_int v i)) →
          State_init (ArgDict d) (device s) ∅ = Ok r).
Proof.
  intros Hc Hs Hb Hi. set (j := Z.to_nat (i `mod` Z.of_nat n)).
  assert (∀ k v, items s !! k = Some v →
            py.getitem_int v i = Ok (slot_field j v)) as Hg.
  { intros k v Hk. destruct (Hb k v Hk) as (t & -> & Ht).
    rewrite Hs in Ht. by apply (getitem_int_Ok t n). }
  pose proof (has_core_fmap (slot_field j) _ (proj1 Hc)) as Hcore.
  exists (MkState CState (slot_field j <$> items s) [] (device s)).
  split.
  { unfold StateTensor_getitem.
    rewrite (dict_mapM_Ok _ (slot_field j)) by done.
    cbn [mbind result_bind]. by rewrite State_init_id. }
  cbn [cls shape device items].
  split; [done|]. split; [done|]. split; [done|].
  split; [by rewrite dom_fmap_L|]. split; [|split].
  - intros k v Hk. exists (slot_field j v).
    split; [by apply (Hg k)|]. by rewrite lookup_fmap, Hk.
  - intros k t Hk. by rewrite lookup_fmap, Hk.
  - intros d Hd.
    assert (d = slot_field j <$> items s) as ->.
    { apply map_eq. intros k. rewrite Hd, lookup_fmap.
      destruct (items s !! k) as [v|] eqn:Ek; [|done]. simpl.
      by rewrite (Hg k v Ek). }
    by rewrite State_init_id.
Qed.

Lemma getitem_int_is_slot_witness :
  constructed sample_batch ∧ shape sample_batch = [2] ∧
  batched sample_batch ∧ (- Z.of_nat 2 ≤ 1 < Z.of_nat 2)%Z ∧
  ∃ r, StateTensor_getitem sample_batch (KInt 1) = Ok (IState r) ∧
       cls r = CState ∧ shape r = [] ∧
       items r !! "observation" =
         Some (VTensor (Tensor DFloat [3] (ints [4; 5; 6]%Z))) ∧
       items r !! "mask" = Some (VTensor (Tensor DFloat [] (ints [0]%Z))).
Proof.
  assert (constructed sample_batch) as Hc by check_constructed.
  assert (batched sample_batch) as Hb by check_batched.
  assert (- Z.of_nat 2 ≤ 1 < Z.of_nat 2)%Z as Hi by (simpl; lia).
  split; [exact Hc|]. split; [reflexivity|]. split; [exact Hb|].
  split; [exact Hi|].
  destruct (getitem_int_is_slot sample_batch 2 1 Hc eq_refl Hb Hi)
    as (r & H1 & H2 & H3 & _ & _ & _ & H7 & _).
  exists r. split; [exact H1|]. split; [exact H2|]. split; [exact H3|]. split.
  - exact (H7 "observation" (Tensor DFloat [2; 3] (ints [1; 2; 3; 4; 5; 6]%Z))
             eq_refl).
  - exact (H7 "mask" (Tensor DFloat [2] (ints [1; 0]%Z)) eq_refl).
Defined.

(** C5, as stated, fails for a batch that holds a field that is not a
    tensor.  The constructor accepts any value under any key, here a
    float given as a keyword; [b[i]] subscripts every field and raises
    on it. *)
Lemma getitem_int_number_field_raises :
  StateTensor_init (ArgOther (VTensor (Tensor DFloat [3] (ints [1; 2; 3]%Z))))
    [3] "cpu" {["info" := VFloat 7]} = Ok noted_batch ∧
  shape noted_batch = [3] ∧
  (- Z.of_nat 3 ≤ 0 < Z.of_nat 3)%Z ∧
  StateTensor_getitem noted_batch (KInt 0) = Raise TypeError.
Proof.
  split; [vm_compute; reflexivity|]. split; [reflexivity|].
  split; [simpl; lia|]. vm_compute. reflexivity.
Qed.

(** ** Broadcasting *)

Lemma scale_blocks_app g f (m1 m2 d1 d2 : list num) :
  length d1 = length m1 * f →
  scale_blocks g f (d1 ++ d2) (m1 ++ m2) =
    scale_blocks g f d1 m1 ++ scale_blocks g f d2 m2.
Proof.
  revert d1. induction m1 as [|c m1 IH]; intros d1 Hd; simpl in *.
  - by apply nil_length_inv in Hd as ->.
  - rewrite take_app_le, drop_app_le by lia.
    rewrite IH by (rewrite length_drop; lia). by rewrite <-(assoc_L (++)).
Qed.

Lemma scale_blocks_chunks bd g f p :
  (∀ d m, length m = p → length d = p * f → bd d m = scale_blocks g f d m) →
  ∀ a d m, length m = a * p → length d = a * (p * f) →
    concat (zip_with bd (torch.chunks a (p * f) d) (torch.chunks a p m)) =
    scale_blocks g f d m.
Proof.
  intros Hbd a. induction a as [|a IH]; intros d m Hm Hd; simpl in *.
  - by apply nil_length_inv in Hm as ->.
  - rewrite Hbd by (rewrite length_take; lia).
    rewrite IH by (rewrite length_drop; lia).
    rewrite <-scale_blocks_app by (rewrite !length_take; lia).
    by rewrite !take_drop.
Qed.

Lemma scale_blocks_single g f (d : list num) c :
  length d = f → scale_blocks g f d [c] = map (λ x, g x c) d.
Proof.
  intros Hd. simpl. rewrite take_ge by lia. by rewrite (right_id_L [] (++)).
Qed.

Lemma concat_chunks a p (d : list num) :
  length d = a * p → concat (torch.chunks a p d) = d.
Proof.
  revert d. induction a as [|a IH]; intros d Hd; simpl in *.
  - by apply nil_length_inv in Hd as ->.
  - rewrite IH by (rewrite length_drop; lia). by rewrite take_drop.
Qed.

Lemma map_chunks (g : list num → list num) (h : num → num) a p (d : list num) :
  (∀ c, length c = p → g c = map h c) →
  length d = a * p →
  concat (map g (torch.chunks a p d)) = map h d.
Proof.
  intros Hg. revert d. induction a as [|a IH]; intros d Hd; simpl in *.
  - by apply nil_length_inv in Hd as ->.
  - rewrite Hg by (rewrite length_take; lia).
    rewrite IH by (rewrite length_drop; lia).
    by rewrite <-map_app, take_drop.
Qed.

(** A column of shape [S ++ [1]] against a tensor of shape [S ++ [f]]. *)
Lemma broadcast_shape_last S f :
  torch.broadcast_shape (S ++ [f]) (S ++ [1]) = Some (S ++ [f]).
Proof.
  induction S as [|a S IH]; simpl.
  - repeat case_decide; congruence.
  - rewrite IH. by rewrite decide_True.
Qed.

Lemma broadcast_data_last g S f (d m : list num) :
  length m = numel S → length d = numel S * f →
  torch.broadcast_data g (S ++ [f]) (S ++ [1]) d m = scale_blocks g f d m.
Proof.
  revert d m. induction S as [|a S IH]; intros d m Hm Hd.
  - simpl in Hm, Hd. destruct m as [|c [|??]]; try done.
    rewrite scale_blocks_single by lia.
    cbn [app torch.broadcast_data numel foldr]. case_decide as Hf.
    + subst f. destruct d as [|x [|??]]; try done.
    + apply map_chunks; [|lia].
      intros c' Hc'. by destruct c' as [|x [|??]].
  - cbn [app torch.broadcast_data]. rewrite decide_True by done.
    rewrite !numel_snoc, Nat.mul_1_r.
    apply scale_blocks_chunks.
    + intros d' m' Hm' Hd'. by apply IH.
    + simpl in Hm. done.
    + simpl in Hd. lia.
Qed.

(** A single entry against a tensor of any shape. *)
Lemma numel_ones r : numel (replicate r 1) = 1.
Proof. induction r as [|r IH]; simpl; [done|]. fold (numel (replicate r 1)). lia. Qed.

Lemma broadcast_shape_ones s :
  torch.broadcast_shape s (replicate (length s) 1) = Some s.
Proof.
  induction s as [|a s IH]; simpl; [done|]. rewrite IH.
  repeat case_decide; congruence.
Qed.

Lemma broadcast_data_ones g s (d : list num) c :
  length d = numel s →
  torch.broadcast_data g s (replicate (length s) 1) d [c] =
    map (λ x, g x c) d.
Proof.
  revert d. induction s as [|a s IH]; intros d Hd.
  - simpl in *. by destruct d as [|x [|??]].
  - cbn [length replicate torch.broadcast_data]. rewrite numel_ones.
    simpl in Hd. fold (numel s) in Hd. case_decide as Ha.
    + subst a. cbn [torch.chunks zip_with concat].
      rewrite (right_id_L [] (++)). rewrite take_ge by lia.
      by rewrite IH by lia.
    + apply map_chunks; [|done].
      intros c' Hc'. by apply IH.
Qed.

Lemma pad_shape_id r (s : list nat) : length s = r → torch.pad_shape r s = s.
Proof. intros <-. unfold torch.pad_shape. by rewrite Nat.sub_diag. Qed.

Lemma mul_entry t m c :
  tensor_wf t → tshape m = [] → tdata m = [c] →
  ∃ r, torch.mul t m = Ok r ∧
       tdtype r = promote (tdtype t) (tdtype m) ∧ tshape r = tshape t ∧
       tdata r =
         map (λ x, num_mul (promote (tdtype t) (tdtype m)) x c) (tdata t).
Proof.
  intros Ht Hs Hd. unfold torch.mul. rewrite Hs, Hd. cbn [length].
  rewrite Nat.max_0_r, pad_shape_id by done.
  unfold torch.pad_shape. cbn [length]. rewrite Nat.sub_0_r, (right_id_L [] (++)).
  rewrite broadcast_shape_ones. eexists. split; [done|].
  cbn [tdtype tshape tdata]. by rewrite broadcast_data_ones.
Qed.

Lemma mul_column t m f :
  tensor_wf t → tensor_wf m → tshape t = tshape m ++ [f] →
  ∃ r, torch.mul t (torch.unsqueeze_last m) = Ok r ∧
       tdtype r = promote (tdtype t) (tdtype m) ∧ tshape r = tshape t ∧
       tdata r =
         scale_blocks (num_mul (promote (tdtype t) (tdtype m))) f
           (tdata t) (tdata m).
Proof.
  intros Ht Hm Hs. unfold torch.mul, torch.unsqueeze_last.
  cbn [tshape tdata tdtype]. rewrite Hs, !length_app. cbn [length].
  rewrite Nat.max_id, !pad_shape_id by (rewrite length_app; done).
  rewrite broadcast_shape_last. eexists. split; [done|].
  cbn [tdtype tshape tdata]. split; [done|]. split; [done|].
  unfold tensor_wf in *. rewrite Hs, numel_snoc in Ht.
  by rewrite broadcast_data_last.
Qed.

Lemma mul_scalar_fields t dt c :
  tdtype (torch.mul_scalar t dt c) = promote (tdtype t) dt ∧
  tshape (torch.mul_scalar t dt c) = tshape t ∧
  tdata (torch.mul_scalar t dt c) =
    map (λ x, num_mul (promote (tdtype t) dt) x c) (tdata t).
Proof. done. Qed.

Lemma scale_blocks_block g f (d m : list num) j c :
  length d = length m * f → m !! j = Some c →
  torch.block f j (scale_blocks g f d m) =
    map (λ x, g x c) (torch.block f j d).
Proof.
  unfold torch.block. revert d j.
  induction m as [|c0 m IH]; intros d j Hd Hj; [done|].
  cbn [scale_blocks]. simpl in Hd.
  assert (length (map (λ x, g x c0) (take f d)) = f) as Hlen
    by (rewrite length_map, length_take; lia).
  destruct j as [|j].
  - injection Hj as ->. cbn [Nat.mul]. rewrite !drop_0.
    by rewrite take_app_length' by (by rewrite Hlen).
  - simpl in Hj. rewrite drop_app_ge by (rewrite Hlen; simpl; lia).
    rewrite Hlen. replace (S j * f - f) with (j * f) by (simpl; lia).
    rewrite (IH (drop f d) j) by (rewrite ?length_drop; done || lia).
    rewrite drop_drop. by replace (f + j * f) with (S j * f) by (simpl; lia).
Qed.

(** *** Products with a mask *)

(** The product with 0 is 0 for a finite entry and NaN for an infinity
    or NaN. *)
Lemma num_mul_zero dt x :
  num_mul dt x (Fin 0) = if is_finite x then Fin 0 else NaN.
Proof.
  unfold num_mul. destruct x as [a| | |]; cbn [fmul is_finite].
  - rewrite Z.mul_0_r. by destruct dt.
  - by destruct dt.
  - by destruct dt.
  - by destruct dt.
Qed.

(** The product with 1 is the entry itself. *)
Lemma wrap64_id z : int64 z → wrap64 z = z.
Proof.
  unfold int64, wrap64. intros H.
  rewrite Z.mod_small by lia. lia.
Qed.

Lemma num_mul_one dt dm x :
  entry_ok dt x → num_mul (promote dt dm) x (Fin 1) = x.
Proof.
  unfold num_mul. intros Hx. destruct x as [a| | |]; cbn [fmul].
  - rewrite Z.mul_1_r. destruct dt, dm; cbn [promote cast]; try done.
    + destruct Hx as [[= ->]|[= ->]]; done.
    + destruct Hx as (z & [= <-] & Hz). by rewrite wrap64_id.
    + destruct Hx as (z & [= <-] & Hz). by rewrite wrap64_id.
  - rewrite decide_False by done. rewrite decide_True by done.
    destruct dt, dm; cbn [promote cast]; try done;
      destruct Hx as [?|?] || destruct Hx as (? & ? & ?); done.
  - rewrite decide_False by done. rewrite decide_True by done.
    destruct dt, dm; cbn [promote cast]; try done;
      destruct Hx as [?|?] || destruct Hx as (? & ? & ?); done.
  - destruct dt, dm; cbn [promote cast]; try done;
      destruct Hx as [?|?] || destruct Hx as (? & ? & ?); done.
Qed.

Lemma map_num_mul_zero dt (d : list num) :
  map (λ x, num_mul dt x (Fin 0)) d =
    map (λ x, if is_finite x then Fin 0 else NaN) d.
Proof. apply map_ext. intros x. apply num_mul_zero. Qed.

Lemma map_num_mul_one dt dm (d : list num) :
  Forall (entry_ok dt) d →
  map (λ x, num_mul (promote dt dm) x (Fin 1)) d = d.
Proof.
  induction 1 as [|x d Hx _ IH]; [done|].
  cbn [map]. by rewrite IH, num_mul_one.
Qed.

(** ** Masking *)

Lemma State_apply_mask_scalar s t mv dt c :
  items s !! "mask" = Some mv → scalar_mask mv = Some (dt, c) →
  tensor_wf t →
  ∃ r, State_apply_mask s t = Ok r ∧
       tdtype r = promote (tdtype t) dt ∧ tshape r = tshape t ∧
       tdata r = map (λ x, num_mul (promote (tdtype t) dt) x c) (tdata t).
Proof.
  intros Hm He Ht. unfold State_apply_mask, State_getitem. rewrite Hm.
  cbn [mbind result_bind].
  destruct mv as [|b|z|y|m]; cbn [scalar_mask py.mul] in *.
  - done.
  - injection He as <- <-. eexists. split; [done|]. apply mul_scalar_fields.
  - case_decide; [|done]. injection He as <- <-.
    eexists. split; [done|]. apply mul_scalar_fields.
  - injection He as <- <-. eexists. split; [done|]. apply mul_scalar_fields.
  - destruct (tshape m) as [|??] eqn:Es; [|done].
    destruct (tdata m) as [|z [|??]] eqn:Ed; try done.
    injection He as <- <-. by apply mul_entry.
Qed.

Lemma StateTensor_apply_mask_column s t m f :
  items s !! "mask" = Some (VTensor m) → tensor_wf t → tensor_wf m →
  tshape t = tshape m ++ [f] →
  ∃ r, StateTensor_apply_mask s t = Ok r ∧
       tdtype r = promote (tdtype t) (tdtype m) ∧ tshape r = tshape t ∧
       tdata r =
         scale_blocks (num_mul (promote (tdtype t) (tdtype m))) f
           (tdata t) (tdata m).
Proof.
  intros Hm Ht Hwf Hs.
  unfold StateTensor_apply_mask, StateTensor_getitem_str, State_getitem.
  rewrite Hm. cbn [py.unsqueeze_last mbind result_bind].
  by apply (mul_column t m f).
Qed.

(** C7, as the code has it. On a plain [State] whose mask is a number
    (a Python integer that fits in int64) or a zero-dimensional tensor,
    [apply_mask] multiplies every entry of the tensor by the mask,
    whatever the shape of the tensor.  On a batch, [apply_mask]
    multiplies by [mask.unsqueeze(-1)]: for a tensor with exactly one
    more dimension than the mask, each slot's entries are multiplied by
    the mask of the slot.  The product is that of the result dtype: under
    a mask of 0 a finite entry becomes 0 and an infinite or NaN entry
    becomes NaN; under a mask of 1 an entry stays as it is. *)
Theorem apply_mask_scales (s : state) (t : tensor) :
  tensor_wf t →
  (cls s = CState →
     ∀ mv dt c, items s !! "mask" = Some mv →
       scalar_mask mv = Some (dt, c) →
       ∃ r, apply_mask s t = Ok r ∧
            tdtype r = promote (tdtype t) dt ∧ tshape r = tshape t ∧
            tdata r =
              map (λ x, num_mul (promote (tdtype t) dt) x c) (tdata t) ∧
            (c = Fin 0 →
               tdata r =
                 map (λ x, if is_finite x then Fin 0 else NaN) (tdata t)) ∧
            (c = Fin 1 → Forall (entry_ok (tdtype t)) (tdata t) →
               tdata r = tdata t)) ∧
  (cls s = CStateTensor →
     ∀ m f, items s !! "mask" = Some (VTensor m) → tensor_wf m →
       tshape t = tshape m ++ [f] →
       ∃ r, apply_mask s t = Ok r ∧
            tdtype r = promote (tdtype t) (tdtype m) ∧ tshape r = tshape t ∧
            tdata r =
              scale_blocks (num_mul (promote (tdtype t) (tdtype m))) f
                (tdata t) (tdata m) ∧
            ∀ j c, tdata m !! j = Some c →
              torch.block f j (tdata r) =
                map (λ x, num_mul (promote (tdtype t) (tdtype m)) x c)
                  (torch.block f j (tdata t)) ∧
              (c = Fin 0 →
                 torch.block f j (tdata r) =
                   map (λ x, if is_finite x then Fin 0 else NaN)
                     (torch.block f j (tdata t))) ∧
              (c = Fin 1 →
                 Forall (entry_ok (tdtype t)) (torch.block f j (tdata t)) →
                 torch.block f j (tdata r) = torch.block f j (tdata t))).
Proof.
  intros Ht. split.
  - intros Hcls mv dt c Hm He. unfold apply_mask. rewrite Hcls.
    destruct (State_apply_mask_scalar s t mv dt c Hm He Ht)
      as (r & Hr & Hdt & Hsh & Hd).
    exists r. split; [done|]. split; [done|]. split; [done|].
    split; [done|]. split.
    + intros ->. by rewrite Hd, map_num_mul_zero.
    + intros -> Hok. by rewrite Hd, map_num_mul_one.
  - intros Hcls m f Hm Hwf Hs. unfold apply_mask. rewrite Hcls.
    destruct (StateTensor_apply_mask_column s t m f Hm Ht Hwf Hs)
      as (r & Hr & Hdt & Hsh & Hd).
    exists r. split; [done|]. split; [done|]. split; [done|].
    split; [done|]. intros j c Hj.
    assert (torch.block f j (tdata r) =
            map (λ x, num_mul (promote (tdtype t) (tdtype m)) x c)
              (torch.block f j (tdata t))) as Hb.
    { rewrite Hd. apply scale_blocks_block; [|done].
      unfold tensor_wf in *. rewrite Ht, Hs, numel_snoc. by rewrite Hwf. }
    split; [done|]. split.
    + intros ->. by rewrite Hb, map_num_mul_zero.
    + intros -> Hok. by rewrite Hb, map_num_mul_one.
Qed.

Lemma apply_mask_scales_witness :
  tensor_wf (Tensor DFloat [2; 3] [Fin 5; Fin 7; PInf; Fin 2; Fin 3; PInf]) ∧
  cls sample_batch = CStateTensor ∧
  (∃ r, apply_mask sample_batch
          (Tensor DFloat [2; 3] [Fin 5; Fin 7; PInf; Fin 2; Fin 3; PInf]) =
          Ok r ∧
        tshape r = [2; 3] ∧
        tdata r = [Fin 5; Fin 7; PInf; Fin 0; Fin 0; NaN]) ∧
  cls sample_state = CState ∧
  (∃ r, apply_mask sample_state
          (Tensor DFloat [2; 3] [Fin 5; Fin 7; PInf; Fin 2; Fin 3; PInf]) =
          Ok r ∧
        tshape r = [2; 3] ∧
        tdata r = [Fin 5; Fin 7; PInf; Fin 2; Fin 3; PInf]) ∧
  tensor_wf (Tensor DLong [2] (ints [2 ^ 62; 5]%Z)) ∧
  cls scaled_state = CState ∧
  (∃ r, apply_mask scaled_state (Tensor DLong [2] (ints [2 ^ 62; 5]%Z)) =
          Ok r ∧
        tdtype r = DLong ∧ tdata r = ints [0; 20]%Z).
Proof.
  assert (tensor_wf
            (Tensor DFloat [2; 3] [Fin 5; Fin 7; PInf; Fin 2; Fin 3; PInf]))
    as Ht by reflexivity.
  assert (tensor_wf (Tensor DLong [2] (ints [2 ^ 62; 5]%Z))) as Hl
    by reflexivity.
  assert (tensor_wf (Tensor DFloat [2] (ints [1; 0]%Z))) as Hm by reflexivity.
  destruct (apply_mask_scales sample_batch _ Ht) as [_ Hb].
  destruct (apply_mask_scales sample_state _ Ht) as [Hs _].
  destruct (apply_mask_scales scaled_state _ Hl) as [Hi _].
  split; [exact Ht|]. split; [reflexivity|]. split.
  { destruct (Hb eq_refl (Tensor DFloat [2] (ints [1; 0]%Z)) 3 eq_refl Hm
                eq_refl) as (r & H1 & _ & H3 & H4 & _).
    exists r. split; [exact H1|]. split; [exact H3|]. exact H4. }
  split; [reflexivity|]. split.
  { destruct (Hs eq_refl (VFloat 1) DFloat (Fin 1) eq_refl eq_refl)
      as (r & H1 & _ & H3 & H4 & _).
    exists r. split; [exact H1|]. split; [exact H3|]. exact H4. }
  split; [exact Hl|]. split; [reflexivity|].
  destruct (Hi eq_refl (VInt 4) DLong (Fin 4) eq_refl eq_refl)
    as (r & H1 & H2 & _ & H4 & _).
  exists r. split; [exact H1|]. split; [exact H2|]. exact H4.
Defined.

(** C7, as stated, fails on a batch for tensors with no trailing
    dimension or with more than one.  With the mask (1, 0) of
    [sample_batch]: a tensor of shape (2) gives the 2 x 2 table of all
    products; a tensor of shape (2, 2, 1) is masked along its second
    dimension, which leaves an entry of the terminated slot in place; a
    tensor of shape (2, 3, 1) raises. *)
Lemma apply_mask_other_ranks :
  apply_mask sample_batch (Tensor DFloat [2] (ints [5; 7]%Z)) =
    Ok (Tensor DFloat [2; 2] (ints [5; 7; 0; 0]%Z)) ∧
  masked_slots (Tensor DFloat [2] (ints [5; 7]%Z))
    (Tensor DFloat [2] (ints [1; 0]%Z)) =
    Tensor DFloat [2] (ints [5; 0]%Z) ∧
  apply_mask sample_batch (Tensor DFloat [2; 2; 1] (ints [5; 7; 1; 2]%Z)) =
    Ok (Tensor DFloat [2; 2; 1] (ints [5; 0; 1; 0]%Z)) ∧
  masked_slots (Tensor DFloat [2; 2; 1] (ints [5; 7; 1; 2]%Z))
    (Tensor DFloat [2] (ints [1; 0]%Z)) =
    Tensor DFloat [2; 2; 1] (ints [5; 7; 0; 0]%Z) ∧
  apply_mask sample_batch
    (Tensor DFloat [2; 3; 1] (ints [5; 7; 1; 2; 3; 4]%Z)) =
    Raise RuntimeError ∧
  apply_mask sample_batch (Tensor DFloat [2] (ints [5; 7]%Z)) ≠
    Ok (masked_slots (Tensor DFloat [2] (ints [5; 7]%Z))
          (Tensor DFloat [2] (ints [1; 0]%Z))).
Proof.
  repeat split; try (vm_compute; reflexivity).
  vm_compute. intros E. discriminate E.
Qed.

(** Nor is a terminated slot always zeroed, and nor is the product
    always the product of the numbers.  An infinite entry of a slot of
    mask 0 becomes NaN; and in an int64 tensor the product wraps around:
    [2 ^ 62] times the mask 4 is 0. *)
Lemma apply_mask_other_numbers :
  apply_mask sample_batch (Tensor DFloat [2; 2] [PInf; Fin 3; PInf; Fin 3]) =
    Ok (Tensor DFloat [2; 2] [PInf; Fin 3; NaN; Fin 0]) ∧
  State_init (ArgOther (VTensor (Tensor DFloat [3] (ints [1; 2; 3]%Z)))) "cpu"
    {["mask" := VInt 4]} = Ok scaled_state ∧
  apply_mask scaled_state (Tensor DLong [2] (ints [2 ^ 62; 5]%Z)) =
    Ok (Tensor DLong [2] (ints [0; 20]%Z)).
Proof. repeat split; vm_compute; reflexivity. Qed.

(** ** Fields that cannot be gathered or combined *)

Lemma StateTensor_init_no_observation (x : gmap string value) shp dev :
  x !! "observation" = None →
  StateTensor_init (ArgDict x) shp dev ∅ =
    Raise (Exception "StateTensor must contain an observation").
Proof.
  intros Hx. unfold StateTensor_init, StateTensor_fields. cbn [as_dict].
  by rewrite merge_kwargs_empty, Hx.
Qed.

Lemma StateTensor_init_keeps (x : gmap string value) shp dev r k w :
  StateTensor_init (ArgDict x) shp dev ∅ = Ok r →
  x !! k = Some w → items r !! k = Some w.
Proof.
  intros (H & _)%StateTensor_init_Ok Hk.
  destruct (StateTensor_fields_spec _ _ _ _ H)
    as (_ & Hr & (dn & Hd & Hdn & m & Hm & Hm') & Hf).
  cbn [as_dict] in *. rewrite merge_kwargs_empty in *.
  destruct (decide (k = "reward")) as [->|]; [by rewrite Hr, Hk|].
  destruct (decide (k = "done")) as [->|].
  { rewrite Hk in Hdn. by rewrite Hd, Hdn. }
  destruct (decide (k = "mask")) as [->|].
  { rewrite Hk in Hm'. by rewrite Hm, Hm'. }
  rewrite Hf; [done|]. rewrite !not_elem_of_cons, elem_of_nil. tauto.
Qed.

Lemma StateTensor_init_side (x : gmap string value) shp dev r k :
  StateTensor_init (ArgDict x) shp dev ∅ = Ok r →
  k ∉ core_keys → items r !! k = x !! k.
Proof.
  intros (H & _)%StateTensor_init_Ok Hk.
  destruct (StateTensor_fields_spec _ _ _ _ H) as (_ & _ & _ & Hf).
  cbn [as_dict] in Hf. rewrite merge_kwargs_empty in Hf. apply Hf.
  unfold core_keys in Hk. rewrite !not_elem_of_cons in *. tauto.
Qed.

Lemma getitem_str_without k k' s :
  k' ≠ k → getitem_str (without k s) k' = getitem_str s k'.
Proof.
  intros Hk. unfold getitem_str, StateTensor_getitem_str, State_getitem, without.
  cbn [cls items]. by rewrite lookup_delete_ne.
Qed.

Lemma combine_without s0 rest k k' v :
  k' ≠ k → combine (without k s0 :: rest) k' v = combine (s0 :: rest) k' v.
Proof.
  intros Hk. unfold combine. cbn [mapM]. by rewrite getitem_str_without.
Qed.

Lemma try_pass_raises {A} (m : result A) : raises m → try_pass m = None.
Proof. by intros [e ->]. Qed.

Lemma from_list_dict_without s0 rest k v :
  items s0 !! k = Some v → raises (combine (s0 :: rest) k v) →
  dict_try_map (combine (without k s0 :: rest)) (items (without k s0)) =
  dict_try_map (combine (s0 :: rest)) (items s0).
Proof.
  intros Hk Hr. apply map_eq. intros k'. rewrite !dict_try_map_lookup.
  cbn [without items]. destruct (decide (k' = k)) as [->|Hne].
  - rewrite lookup_delete_eq, Hk. simpl. by rewrite try_pass_raises.
  - rewrite lookup_delete_ne by done.
    destruct (items s0 !! k') as [v'|]; [|done]. simpl.
    by rewrite combine_without.
Qed.

Lemma getitem_dict_without s t k v :
  items s !! k = Some v → raises (py.getitem_tensor v t) →
  dict_try_map (λ _ v, py.getitem_tensor v t) (items (without k s)) =
  dict_try_map (λ _ v, py.getitem_tensor v t) (items s).
Proof.
  intros Hk Hr. apply map_eq. intros k'. rewrite !dict_try_map_lookup.
  cbn [without items]. destruct (decide (k' = k)) as [->|Hne].
  - rewrite lookup_delete_eq, Hk. simpl. by rewrite try_pass_raises.
  - by rewrite lookup_delete_ne.
Qed.

Lemma getitem_tensor_Ok s t r :
  StateTensor_getitem s (KTensor t) = Ok r →
  ∃ m r',
    py.getitem_tensor (StateTensor_getitem_str s "mask") t = Ok (VTensor m) ∧
    r = IState r' ∧
    StateTensor_init
      (ArgDict (dict_try_map (λ _ v, py.getitem_tensor v t) (items s)))
      (tshape m) (device s) ∅ = Ok r'.
Proof.
  unfold StateTensor_getitem.
  destruct (py.getitem_tensor _ t) as [m|]; [|done]. cbn [mbind result_bind].
  destruct m as [| | | |m]; try done. cbn [py.shape_of mbind result_bind].
  destruct (StateTensor_init _ (tshape m) _ _) as [r'|] eqn:E; [|done].
  cbn [fmap result_fmap]. intros [= <-]. eauto 10.
Qed.

(** What the constructor puts in the place of a field that is not in
    the dict it is given. *)
Lemma StateTensor_init_defaults (x : gmap string value) shp dev r :
  StateTensor_init (ArgDict x) shp dev ∅ = Ok r →
  (x !! "reward" = None →
     items r !! "reward" = Some (VTensor (torch.zeros shp))) ∧
  (x !! "done" = None →
     shp ≠ [] ∧ items r !! "done" = Some (VTensor (default_done shp))) ∧
  (x !! "mask" = None →
     ∃ d m, items r !! "done" = Some (VTensor d) ∧
            items r !! "mask" = Some (VTensor m) ∧
            tdtype m = DFloat ∧ tshape m = tshape d ∧
            tdata m = map (fsub 1) (tdata d)).
Proof.
  intros (H & _)%StateTensor_init_Ok.
  destruct (StateTensor_fields_spec _ _ _ _ H)
    as (_ & Hr & (dn & Hd & Hdn & m & Hm & Hm') & _).
  cbn [as_dict] in *. rewrite merge_kwargs_empty in *.
  split; [|split].
  - intros E. by rewrite Hr, E.
  - intros E. rewrite E in Hdn. destruct Hdn as [Hs ->]. done.
  - intros E. rewrite E in Hm'. destruct Hm' as (t & -> & ->).
    exists t, (one_minus t). split; [done|]. split; [done|].
    apply one_minus_fields.
Qed.

(** Without a [done] the constructor raises for the empty shape. *)
Lemma StateTensor_init_no_done (x : gmap string value) dev :
  x !! "done" = None → raises (StateTensor_init (ArgDict x) [] dev ∅).
Proof.
  intros Hx. unfold StateTensor_init, StateTensor_fields. cbn [as_dict].
  rewrite merge_kwargs_empty.
  destruct (x !! "observation") as [o|]; [|by eexists].
  rewrite setdefault_lookup, decide_False, Hx by done.
  cbn [np_prod as_index mbind result_bind]. by eexists.
Qed.

(** C6, as the code has it. In [from_list] and in subscripting by a
    tensor, a field whose combination or gathering raises is left out
    without raising at that point, and the call goes on as if the
    instance did not have the field; a field that can be combined or
    gathered is kept.  So a side-channel field that fails is absent from
    the result.  For a core field the constructor does what it does for a
    key that is not given: if [observation] fails the construction
    raises; a failing [reward] is replaced by zeros of the shape of the
    result; a failing [done] by a tensor of [False] of that shape, which
    raises when that shape is empty; a failing [mask] by
    [1. - done.float()]; except that in subscripting the mask is gathered
    first, outside the [try], and raises.  Every result has the four core
    keys. *)
Theorem failing_fields_are_left_out :
  (∀ s0 rest k v,
     items s0 !! k = Some v →
     (∀ w r, combine (s0 :: rest) k v = Ok w →
        State_from_list (s0 :: rest) = Ok r → items r !! k = Some w) ∧
     (raises (combine (s0 :: rest) k v) →
        State_from_list (s0 :: rest) = State_from_list (without k s0 :: rest) ∧
        (k = "observation" →
           State_from_list (s0 :: rest) =
             Raise (Exception "StateTensor must contain an observation")) ∧
        (k ∉ core_keys →
           ∀ r, State_from_list (s0 :: rest) = Ok r → items r !! k = None) ∧
        (∀ r, State_from_list (s0 :: rest) = Ok r →
           (k = "reward" →
              items r !! "reward" = Some (VTensor (torch.zeros (shape r)))) ∧
           (k = "done" →
              items r !! "done" = Some (VTensor (default_done (shape r)))) ∧
           (k = "mask" →
              ∃ d m, items r !! "done" = Some (VTensor d) ∧
                     items r !! "mask" = Some (VTensor m) ∧
                     tdtype m = DFloat ∧ tshape m = tshape d ∧
                     tdata m = map (fsub 1) (tdata d))))) ∧
  (∀ l r, State_from_list l = Ok r → has_core (items r)) ∧
  (∀ s t k v,
     items s !! k = Some v →
     (∀ w r, py.getitem_tensor v t = Ok w →
        StateTensor_getitem s (KTensor t) = Ok (IState r) →
        items r !! k = Some w) ∧
     (raises (py.getitem_tensor v t) →
        (k = "mask" → raises (StateTensor_getitem s (KTensor t))) ∧
        (k ≠ "mask" →
           StateTensor_getitem s (KTensor t) =
             StateTensor_getitem (without k s) (KTensor t)) ∧
        (k = "observation" → raises (StateTensor_getitem s (KTensor t))) ∧
        (k ∉ core_keys →
           ∀ r, StateTensor_getitem s (KTensor t) = Ok (IState r) →
             items r !! k = None) ∧
        (∀ r, StateTensor_getitem s (KTensor t) = Ok (IState r) →
           (k = "reward" →
              items r !! "reward" = Some (VTensor (torch.zeros (shape r)))) ∧
           (k = "done" →
              shape r ≠ [] ∧
              items r !! "done" = Some (VTensor (default_done (shape r))))) ∧
        (k = "done" →
           ∀ m, py.getitem_tensor (StateTensor_getitem_str s "mask") t =
                  Ok (VTensor m) →
                tshape m = [] →
                raises (StateTensor_getitem s (KTensor t))))) ∧
  (∀ s t r, StateTensor_getitem s (KTensor t) = Ok r →
     ∃ r', r = IState r' ∧ has_core (items r')).
Proof.
  split; [|split; [|split]].
  - intros s0 rest k v Hk. split.
    + intros w r Hw Hr. unfold State_from_list in Hr.
      apply (StateTensor_init_keeps _ _ _ _ _ _ Hr).
      by rewrite dict_try_map_lookup, Hk; simpl; rewrite Hw.
    + intros Hraise.
      assert (dict_try_map (combine (s0 :: rest)) (items s0) !! k = None) as Hx.
      { rewrite dict_try_map_lookup, Hk. simpl. by apply try_pass_raises. }
      split; [|split; [|split]].
      * unfold State_from_list.
        by rewrite (from_list_dict_without s0 rest k v).
      * intros ->. unfold State_from_list.
        by apply StateTensor_init_no_observation.
      * intros Hside r Hr. unfold State_from_list in Hr.
        by rewrite (StateTensor_init_side _ _ _ _ _ Hr Hside).
      * intros r Hr. unfold State_from_list in Hr.
        destruct (StateTensor_init_defaults _ _ _ _ Hr) as (H1 & H2 & H3).
        apply StateTensor_init_Ok in Hr as (_ & _ & -> & _).
        split; [|split].
        -- intros ->. by apply H1.
        -- intros ->. by apply H2.
        -- intros ->. by apply H3.
  - intros [|s0 rest] r Hr; [done|].
    by apply StateTensor_init_constructed in Hr as [? _].
  - intros s t k v Hk. split.
    + intros w r Hw (m & r' & _ & [= <-] & Hr)%getitem_tensor_Ok.
      apply (StateTensor_init_keeps _ _ _ _ _ _ Hr).
      by rewrite dict_try_map_lookup, Hk; simpl; rewrite Hw.
    + intros Hraise.
      assert (dict_try_map (λ _ v, py.getitem_tensor v t) (items s) !! k = None)
        as Hx.
      { rewrite dict_try_map_lookup, Hk. simpl. by apply try_pass_raises. }
      split; [|split; [|split; [|split; [|split]]]].
      * intros ->. unfold StateTensor_getitem, StateTensor_getitem_str,
          State_getitem. rewrite Hk. destruct Hraise as [e ->]. by eexists.
      * intros Hne. unfold StateTensor_getitem.
        rewrite (getitem_dict_without s t k v) by done.
        unfold StateTensor_getitem_str, State_getitem, without.
        cbn [items device]. by rewrite lookup_delete_ne.
      * intros ->. unfold StateTensor_getitem.
        destruct (py.getitem_tensor (StateTensor_getitem_str s "mask") t)
          as [m|]; [|by eexists].
        cbn [mbind result_bind].
        destruct (py.shape_of m) as [shp|]; [|by eexists].
        cbn [mbind result_bind].
        rewrite StateTensor_init_no_observation by done. by eexists.
      * intros Hside r (m & r' & _ & [= <-] & Hr)%getitem_tensor_Ok.
        by rewrite (StateTensor_init_side _ _ _ _ _ Hr Hside).
      * intros r (m & r' & _ & [= <-] & Hr)%getitem_tensor_Ok.
        destruct (StateTensor_init_defaults _ _ _ _ Hr) as (H1 & H2 & _).
        apply StateTensor_init_Ok in Hr as (_ & _ & -> & _).
        split.
        -- intros ->. by apply H1.
        -- intros ->. by apply H2.
      * intros -> m Hm Hs. unfold StateTensor_getitem. rewrite Hm.
        cbn [mbind result_bind py.shape_of]. rewrite Hs.
        destruct (StateTensor_init_no_done
                    (dict_try_map (λ _ v, py.getitem_tensor v t) (items s))
                    (device s) Hx) as [e ->].
        by eexists.
  - intros s t r (m & r' & _ & -> & Hr)%getitem_tensor_Ok.
    exists r'. split; [done|].
    by apply StateTensor_init_constructed in Hr as [? _].
Qed.

Lemma failing_fields_are_left_out_witness :
  items info_state !! "info" = Some VNone ∧
  raises (combine [info_state; info_state] "info" VNone) ∧
  ("info" ∉ core_keys) ∧
  ∃ r, State_from_list [info_state; info_state] = Ok r ∧
       items r !! "info" = None ∧
       items r !! "observation" =
         Some (VTensor (Tensor DFloat [2; 3] (ints [1; 2; 3; 1; 2; 3]%Z))) ∧
       has_core (items r).
Proof.
  assert (items info_state !! "info" = Some VNone) as Hi by reflexivity.
  assert (items info_state !! "observation" =
          Some (VTensor (Tensor DFloat [3] (ints [1; 2; 3]%Z)))) as Ho by reflexivity.
  assert (raises (combine [info_state; info_state] "info" VNone)) as Hr
    by (eexists; vm_compute; reflexivity).
  assert (combine [info_state; info_state] "observation"
            (VTensor (Tensor DFloat [3] (ints [1; 2; 3]%Z))) =
          Ok (VTensor (Tensor DFloat [2; 3] (ints [1; 2; 3; 1; 2; 3]%Z)))) as Hc
    by (vm_compute; reflexivity).
  assert ("info" ∉ core_keys) as Hs by (unfold core_keys; notin_list).
  assert (∃ r, State_from_list [info_state; info_state] = Ok r) as [r E]
    by (eexists; vm_compute; reflexivity).
  split; [exact Hi|]. split; [exact Hr|]. split; [exact Hs|].
  destruct failing_fields_are_left_out as (Hfrom & Hcore & _).
  exists r. split; [exact E|].
  destruct (Hfrom info_state [info_state] "info" VNone Hi) as [_ Hdrop].
  destruct (Hdrop Hr) as (_ & _ & Hnone & _).
  split; [exact (Hnone Hs r E)|]. split.
  - destruct (Hfrom info_state [info_state] "observation" _ Ho) as [Hkeep _].
    exact (Hkeep _ r Hc E).
  - exact (Hcore _ r E).
Defined.

(** C6, as stated, fails when it is a core field that cannot be combined.
    Two states whose observations have different shapes cannot be
    stacked: the observation is left out and the constructor raises.  A
    reward that is a tensor in one state and a number in the other cannot
    be stacked either: it is left out and the result carries the default
    reward, zeros, in its place. *)
Lemma from_list_loses_core_fields :
  State_init (ArgOther (VTensor (Tensor DFloat [2] (ints [1; 2]%Z)))) "cpu" ∅ =
    Ok short_state ∧
  State_init (ArgOther (VTensor (Tensor DFloat [3] (ints [1; 2; 3]%Z)))) "cpu" ∅ =
    Ok long_state ∧
  State_from_list [short_state; long_state] =
    Raise (Exception "StateTensor must contain an observation") ∧
  State_init (ArgOther (VTensor (Tensor DFloat [3] (ints [1; 2; 3]%Z)))) "cpu"
    {["reward" := VTensor (Tensor DFloat [] (ints [1]%Z))]} =
    Ok tensor_reward_state ∧
  State_init (ArgOther (VTensor (Tensor DFloat [3] (ints [4; 5; 6]%Z)))) "cpu"
    {["reward" := VFloat 2]} = Ok float_reward_state ∧
  ∃ r, State_from_list [tensor_reward_state; float_reward_state] = Ok r ∧
       items r !! "reward" = Some (VTensor (Tensor DFloat [2] (ints [0; 0]%Z))).
Proof.
  repeat split; try (vm_compute; reflexivity).
  eexists. split; vm_compute; reflexivity.
Qed.

(** In subscripting, a [done] that cannot be gathered is not always
    replaced: [indexed_batch] holds a [done] that is not a tensor, and a
    long tensor without dimensions as key gives the empty shape, for
    which the constructor cannot build its default. *)
Lemma getitem_tensor_loses_done :
  StateTensor_init
    (ArgOther (VTensor (Tensor DFloat [3] (ints [1; 2; 3]%Z)))) [3] "cpu"
    (<["done" := VBool false]>
       {["mask" := VTensor (Tensor DFloat [3] (replicate 3 (Fin 1)))]}) =
    Ok indexed_batch ∧
  raises (py.getitem_tensor (VBool false) (Tensor DLong [] (ints [1]%Z))) ∧
  py.getitem_tensor (VTensor (Tensor DFloat [3] (replicate 3 (Fin 1))))
    (Tensor DLong [] (ints [1]%Z)) = Ok (VTensor (Tensor DFloat [] [Fin 1])) ∧
  StateTensor_getitem indexed_batch (KTensor (Tensor DLong [] (ints [1]%Z))) =
    Raise TypeError.
Proof.
  split; [vm_compute; reflexivity|]. split; [by eexists|].
  split; vm_compute; reflexivity.
Qed.

(** * Further properties of the code *)

(** ** Model inputs and outputs *)

Lemma squeeze_first_wf t : tensor_wf t → tensor_wf (torch.squeeze_first t).
Proof.
  unfold tensor_wf, torch.squeeze_first. intros H.
  destruct (tshape t) as [|[|[|a]] rest] eqn:E; cbn [tshape tdata];
    rewrite ?E; try done.
  rewrite H. simpl. lia.
Qed.

(** X1. [as_input] and [as_output] are inverse to each other on a field.
    On a plain [State], [as_input] puts a dimension of size 1 in front of
    a tensor field and [as_output] removes it again; a missing key is a
    [KeyError] and a field that is not a tensor an [AttributeError].  On
    a batch of non-empty shape [S], [as_input] of a field with leading
    dimensions [S] that is laid out row-major is the field as a float
    tensor with its batch dimensions collapsed into one of size
    [numel S], and [as_output] gives that tensor its original shape
    back. *)
Theorem as_input_as_output (s : state) (k : string) (t : tensor) :
  items s !! k = Some (VTensor t) →
  (∃ r, State_as_input s k = Ok r ∧
        tdtype r = tdtype t ∧ tshape r = 1 :: tshape t ∧
        tdata r = tdata t ∧ State_as_output r = t) ∧
  (∀ k', items s !! k' = None → State_as_input s k' = Raise KeyError) ∧
  (∀ k' v, items s !! k' = Some v → py.is_tensor v = false →
     State_as_input s k' = Raise AttributeError) ∧
  (shape s ≠ [] → take (length (shape s)) (tshape t) = shape s →
   contiguous t →
     StateTensor_as_input s k =
       Ok (Tensor DFloat
             (numel (shape s) :: drop (length (shape s)) (tshape t))
             (tdata t)) ∧
     StateTensor_as_output s
       (Tensor DFloat
          (numel (shape s) :: drop (length (shape s)) (tshape t)) (tdata t)) =
       Ok (Tensor DFloat (tshape t) (tdata t))).
Proof.
  intros Hk. split; [|split; [|split]].
  - unfold State_as_input, State_getitem. rewrite Hk.
    cbn [mbind result_bind py.unsqueeze_first]. eexists. split; [done|].
    unfold State_as_output, torch.squeeze_first, torch.unsqueeze_first.
    cbn [tdtype tshape tdata tstrides drop]. by destruct t.
  - intros k' Hk'. unfold State_as_input, State_getitem. by rewrite Hk'.
  - intros k' v Hk' Hv. unfold State_as_input, State_getitem. rewrite Hk'.
    by destruct v.
  - intros Hs Ht Hc.
    assert (numel (numel (shape s) :: drop (length (shape s)) (tshape t)) =
            numel (tshape t)) as Hn.
    { rewrite (numel_take_drop (length (shape s)) (tshape t)), Ht. done. }
    split.
    + unfold StateTensor_as_input, StateTensor_getitem_str, State_getitem.
      rewrite Hk.
      assert (np_prod (shape s) = NpInt (numel (shape s))) as ->
        by by destruct (shape s).
      cbn [as_index mbind result_bind].
      rewrite view_contiguous by done. cbn [mbind result_bind].
      by rewrite float_contiguous.
    + unfold StateTensor_as_output. cbn [tshape tdtype tdata].
      change (drop 1 (numel (shape s) :: drop (length (shape s)) (tshape t)))
        with (drop (length (shape s)) (tshape t)).
      assert (shape s ++ drop (length (shape s)) (tshape t) = tshape t) as ->.
      { rewrite <-Ht at 1. apply take_drop. }
      by rewrite view_contiguous.
Qed.

Lemma as_input_as_output_witness :
  items sample_grid !! "observation" =
    Some (VTensor (Tensor DFloat [2; 2; 1] (ints [1; 2; 3; 4]%Z))) ∧
  shape sample_grid ≠ [] ∧
  StateTensor_as_input sample_grid "observation" =
    Ok (Tensor DFloat [4; 1] (ints [1; 2; 3; 4]%Z)) ∧
  StateTensor_as_output sample_grid
    (Tensor DFloat [4; 1] (ints [1; 2; 3; 4]%Z)) =
    Ok (Tensor DFloat [2; 2; 1] (ints [1; 2; 3; 4]%Z)).
Proof.
  assert (items sample_grid !! "observation" =
    Some (VTensor (Tensor DFloat [2; 2; 1] (ints [1; 2; 3; 4]%Z)))) as Hk
    by reflexivity.
  assert (shape sample_grid ≠ []) as Hs by discriminate.
  split; [exact Hk|]. split; [exact Hs|].
  destruct (as_input_as_output sample_grid "observation" _ Hk)
    as (_ & _ & _ & H).
  exact (H Hs eq_refl eq_refl).
Defined.

Lemma squeeze_first_fields t :
  tdtype (torch.squeeze_first t) = tdtype t ∧
  tdata (torch.squeeze_first t) = tdata t ∧
  tshape (torch.squeeze_first t) =
    match tshape t with 1 :: rest => rest | sh => sh end.
Proof.
  unfold torch.squeeze_first.
  by destruct (tshape t) as [|[|[|a]] rest] eqn:E; cbn [tdtype tshape tdata].
Qed.

(** X2. [apply] runs the model on the inputs, reshapes its output and
    masks it.  On a plain [State] whose mask is a number or a
    zero-dimensional tensor, the output loses a first dimension of size 1
    and every entry is multiplied by the mask.  On a batch of shape [S]
    whose mask has one entry per slot, a row-major output of shape
    [(numel S, f)] comes back with shape [S + (f,)], the [f] entries of
    each slot multiplied by the mask of the slot.  Under a mask of 0 a
    finite output becomes 0, an infinite or NaN output becomes NaN; under
    a mask of 1 the outputs stay as they are. *)
Theorem apply_masks_model_output (s : state)
    (model : list tensor → result tensor) (keys : list string)
    (ins : list tensor) (out : tensor) :
  mapM (as_input s) keys = Ok ins → model ins = Ok out → tensor_wf out →
  (cls s = CState →
     ∀ mv dt c, items s !! "mask" = Some mv →
       scalar_mask mv = Some (dt, c) →
       ∃ r, apply s model keys = Ok r ∧
            tdtype r = promote (tdtype out) dt ∧
            tshape r = match tshape out with 1 :: rest => rest | sh => sh end ∧
            tdata r =
              map (λ x, num_mul (promote (tdtype out) dt) x c) (tdata out) ∧
            (c = Fin 0 →
               tdata r =
                 map (λ x, if is_finite x then Fin 0 else NaN) (tdata out)) ∧
            (c = Fin 1 → Forall (entry_ok (tdtype out)) (tdata out) →
               tdata r = tdata out)) ∧
  (cls s = CStateTensor →
     ∀ m f, items s !! "mask" = Some (VTensor m) → tensor_wf m →
       tshape m = shape s → tshape out = [numel (shape s); f] →
       contiguous out →
       ∃ r, apply s model keys = Ok r ∧
            tdtype r = promote (tdtype out) (tdtype m) ∧
            tshape r = shape s ++ [f] ∧
            tdata r =
              scale_blocks (num_mul (promote (tdtype out) (tdtype m))) f
                (tdata out) (tdata m) ∧
            ∀ j c, tdata m !! j = Some c →
              torch.block f j (tdata r) =
                map (λ x, num_mul (promote (tdtype out) (tdtype m)) x c)
                  (torch.block f j (tdata out)) ∧
              (c = Fin 0 →
                 torch.block f j (tdata r) =
                   map (λ x, if is_finite x then Fin 0 else NaN)
                     (torch.block f j (tdata out))) ∧
              (c = Fin 1 →
                 Forall (entry_ok (tdtype out)) (torch.block f j (tdata out)) →
                 torch.block f j (tdata r) = torch.block f j (tdata out))).
Proof.
  intros Hins Hout Hwf. split.
  - intros Hcls mv dt c Hm He. unfold apply. rewrite Hins.
    cbn [mbind result_bind]. rewrite Hout. cbn [mbind result_bind].
    unfold as_output, apply_mask. rewrite Hcls. cbn [mbind result_bind].
    destruct (squeeze_first_fields out) as (Hdt & Hd & Hsh).
    destruct (State_apply_mask_scalar s (State_as_output out) mv dt c Hm He)
      as (r & Hr & Hrdt & Hrsh & Hrd); [by apply squeeze_first_wf|].
    unfold State_as_output in *. rewrite Hdt, Hd in Hrd. rewrite Hdt in Hrdt.
    rewrite Hsh in Hrsh.
    exists r. split; [done|]. split; [done|]. split; [done|].
    split; [done|]. split.
    + intros ->. by rewrite Hrd, map_num_mul_zero.
    + intros -> Hok. by rewrite Hrd, map_num_mul_one.
  - intros Hcls m f Hm Hmwf Hms Hso Hco.
    assert (length (tdata out) = numel (shape s) * f) as Hlen.
    { unfold tensor_wf in Hwf. rewrite Hwf, Hso. simpl. lia. }
    set (o := Tensor (tdtype out) (shape s ++ [f]) (tdata out)).
    assert (as_output s out = Ok o) as Ho.
    { unfold as_output. rewrite Hcls. unfold StateTensor_as_output.
      rewrite Hso. cbn [drop].
      rewrite view_contiguous; [done|done|].
      rewrite Hso, numel_snoc. simpl. lia. }
    destruct (StateTensor_apply_mask_column s o m f Hm) as
      (r & Hr & Hrdt & Hrsh & Hrd).
    { unfold tensor_wf, o. cbn [tshape tdata]. by rewrite numel_snoc. }
    { done. }
    { unfold o. cbn [tshape]. by rewrite Hms. }
    unfold o in Hrdt, Hrsh, Hrd. cbn [tdtype tshape tdata] in Hrdt, Hrsh, Hrd.
    exists r. split.
    { unfold apply. rewrite Hins. cbn [mbind result_bind]. rewrite Hout.
      cbn [mbind result_bind]. rewrite Ho. cbn [mbind result_bind].
      unfold apply_mask. by rewrite Hcls. }
    split; [done|]. split; [done|]. split; [done|]. intros j c Hj.
    assert (torch.block f j (tdata r) =
            map (λ x, num_mul (promote (tdtype out) (tdtype m)) x c)
              (torch.block f j (tdata out))) as Hb.
    { rewrite Hrd. apply scale_blocks_block; [|done].
      unfold tensor_wf in Hmwf. by rewrite Hlen, Hmwf, Hms. }
    split; [done|]. split.
    + intros ->. by rewrite Hb, map_num_mul_zero.
    + intros -> Hok. by rewrite Hb, map_num_mul_one.
Qed.

Lemma apply_masks_model_output_witness :
  mapM (as_input sample_batch) ["observation"] =
    Ok [Tensor DFloat [2; 3] (ints [1; 2; 3; 4; 5; 6]%Z)] ∧
  tensor_wf (Tensor DFloat [2; 2] (ints [7; 8; 9; 10]%Z)) ∧
  ∃ r, apply sample_batch
         (λ _, Ok (Tensor DFloat [2; 2] (ints [7; 8; 9; 10]%Z)))
         ["observation"] = Ok r ∧
       tshape r = [2; 2] ∧ tdata r = ints [7; 8; 0; 0]%Z.
Proof.
  assert (mapM (as_input sample_batch) ["observation"] =
    Ok [Tensor DFloat [2; 3] (ints [1; 2; 3; 4; 5; 6]%Z)]) as Hins
    by (vm_compute; reflexivity).
  assert (tensor_wf (Tensor DFloat [2; 2] (ints [7; 8; 9; 10]%Z))) as Hwf
    by reflexivity.
  assert (tensor_wf (Tensor DFloat [2] (ints [1; 0]%Z))) as Hm by reflexivity.
  split; [exact Hins|]. split; [exact Hwf|].
  destruct (apply_masks_model_output sample_batch
    (λ _, Ok (Tensor DFloat [2; 2] (ints [7; 8; 9; 10]%Z))) ["observation"]
    _ _ Hins eq_refl Hwf) as [_ H].
  destruct (H eq_refl (Tensor DFloat [2] (ints [1; 0]%Z)) 2 eq_refl Hm eq_refl
              eq_refl eq_refl) as (r & H1 & _ & H3 & H4 & _).
  exists r. split; [exact H1|]. split; [exact H3|]. exact H4.
Defined.

(** ** Batches built by from_list *)

Lemma mapM_result_Forall2 {A B} (f : A → result B) (l : list A) (l' : list B) :
  mapM f l = Ok l' → Forall2 (λ a b, f a = Ok b) l l'.
Proof.
  revert l'. induction l as [|a l IH]; intros l'; cbn [mapM].
  - intros [= <-]. constructor.
  - destruct (f a) as [b|] eqn:Ea; [|done]. cbn [mbind result_bind].
    destruct (mapM f l) as [k|]; [|done]. cbn [mbind result_bind].
    intros [= <-]. constructor; [done|]. by apply IH.
Qed.

Lemma getitem_str_bound s k v :
  items s !! k = Some v → getitem_str s k = Ok v.
Proof.
  intros H. unfold getitem_str, StateTensor_getitem_str, State_getitem.
  rewrite H. by destruct (cls s).
Qed.

Lemma stack_cons_shape t0 vs w :
  py.stack (VTensor t0 :: vs) = Ok w →
  ∃ t, w = VTensor t ∧ tshape t = S (length vs) :: tshape t0.
Proof.
  unfold py.stack.
  match goal with
  | |- context [mapM ?g ?l] => destruct (mapM g l) as [ts|] eqn:E; [|done]
  end.
  apply mapM_Some in E. apply Forall2_length in E as Hlen.
  destruct ts as [|t ts]; [done|].
  inversion E as [|? ? ? ? Hhead _]; subst. injection Hhead as <-.
  unfold torch.stack.
  case_decide; [|done]. cbn [fmap result_fmap]. intros [= <-].
  eexists. split; [done|]. cbn [tshape]. simpl in Hlen. simpl. congruence.
Qed.

Lemma tensor_of_list_cons_shape v0 vs w :
  py.tensor_of_list (v0 :: vs) = Ok w →
  ∃ t, w = VTensor t ∧ tshape t = [S (length vs)].
Proof.
  unfold py.tensor_of_list.
  destruct (mapM py.scalar_entry (v0 :: vs)) as [es|] eqn:E;
    [|intros H; discriminate H].
  apply mapM_Some, Forall2_length in E.
  destruct es as [|e es]; [done|]. cbv zeta.
  destruct (forallb _ _); [|intros H; discriminate H]. intros [= <-].
  eexists. split; [done|]. cbn [tshape]. simpl in E. simpl. congruence.
Qed.

(** The shape of a combined field: the number of states, then the shape
    of the first state's tensor; a vector when the values are numbers. *)
Lemma combine_shape s0 rest k v0 w :
  items s0 !! k = Some v0 → combine (s0 :: rest) k v0 = Ok w →
  ∃ t, w = VTensor t ∧
       tshape t = S (length rest) ::
         match v0 with VTensor t0 => tshape t0 | _ => [] end.
Proof.
  intros Hk. unfold combine. cbn [mapM].
  rewrite (getitem_str_bound _ _ _ Hk). cbn [mbind result_bind].
  destruct (mapM (λ st, getitem_str st k) rest) as [vs|] eqn:Evs; [|done].
  cbn [mbind result_bind].
  apply mapM_result_Forall2, Forall2_length in Evs.
  destruct (py.is_tensor v0) eqn:Et.
  - destruct v0 as [| | | |t0]; try done. intros Hw.
    destruct (stack_cons_shape _ _ _ Hw) as (t & -> & Ht).
    exists t. split; [done|]. congruence.
  - intros Hw. destruct (tensor_of_list_cons_shape _ _ _ Hw) as (t & -> & Ht).
    exists t. split; [done|]. rewrite Ht, Evs. by destruct v0.
Qed.

Lemma from_list_batched (s0 : state) (rest : list state) (r : state) :
  State_from_list (s0 :: rest) = Ok r →
  shape s0 = [] ∨ batched s0 →
  batched r.
Proof.
  intros Hr Hs0. unfold State_from_list in Hr.
  apply StateTensor_init_Ok in Hr as (Hf & Hcls & Hshape & _).
  cbn [length] in Hshape.
  set (shp := S (length rest) :: shape s0) in *.
  set (x := dict_try_map _ _) in Hf.
  assert (∀ k w, x !! k = Some w →
            ∃ t, w = VTensor t ∧ take (length shp) (tshape t) = shp) as Hx.
  { intros k w. unfold x. rewrite dict_try_map_lookup.
    destruct (items s0 !! k) as [v0|] eqn:Ek; [|done]. simpl.
    destruct (combine (s0 :: rest) k v0) as [w'|] eqn:Ew; [|done].
    intros [= <-].
    destruct (combine_shape _ _ _ _ _ Ek Ew) as (t & -> & Ht).
    exists t. split; [done|]. rewrite Ht. unfold shp. cbn [length take].
    f_equal. destruct Hs0 as [E|Hb].
    - rewrite E. by rewrite take_0.
    - destruct (Hb k v0 Ek) as (t0 & -> & Ht0). done. }
  destruct (StateTensor_fields_spec _ _ _ _ Hf)
    as (_ & Hrew & (dn & Hd & Hdn & m & Hm & Hm') & Hside).
  cbn [as_dict] in *. rewrite merge_kwargs_empty in *.
  assert (∃ t, dn = VTensor t ∧ take (length shp) (tshape t) = shp) as Hdn'.
  { destruct (x !! "done") as [d0|] eqn:E.
    - subst dn. by apply (Hx "done").
    - destruct Hdn as [_ ->]. eexists. split; [done|]. apply take_ge. done. }
  intros k v Hk. rewrite Hshape.
  destruct (decide (k = "reward")) as [->|].
  { rewrite Hrew in Hk. injection Hk as <-.
    destruct (x !! "reward") as [w|] eqn:E; [by apply (Hx "reward")|].
    eexists. split; [done|]. by apply take_ge. }
  destruct (decide (k = "done")) as [->|].
  { rewrite Hd in Hk. by injection Hk as <-. }
  destruct (decide (k = "mask")) as [->|].
  { rewrite Hm in Hk. injection Hk as <-.
    destruct (x !! "mask") as [m0|] eqn:E.
    - subst m. by apply (Hx "mask").
    - destruct Hm' as (t & -> & ->). destruct Hdn' as (t' & [= <-] & Ht').
      eexists. split; [done|].
      by rewrite (proj1 (proj2 (one_minus_fields _))). }
  rewrite Hside in Hk by (rewrite !not_elem_of_cons, elem_of_nil; tauto).
  by apply (Hx k).
Qed.

(** X3. What [from_list] returns is a well-formed batch.  For a list of
    plain states (empty shape), or of batches whose fields all have the
    batch shape as leading dimensions, the result is a [StateTensor] with
    the four core keys, its shape is the number of states followed by the
    shape of the first state, its [len] is the number of states, and
    every field it holds, gathered or filled in by the constructor, has
    that shape as leading dimensions. *)
Theorem from_list_batch (s0 : state) (rest : list state) (r : state) :
  State_from_list (s0 :: rest) = Ok r →
  shape s0 = [] ∨ batched s0 →
  cls r = CStateTensor ∧
  shape r = S (length rest) :: shape s0 ∧
  len r = Ok (S (length rest)) ∧
  constructed r ∧ batched r.
Proof.
  intros Hr Hs0. pose proof (from_list_batched _ _ _ Hr Hs0) as Hb.
  unfold State_from_list in Hr.
  pose proof (StateTensor_init_constructed _ _ _ _ _ Hr) as Hc.
  apply StateTensor_init_Ok in Hr as (_ & Hcls & Hshape & _).
  cbn [length] in Hshape.
  split; [done|]. split; [done|]. split; [|done].
  unfold len, StateTensor_len. by rewrite Hcls, Hshape.
Qed.

Lemma from_list_batch_witness :
  (shape info_state = [] ∨ batched info_state) ∧
  ∃ r, State_from_list [info_state; info_state] = Ok r ∧
       cls r = CStateTensor ∧ shape r = [2] ∧ len r = Ok 2 ∧
       constructed r ∧ batched r.
Proof.
  assert (shape info_state = [] ∨ batched info_state) as Hs
    by (left; reflexivity).
  assert (∃ r, State_from_list [info_state; info_state] = Ok r) as [r E]
    by (eexists; vm_compute; reflexivity).
  split; [exact Hs|]. exists r. split; [exact E|].
  exact (from_list_batch info_state [info_state] r E Hs).
Defined.

Lemma block_concat size (ds : list (list num)) i d :
  Forall (λ d, length d = size) ds → ds !! i = Some d →
  torch.block size i (concat ds) = d.
Proof.
  unfold torch.block. intros Hall. revert i.
  induction Hall as [|d0 ds Hd0 _ IH]; intros i Hi; [done|].
  cbn [concat]. destruct i as [|i].
  - injection Hi as ->. cbn [Nat.mul]. rewrite drop_0.
    by rewrite take_app_length' by done.
  - simpl in Hi. rewrite drop_app_ge by (rewrite Hd0; simpl; lia).
    rewrite Hd0. replace (S i * size - size) with (i * size) by (simpl; lia).
    by apply IH.
Qed.

Lemma block_single (l : list num) i z :
  l !! i = Some z → torch.block 1 i l = [z].
Proof.
  intros Hi. unfold torch.block. rewrite Nat.mul_1_r.
  rewrite (drop_S _ _ _ Hi). simpl. by rewrite take_0.
Qed.

Lemma norm_index_nat n i :
  i < n → torch.norm_index n (Z.of_nat i) = Some i.
Proof.
  intros H. unfold torch.norm_index. rewrite decide_True by lia.
  by rewrite Nat2Z.id.
Qed.

(** Slot [i] of a stack of tensors is the [i]-th tensor. *)
Lemma stack_select vs w i vi :
  py.stack vs = Ok w → vs !! i = Some vi →
  Forall (λ v, ∀ t, v = VTensor t → tensor_wf t) vs →
  ∃ ti dt, vi = VTensor ti ∧
    py.getitem_int w (Z.of_nat i) =
      Ok (VTensor (Tensor dt (tshape ti) (tdata ti))).
Proof.
  unfold py.stack. intros Hw Hi Hwf.
  match type of Hw with
  | context [mapM ?g ?l] => destruct (mapM g l) as [ts|] eqn:E; [|done]
  end.
  apply mapM_Some in E.
  assert (∃ ti, vi = VTensor ti ∧ ts !! i = Some ti) as (ti & -> & Hti).
  { destruct (Forall2_lookup_l _ _ _ _ _ E Hi) as (t & Ht & Hg).
    destruct vi; try done. injection Hg as <-. eauto. }
  exists ti.
  assert (Forall tensor_wf ts) as Hwfs.
  { clear -E Hwf. revert Hwf.
    induction E as [|v t vs ts Hv _ IH]; intros Hwf; [constructor|].
    inversion Hwf as [|? ? Hv' Hwf']; subst. constructor; [|by apply IH].
    destruct v; try done. injection Hv as <-. by apply Hv'. }
  unfold torch.stack in Hw. destruct ts as [|t0 ts']; [done|].
  case_decide as Hsh; [|done]. cbn [fmap result_fmap] in Hw.
  injection Hw as <-. unfold py.getitem_int, torch.select. cbn [tshape].
  rewrite norm_index_nat by (by apply lookup_lt_Some in Hti).
  cbn [fmap result_fmap tdata tdtype tstrides contiguous_strides drop].
  assert (tshape ti = tshape t0) as ->.
  { by apply (proj1 (list.Forall_forall _ _) Hsh ti),
      list_elem_of_lookup_2 with i. }
  eexists. split; [done|]. do 3 f_equal.
  refine (block_concat (numel (tshape t0)) (tdata <$> t0 :: ts') i
            (tdata ti) _ _); [|by rewrite list_lookup_fmap, Hti].
  apply Forall_fmap, list.Forall_forall. intros t Ht. cbn.
  rewrite <-(proj1 (list.Forall_forall _ _) Hsh t Ht).
  by apply (proj1 (list.Forall_forall _ _) Hwfs t).
Qed.

(** Slot [i] of a tensor built from a list of numbers is the [i]-th
    number, as a tensor without dimensions. *)
Lemma tensor_of_list_select vs w i vi :
  py.tensor_of_list vs = Ok w → vs !! i = Some vi →
  ∃ dt0 z dt, py.scalar_entry vi = Some (dt0, z) ∧
    py.getitem_int w (Z.of_nat i) = Ok (VTensor (Tensor dt [] [z])).
Proof.
  unfold py.tensor_of_list. intros Hw Hi.
  destruct (mapM py.scalar_entry vs) as [es|] eqn:E; [|discriminate Hw].
  apply mapM_Some in E.
  destruct (Forall2_lookup_l _ _ _ _ _ E Hi) as ([dt0 z] & He & Hs).
  exists dt0, z. destruct es as [|e es']; [done|]. cbv zeta in Hw.
  destruct (forallb _ _); [|discriminate Hw]. injection Hw as <-.
  eexists. split; [done|]. unfold py.getitem_int, torch.select. cbn [tshape].
  rewrite norm_index_nat by (by apply lookup_lt_Some in He).
  cbn [fmap result_fmap tdata tdtype tstrides numel foldr drop
       contiguous_strides].
  do 3 f_equal.
  refine (block_single (e :: es').*2 i z _). by rewrite list_lookup_fmap, He.
Qed.

Lemma getitem_int_at s n S' i :
  constructed s → batched s → shape s = n :: S' → i < n →
  StateTensor_getitem s (KInt (Z.of_nat i)) =
    Ok (IState (MkState CState (slot_field i <$> items s) [] (device s))) ∧
  ∀ k v, items s !! k = Some v →
    py.getitem_int v (Z.of_nat i) = Ok (slot_field i v).
Proof.
  intros Hc Hb Hs Hi.
  assert (∀ k v, items s !! k = Some v →
            py.getitem_int v (Z.of_nat i) = Ok (slot_field i v)) as Hg.
  { intros k v Hk. destruct (Hb k v Hk) as (t & -> & Ht).
    rewrite Hs in Ht. unfold py.getitem_int, torch.select, slot_field.
    destruct (tshape t) as [|a rest]; [done|]. injection Ht as -> _.
    by rewrite norm_index_nat. }
  split; [|done]. unfold StateTensor_getitem.
  rewrite (dict_mapM_Ok _ (slot_field i)) by done.
  cbn [mbind result_bind].
  by rewrite State_init_id by by apply has_core_fmap, Hc.
Qed.

(** X4. Indexing the batch built by [from_list] gives the states back.
    For every position [i] of the list, [from_list(l)[i]] is a plain
    [State]; under every key of the first state whose values could be
    combined it holds the value that the [i]-th state has under that key:
    a tensor with the same shape and entries when the values were
    stacked, a tensor without dimensions holding the same number when
    they were numbers. *)
Theorem from_list_getitem (s0 : state) (rest : list state) (r si : state)
    (i : nat) (k : string) (v0 w : value) :
  State_from_list (s0 :: rest) = Ok r →
  shape s0 = [] ∨ batched s0 →
  (s0 :: rest) !! i = Some si →
  items s0 !! k = Some v0 →
  combine (s0 :: rest) k v0 = Ok w →
  (∀ sj t, sj ∈ s0 :: rest → getitem_str sj k = Ok (VTensor t) →
     tensor_wf t) →
  ∃ r' vi,
    StateTensor_getitem r (KInt (Z.of_nat i)) = Ok (IState r') ∧
    cls r' = CState ∧
    getitem_str si k = Ok vi ∧
    if py.is_tensor v0
    then ∃ ti dt, vi = VTensor ti ∧
           items r' !! k = Some (VTensor (Tensor dt (tshape ti) (tdata ti)))
    else ∃ dt0 z dt, py.scalar_entry vi = Some (dt0, z) ∧
           items r' !! k = Some (VTensor (Tensor dt [] [z])).
Proof.
  intros Hr Hs0 Hi Hk Hw Hwf.
  pose proof (from_list_batched _ _ _ Hr Hs0) as Hb.
  assert (items r !! k = Some w) as Hrk.
  { unfold State_from_list in Hr.
    apply (StateTensor_init_keeps _ _ _ _ _ _ Hr).
    by rewrite dict_try_map_lookup, Hk; simpl; rewrite Hw. }
  unfold State_from_list in Hr.
  pose proof (StateTensor_init_constructed _ _ _ _ _ Hr) as Hc.
  apply StateTensor_init_Ok in Hr as (_ & _ & Hshape & _).
  cbn [length] in Hshape.
  assert (i < S (length rest)) as Hlt by (by apply lookup_lt_Some in Hi).
  destruct (getitem_int_at r _ _ i Hc Hb Hshape Hlt) as [Hget Hslot].
  unfold combine in Hw.
  destruct (mapM (λ st, getitem_str st k) (s0 :: rest)) as [vs|] eqn:Evs;
    [|done].
  cbn [mbind result_bind] in Hw. apply mapM_result_Forall2 in Evs.
  destruct (Forall2_lookup_l _ _ _ _ _ Evs Hi) as (vi & Hvi & Hsi).
  eexists _, vi. split; [exact Hget|]. split; [done|]. split; [done|].
  cbn [items]. rewrite lookup_fmap, Hrk. cbn [fmap option_fmap option_map].
  pose proof (Hslot k w Hrk) as Hsel.
  destruct (py.is_tensor v0).
  - destruct (stack_select vs w i vi Hw Hvi) as (ti & dt & -> & Hsel').
    + apply list.Forall_forall. intros v Hv t ->.
      apply list_elem_of_lookup in Hv as [j Hj].
      destruct (Forall2_lookup_r _ _ _ _ _ Evs Hj) as (sj & Hsj & Hgj).
      apply (Hwf sj t); [|done]. by apply list_elem_of_lookup_2 with j.
    + exists ti, dt. split; [done|]. congruence.
  - destruct (tensor_of_list_select vs w i vi Hw Hvi)
      as (dt0 & z & dt & He & Hsel').
    exists dt0, z, dt. split; [done|]. congruence.
Qed.

Lemma from_list_getitem_witness :
  (shape short_state = [] ∨ batched short_state) ∧
  [short_state; short_state] !! 1 = Some short_state ∧
  ∃ r r',
    State_from_list [short_state; short_state] = Ok r ∧
    StateTensor_getitem r (KInt (Z.of_nat 1)) = Ok (IState r') ∧
    cls r' = CState ∧
    (∃ ti dt, items short_state !! "observation" = Some (VTensor ti) ∧
       items r' !! "observation" =
         Some (VTensor (Tensor dt (tshape ti) (tdata ti)))).
Proof.
  assert (∀ sj t, sj ∈ [short_state; short_state] →
            getitem_str sj "observation" = Ok (VTensor t) → tensor_wf t)
    as Hwf.
  { intros sj t Hsj Ht.
    assert (sj = short_state) as ->.
    { apply elem_of_cons in Hsj as [->|Hsj]; [reflexivity|].
      apply elem_of_cons in Hsj as [->|Hsj]; [reflexivity|].
      destruct (proj1 (elem_of_nil _) Hsj). }
    vm_compute in Ht. injection Ht as <-. reflexivity. }
  assert (shape short_state = [] ∨ batched short_state) as Hs
    by (left; reflexivity).
  assert ([short_state; short_state] !! 1 = Some short_state) as Hi
    by reflexivity.
  assert (items short_state !! "observation" =
          Some (VTensor (Tensor DFloat [2] (ints [1; 2]%Z)))) as Hk by reflexivity.
  assert (combine [short_state; short_state] "observation"
            (VTensor (Tensor DFloat [2] (ints [1; 2]%Z))) =
          Ok (VTensor (Tensor DFloat [2; 2] (ints [1; 2; 1; 2]%Z)))) as Hw
    by (vm_compute; reflexivity).
  assert (∃ r, State_from_list [short_state; short_state] = Ok r) as [r E]
    by (eexists; vm_compute; reflexivity).
  split; [exact Hs|]. split; [exact Hi|].
  pose proof (from_list_getitem short_state [short_state] r short_state 1
    "observation" (VTensor (Tensor DFloat [2] (ints [1; 2]%Z)))
    (VTensor (Tensor DFloat [2; 2] (ints [1; 2; 1; 2]%Z))) E Hs Hi Hk Hw Hwf) as H.
  destruct H as (r' & vi & H1 & H2 & H3 & H4).
  cbn [py.is_tensor] in H4.
  destruct H4 as (ti & dt & Hvi & H4).
  exists r, r'. 
  split; [exact E|]. split; [exact H1|]. split; [exact H2|].
  exists ti, dt. split; [|exact H4].
  rewrite Hvi in H3. vm_compute in H3. injection H3 as <-. reflexivity.
Defined.

(** ** States from gym *)

(** X5. [from_gym] on a transition [(observation, reward, done, info)]
    whose reward converts to a float.  The result is a plain [State]
    holding every entry of [info]; where [info] does not bind the key,
    the observation is the array as a tensor, the reward is
    [float(reward)] and the done flag is the one of the transition.
    Entries of [info] take precedence, core keys included, and the mask is
    computed from the done flag that ends up in the state: unless [info]
    gives a mask, it is [1. - done], so 0 for a terminal transition and 1
    otherwise.  With a boolean done flag the call does not raise.  A
    bare observation gives the state with reward 0, done [False] and
    mask 1; a reward that is [None] raises [TypeError]. *)
Theorem from_gym_transition (a : tensor) (reward done : value)
    (info : option (gmap string value)) (dev : string) (dt : dtype)
    (r : value) :
  py.to_float reward = Ok r →
  (∀ s, State_from_gym (GymStep a reward done info) dev dt = Ok s →
     cls s = CState ∧ shape s = [] ∧ device s = dev ∧
     (∀ k v, default ∅ info !! k = Some v → items s !! k = Some v) ∧
     (default ∅ info !! "observation" = None →
        items s !! "observation" = Some (VTensor (torch.from_array dt a))) ∧
     (default ∅ info !! "reward" = None → items s !! "reward" = Some r) ∧
     items s !! "done" = Some (default done (default ∅ info !! "done")) ∧
     (default ∅ info !! "mask" = None →
        ∃ m, py.rsub1 (default done (default ∅ info !! "done")) = Ok m ∧
             items s !! "mask" = Some m)) ∧
  (∀ b, default done (default ∅ info !! "done") = VBool b →
     ∃ s, State_from_gym (GymStep a reward done info) dev dt = Ok s ∧
          (default ∅ info !! "mask" = None →
             items s !! "mask" = Some (VFloat (1 - Z_of_bool b)))) ∧
  State_from_gym (GymObservation a) dev dt =
    Ok (MkState CState
          (<["mask" := VFloat 1]>
             (<["done" := VBool false]>
                (<["reward" := VFloat 0]>
                   {["observation" := VTensor (torch.from_array dt a)]})))
          [] dev) ∧
  State_from_gym (GymStep a VNone done info) dev dt = Raise TypeError.
Proof.
  intros Hr.
  set (x := <["done" := done]>
              (<["reward" := r]>
                 ({["observation" := VTensor (torch.from_array dt a)]}
                    : gmap string value))).
  set (i := default ∅ info).
  assert (∀ k, (i ∪ x) !! k =
            match i !! k with
            | Some v => Some v
            | None =>
                if decide (k = "done") then Some done
                else if decide (k = "reward") then Some r
                else if decide (k = "observation")
                     then Some (VTensor (torch.from_array dt a)) else None
            end) as Hx.
  { intros k. rewrite lookup_union. unfold x.
    destruct (i !! k) as [v|]; [by destruct (_ !! k)|].
    rewrite (left_id_L None (∪)).
    rewrite !lookup_insert, lookup_singleton.
    repeat case_decide; subst; done. }
  assert (State_from_gym (GymStep a reward done info) dev dt =
          State_init (ArgDict (i ∪ x)) dev ∅) as Hgym.
  { unfold State_from_gym. by rewrite Hr. }
  assert (∀ s, State_init (ArgDict (i ∪ x)) dev ∅ = Ok s →
     cls s = CState ∧ shape s = [] ∧ device s = dev ∧
     (∀ k v, i !! k = Some v → items s !! k = Some v) ∧
     (i !! "observation" = None →
        items s !! "observation" = Some (VTensor (torch.from_array dt a))) ∧
     (i !! "reward" = None → items s !! "reward" = Some r) ∧
     items s !! "done" = Some (default done (i !! "done")) ∧
     (i !! "mask" = None →
        ∃ m, py.rsub1 (default done (i !! "done")) = Ok m ∧
             items s !! "mask" = Some m)) as Hspec.
  { intros s (Hf & Hcls & Hshape & Hdev)%State_init_Ok.
    destruct (State_fields_spec _ _ _ Hf)
      as (_ & Hrew & Hdone & (m & Hm & Hm') & Hside).
    cbn [as_dict] in *. rewrite merge_kwargs_empty in *.
    rewrite !Hx in *.
    split; [done|]. split; [done|]. split; [done|]. split; [|split; [|split; [|split]]].
    - intros k v Hk.
      destruct (decide (k = "reward")) as [->|]; [by rewrite Hrew, Hk|].
      destruct (decide (k = "done")) as [->|]; [by rewrite Hdone, Hk|].
      destruct (decide (k = "mask")) as [->|].
      { rewrite Hk in Hm'. by subst m. }
      rewrite Hside, Hx, Hk; [done|].
      rewrite !not_elem_of_cons, elem_of_nil. tauto.
    - intros Hi. rewrite Hside, Hx, Hi by notin_list. done.
    - intros Hi. rewrite Hrew, Hi. done.
    - rewrite Hdone. by destruct (i !! "done").
    - intros Hi. rewrite Hi in Hm'. simpl in Hm'. exists m. split; [|done].
      rewrite <-Hm'. by destruct (i !! "done"). }
  split; [|split; [|split]].
  - intros s Hs. rewrite Hgym in Hs. by apply Hspec.
  - intros b Hb. rewrite Hgym.
    assert (is_Ok (State_init (ArgDict (i ∪ x)) dev ∅)) as [s Hs].
    { unfold is_Ok, State_init, State_fields. cbn [as_dict].
      rewrite merge_kwargs_empty.
      assert (is_Some ((i ∪ x) !! "observation")) as [o ->].
      { rewrite Hx. destruct (i !! "observation"); eauto. }
      rewrite !setdefault_lookup, !decide_False by done.
      destruct ((i ∪ x) !! "mask") as [m|] eqn:Em; [simpl; eauto|].
      rewrite decide_True by done. rewrite decide_False by done.
      rewrite Hx. fold i in Hb.
      replace (default (VBool false)
                 match i !! "done" with
                 | Some v => Some v
                 | None => if decide ("done" = "done") then Some done else None
                 end) with (VBool b)
        by (destruct (i !! "done"); simpl in *; by subst).
      simpl. eauto. }
    exists s. split; [done|]. intros Hi.
    destruct (Hspec s Hs) as (_ & _ & _ & _ & _ & _ & _ & Hmask).
    destruct (Hmask Hi) as (m & Hm & ->). fold i in Hb. rewrite Hb in Hm.
    by injection Hm as <-.
  - unfold State_from_gym, State_init, State_fields. cbn [as_dict].
    rewrite merge_kwargs_empty. rewrite lookup_singleton_eq.
    rewrite !setdefault_lookup, !decide_False by done.
    rewrite lookup_singleton_ne by done.
    rewrite decide_True by done. rewrite decide_False by done.
    rewrite lookup_singleton_ne by done. cbn [default mbind result_bind py.rsub1].
    unfold setdefault. rewrite lookup_singleton_ne by done.
    rewrite lookup_insert_ne, lookup_singleton_ne by done. done.
  - done.
Qed.

Lemma from_gym_transition_witness :
  py.to_float (VInt 5) = Ok (VFloat 5) ∧
  ∃ s, State_from_gym
         (GymStep (Tensor DLong [2] (ints [3; 4]%Z)) (VInt 5) (VBool true)
            (Some {["lives" := VInt 2]})) "cpu" DFloat = Ok s ∧
       items s !! "lives" = Some (VInt 2) ∧
       items s !! "reward" = Some (VFloat 5) ∧
       items s !! "mask" = Some (VFloat 0).
Proof.
  assert (py.to_float (VInt 5) = Ok (VFloat 5)) as Hr by reflexivity.
  assert (default ∅ (Some ({["lives" := VInt 2]} : gmap string value))
            !! "lives" = Some (VInt 2)) as Hl by reflexivity.
  assert (default ∅ (Some ({["lives" := VInt 2]} : gmap string value))
            !! "reward" = None) as Hw by reflexivity.
  assert (default ∅ (Some ({["lives" := VInt 2]} : gmap string value))
            !! "mask" = None) as Hm by reflexivity.
  assert (default (VBool true)
            (default ∅ (Some ({["lives" := VInt 2]} : gmap string value))
               !! "done") = VBool true) as Hd by reflexivity.
  split; [exact Hr|].
  destruct (from_gym_transition (Tensor DLong [2] (ints [3; 4]%Z)) (VInt 5)
              (VBool true) (Some {["lives" := VInt 2]}) "cpu" DFloat
              (VFloat 5) Hr) as (Hspec & Htotal & _).
  destruct (Htotal true Hd) as (s & Hs & Hmask).
  destruct (Hspec s Hs) as (_ & _ & _ & Hinfo & _ & Hrew & _).
  exists s. split; [exact Hs|]. split; [exact (Hinfo "lives" _ Hl)|].
  split; [exact (Hrew Hw)|]. exact (Hmask Hm).
Defined.

(** ** The constructors and the dict they are given *)

Lemma State_fields_keeps x kw d k v :
  State_fields x kw = Ok d →
  merge_kwargs (as_dict x) kw !! k = Some v → d !! k = Some v.
Proof.
  intros H Hk.
  destruct (State_fields_spec _ _ _ H) as (_ & Hr & Hd & (m & Hm & Hm') & Hf).
  destruct (decide (k = "reward")) as [->|]; [by rewrite Hr, Hk|].
  destruct (decide (k = "done")) as [->|]; [by rewrite Hd, Hk|].
  destruct (decide (k = "mask")) as [->|].
  { rewrite Hk in Hm'. by rewrite Hm, Hm'. }
  rewrite Hf; [done|]. rewrite !not_elem_of_cons, elem_of_nil. tauto.
Qed.

Lemma StateTensor_fields_keeps x shp kw d k v :
  StateTensor_fields x shp kw = Ok d →
  merge_kwargs (as_dict x) kw !! k = Some v → d !! k = Some v.
Proof.
  intros H Hk.
  destruct (StateTensor_fields_spec _ _ _ _ H)
    as (_ & Hr & (dn & Hd & Hdn & m & Hm & Hm') & Hf).
  destruct (decide (k = "reward")) as [->|]; [by rewrite Hr, Hk|].
  destruct (decide (k = "done")) as [->|].
  { rewrite Hk in Hdn. by rewrite Hd, Hdn. }
  destruct (decide (k = "mask")) as [->|].
  { rewrite Hk in Hm'. by rewrite Hm, Hm'. }
  rewrite Hf; [done|]. rewrite !not_elem_of_cons, elem_of_nil. tauto.
Qed.

Lemma alloc_frame o (h : gmap nat object) l0 :
  is_Some (h !! l0) → (alloc o h).2 !! l0 = h !! l0.
Proof.
  intros Hl0. destruct (alloc_fresh o h) as [Hf ->].
  rewrite lookup_insert_ne; [done|]. intros <-. rewrite Hf in Hl0.
  by destruct Hl0.
Qed.

(** X6. The constructors write into the dict they are given.  After
    [State(x, **kwargs)] or [StateTensor(x, shape, **kwargs)] on a dict
    [x], the caller's dict holds the keyword arguments and the defaulted
    [reward], [done] and [mask]: it has exactly the bindings of the new
    instance, which is a new object; no other object changes.  When the
    argument is not a dict, no object that existed before changes. *)
Theorem constructor_writes_argument (h : gmap nat object) (lx : nat)
    (d kw : gmap string value) (dev : string) :
  h !! lx = Some (ODict d) →
  (∀ l h', State_init_h (RefObj lx) dev kw h = Ok (l, h') →
     ∃ s, State_init (ArgDict d) dev kw = Ok s ∧
          h !! l = None ∧ h' !! l = Some (OState s) ∧
          h' !! lx = Some (ODict (items s)) ∧ has_core (items s) ∧
          (∀ k v, kw !! k = Some v → items s !! k = Some v) ∧
          (∀ l0, l0 ≠ lx → l0 ≠ l → h' !! l0 = h !! l0)) ∧
  (∀ shp l h', StateTensor_init_h (RefObj lx) shp dev kw h = Ok (l, h') →
     ∃ s, StateTensor_init (ArgDict d) shp dev kw = Ok s ∧
          h !! l = None ∧ h' !! l = Some (OState s) ∧
          h' !! lx = Some (ODict (items s)) ∧ has_core (items s) ∧
          (∀ k v, kw !! k = Some v → items s !! k = Some v) ∧
          (∀ l0, l0 ≠ lx → l0 ≠ l → h' !! l0 = h !! l0)) ∧
  (∀ v l h', State_init_h (RefOther v) dev kw h = Ok (l, h') →
     ∀ l0 o, h !! l0 = Some o → h' !! l0 = Some o).
Proof.
  intros Hx.
  assert (∀ s l h',
    Ok (alloc (OState s) (<[lx := set_dict (ODict d) (items s)]> h))
      = Ok (l, h') →
    h !! l = None ∧ h' !! l = Some (OState s) ∧
    h' !! lx = Some (ODict (items s)) ∧
    (∀ l0, l0 ≠ lx → l0 ≠ l → h' !! l0 = h !! l0)) as Halloc.
  { intros s l h' Hal.
    destruct (alloc_fresh (OState s)
                (<[lx := set_dict (ODict d) (items s)]> h)) as [Hf Hh].
    destruct (alloc (OState s) (<[lx := set_dict (ODict d) (items s)]> h))
      as [l1 h1].
    injection Hal as -> ->. cbn [fst snd set_dict] in Hf, Hh. subst h'.
    assert (l ≠ lx) as Hne.
    { intros ->. by rewrite lookup_insert_eq in Hf. }
    rewrite lookup_insert_ne in Hf by done.
    split; [done|]. split; [by rewrite lookup_insert_eq|]. split.
    - rewrite lookup_insert_ne by done. by rewrite lookup_insert_eq.
    - intros l0 H1 H2. by rewrite !lookup_insert_ne. }
  split; [|split].
  - intros l h'. rewrite (State_init_h_RefObj _ _ _ _ _ Hx). cbn [dict_of].
    destruct (State_init (ArgDict d) dev kw) as [s|] eqn:Es; [|done].
    cbn [mbind result_bind]. intros Hal. exists s. split; [done|].
    destruct (Halloc s l h' Hal) as (? & ? & ? & ?).
    apply State_init_Ok in Es as (Hf & _).
    repeat split; try done.
    + by apply (State_fields_has_core _ _ _ Hf).
    + intros k v Hk. apply (State_fields_keeps _ _ _ _ _ Hf).
      unfold merge_kwargs. by rewrite lookup_union_l' by eauto.
  - intros shp l h'. rewrite (StateTensor_init_h_RefObj _ _ _ _ _ _ Hx).
    cbn [dict_of].
    destruct (StateTensor_init (ArgDict d) shp dev kw) as [s|] eqn:Es; [|done].
    cbn [mbind result_bind]. intros Hal. exists s. split; [done|].
    destruct (Halloc s l h' Hal) as (? & ? & ? & ?).
    apply StateTensor_init_Ok in Es as (Hf & _).
    repeat split; try done.
    + by apply (StateTensor_fields_has_core _ _ _ _ Hf).
    + intros k v Hk. apply (StateTensor_fields_keeps _ _ _ _ _ _ Hf).
      unfold merge_kwargs. by rewrite lookup_union_l' by eauto.
  - intros v l h' Hinit l0 o Hl0. unfold State_init_h in Hinit.
    cbn [arg_dict] in Hinit.
    destruct (alloc_fresh (ODict {["observation" := v]}) h) as [Hf Hh].
    destruct (alloc (ODict {["observation" := v]}) h) as [ly h1].
    cbn [fst snd] in Hf, Hh. subst h1. rewrite lookup_insert_eq in Hinit.
    destruct (State_fields _ kw) as [d'|]; [|done].
    cbn [mbind result_bind] in Hinit. rewrite insert_insert_eq in Hinit.
    assert (l0 ≠ ly) as Hne by (intros ->; congruence).
    pose proof (alloc_frame (OState (MkState CState d' [] dev))
                  (<[ly := set_dict (ODict {["observation" := v]}) d']> h) l0)
      as Hfr.
    destruct (alloc (OState (MkState CState d' [] dev)) _) as [l1 h1].
    injection Hinit as -> ->. cbn [snd] in Hfr. rewrite Hfr.
    + by rewrite lookup_insert_ne.
    + rewrite lookup_insert_ne by done. eauto.
Qed.

Lemma constructor_writes_argument_witness :
  ({[0 := ODict {["observation" := sample_obs]}]} : gmap nat object) !! 0 =
    Some (ODict {["observation" := sample_obs]}) ∧
  ∃ l h' s,
    State_init_h (RefObj 0) "cpu" {["reward" := VFloat 3]}
      {[0 := ODict {["observation" := sample_obs]}]} = Ok (l, h') ∧
    h' !! l = Some (OState s) ∧
    h' !! 0 = Some (ODict (items s)) ∧ has_core (items s) ∧
    items s !! "reward" = Some (VFloat 3).
Proof.
  assert (({[0 := ODict {["observation" := sample_obs]}]} : gmap nat object)
            !! 0 = Some (ODict {["observation" := sample_obs]})) as Hx
    by reflexivity.
  assert (({["reward" := VFloat 3]} : gmap string value) !! "reward" =
          Some (VFloat 3)) as Hk by reflexivity.
  split; [exact Hx|].
  destruct (constructor_writes_argument _ 0 _ {["reward" := VFloat 3]} "cpu" Hx)
    as (H1 & _ & _).
  assert (∃ p, State_init_h (RefObj 0) "cpu" {["reward" := VFloat 3]}
      {[0 := ODict {["observation" := sample_obs]}]} = Ok p) as [[l h'] E]
    by (eexists; vm_compute; reflexivity).
  destruct (H1 l h' E) as (s & _ & _ & H3 & H4 & H5 & H6 & _).
  exists l, h', s. split; [exact E|]. split; [exact H3|].
  split; [exact H4|]. split; [exact H5|]. exact (H6 "reward" _ Hk).
Defined.

(** ** Laws of update *)




(** ** Subscripting by a bool tensor *)

Lemma length_chunks n size (d : list num) : length (torch.chunks n size d) = n.
Proof.
  revert d. induction n as [|n IH]; intros d; simpl; [done|]. by rewrite IH.
Qed.

Lemma filter_zip_length (a : list num) (b : list (list num)) :
  length a = length b →
  length (filter (λ p : num * list num, p.1 ≠ 0%Z) (zip a b)) =
  length (filter (λ x : num, x ≠ 0%Z) a).
Proof.
  revert b. induction a as [|x a IH]; intros [|y b] Hl; try done.
  simpl in Hl. cbn [zip zip_with]. rewrite !filter_cons. cbn [fst].
  case_decide; cbn [length]; rewrite IH by lia; done.
Qed.

Lemma masked_select_Ok t key :
  take (length (tshape key)) (tshape t) = tshape key → tensor_wf key →
  ∃ t', torch.masked_select t key = Ok t' ∧
        tshape t' = length (filter (λ x : num, x ≠ 0%Z) (tdata key)) ::
                    drop (length (tshape key)) (tshape t).
Proof.
  intros Ht Hk. unfold torch.masked_select. rewrite decide_True by done.
  eexists. split; [done|]. cbn [tshape]. f_equal.
  rewrite length_fmap. apply filter_zip_length.
  by rewrite length_chunks.
Qed.

Lemma dict_try_map_total f g (d : gmap string value) :
  (∀ k v, d !! k = Some v → f k v = Ok (g v)) →
  dict_try_map f d = g <$> d.
Proof.
  intros H. apply map_eq. intros k.
  rewrite dict_try_map_lookup, lookup_fmap.
  destruct (d !! k) as [v|] eqn:E; [|done]. simpl. by rewrite (H k v).
Qed.

(** X8. Subscripting a consistent batch by a bool tensor drops nothing.
    When every field has the batch shape as leading dimensions, the mask
    has one entry per slot and the key is a bool tensor of the batch
    shape, [s[key]] is a [StateTensor] with the same keys whose shape is
    the number of entries of the key that hold; every field keeps its
    trailing dimensions behind that one dimension. *)
Theorem getitem_bool_keeps_fields (s : state) (key m : tensor) :
  constructed s → batched s →
  tdtype key = DBool → tensor_wf key → tshape key = shape s →
  items s !! "mask" = Some (VTensor m) → tshape m = shape s →
  ∃ r, StateTensor_getitem s (KTensor key) = Ok (IState r) ∧
       cls r = CStateTensor ∧
       shape r = [length (filter (λ x : num, x ≠ 0%Z) (tdata key))] ∧
       dom (items r) = dom (items s) ∧
       batched r ∧
       ∀ k t, items s !! k = Some (VTensor t) →
         ∃ t', items r !! k = Some (VTensor t') ∧
               tshape t' =
                 length (filter (λ x : num, x ≠ 0%Z) (tdata key)) ::
                 drop (length (shape s)) (tshape t).
Proof.
  intros Hc Hb Hdt Hwf Hks Hm Hms.
  set (n := length (filter (λ x : num, x ≠ 0%Z) (tdata key))).
  set (g := λ v, from_ok v (py.getitem_tensor v key)).
  assert (∀ t, take (length (shape s)) (tshape t) = shape s →
            ∃ t', py.getitem_tensor (VTensor t) key = Ok (VTensor t') ∧
                  tshape t' = n :: drop (length (shape s)) (tshape t)) as Hsel.
  { intros t Ht. destruct (masked_select_Ok t key) as (t' & Ht' & Hsh).
    - by rewrite Hks.
    - done.
    - exists t'. unfold py.getitem_tensor, torch.index. rewrite Hdt, Ht'.
      split; [done|]. by rewrite Hsh, Hks. }
  assert (∀ k v, items s !! k = Some v →
            py.getitem_tensor v key = Ok (g v)) as Hg.
  { intros k v Hk. destruct (Hb k v Hk) as (t & -> & Ht).
    destruct (Hsel t Ht) as (t' & Ht' & _). unfold g. by rewrite Ht'. }
  exists (MkState CStateTensor (g <$> items s) [n] (device s)).
  split.
  { unfold StateTensor_getitem, StateTensor_getitem_str, State_getitem.
    rewrite Hm. assert (take (length (shape s)) (tshape m) = shape s) as Hmt.
    { rewrite Hms. by apply take_ge. }
    destruct (Hsel m Hmt) as (m' & -> & Hm'). cbn [mbind result_bind py.shape_of].
    rewrite Hm', Hms, drop_all.
    rewrite (dict_try_map_total _ g) by done.
    by rewrite StateTensor_init_id by by apply has_core_fmap, Hc. }
  cbn [cls shape items].
  split; [done|]. split; [done|]. split; [by rewrite dom_fmap_L|].
  assert (∀ k t, items s !! k = Some (VTensor t) →
    ∃ t', (g <$> items s) !! k = Some (VTensor t') ∧
          tshape t' = n :: drop (length (shape s)) (tshape t)) as Hfields.
  { intros k t Hk. destruct (Hb k _ Hk) as (t0 & [= <-] & Ht).
    destruct (Hsel t Ht) as (t' & Ht' & Hsh). exists t'.
    rewrite lookup_fmap, Hk. cbn. unfold g. by rewrite Ht'. }
  split; [|done].
  intros k v. cbn [items shape length]. rewrite lookup_fmap.
  destruct (items s !! k) as [v0|] eqn:Ek; [|done]. cbn. intros [= <-].
  destruct (Hb k v0 Ek) as (t & -> & Ht).
  destruct (Hfields k t Ek) as (t' & Ht' & Hsh).
  rewrite lookup_fmap, Ek in Ht'. cbn in Ht'. injection Ht' as ->.
  exists t'. split; [done|]. by rewrite Hsh.
Qed.

Lemma getitem_bool_keeps_fields_witness :
  constructed sample_grid ∧ batched sample_grid ∧
  tensor_wf (Tensor DBool [2; 2] (ints [1; 0; 0; 1]%Z)) ∧
  ∃ r, StateTensor_getitem sample_grid
         (KTensor (Tensor DBool [2; 2] (ints [1; 0; 0; 1]%Z))) = Ok (IState r) ∧
       shape r = [2] ∧ dom (items r) = dom (items sample_grid) ∧ batched r.
Proof.
  assert (constructed sample_grid) as Hc by check_constructed.
  assert (batched sample_grid) as Hb by check_batched.
  assert (tensor_wf (Tensor DBool [2; 2] (ints [1; 0; 0; 1]%Z))) as Hwf
    by reflexivity.
  assert (items sample_grid !! "mask" =
          Some (VTensor (Tensor DFloat [2; 2] (ints [1; 1; 1; 0]%Z)))) as Hm
    by reflexivity.
  split; [exact Hc|]. split; [exact Hb|]. split; [exact Hwf|].
  destruct (getitem_bool_keeps_fields sample_grid
              (Tensor DBool [2; 2] (ints [1; 0; 0; 1]%Z)) _ Hc Hb eq_refl Hwf
              eq_refl Hm eq_refl) as (r & H1 & _ & H3 & H4 & H5 & _).
  exists r. split; [exact H1|]. split; [exact H3|]. split; [exact H4|].
  exact H5.
Defined.

(** ** Slices *)

Lemma clamp_bound_le (n dflt : nat) (b : option Z) :
  (dflt ≤ n)%nat → (torch.clamp_bound n dflt b ≤ n)%nat.
Proof. intros H. unfold torch.clamp_bound. destruct b; [|done]. lia. Qed.

Lemma slice_positions_lt (n : nat) start stop (step j : nat) :
  0 < step → j ∈ torch.slice_positions n start stop step → j < n.
Proof.
  intros Hstep. unfold torch.slice_positions.
  set (lo := torch.clamp_bound n 0 start).
  set (hi := torch.clamp_bound n n stop).
  assert (hi ≤ n)%nat as Hhi by (apply clamp_bound_le; lia).
  intros (k & -> & Hk)%list_elem_of_fmap. apply elem_of_seq in Hk.
  pose proof (Nat.Div0.mul_div_le (hi - lo + step - 1) step) as Hdiv.
  nia.
Qed.

Lemma length_block (size j : nat) (d : list num) :
  (S j * size ≤ length d)%nat → length (torch.block size j d) = size.
Proof.
  intros H. unfold torch.block. rewrite length_take, length_drop.
  simpl in H. lia.
Qed.

Lemma slice_Ok t n rest start stop step :
  tshape t = n :: rest → (0 < default 1 step)%Z →
  torch.slice t start stop step =
    Ok (MkTensor (tdtype t)
          (length (torch.slice_positions n start stop
                     (Z.to_nat (default 1%Z step))) :: rest)
          (concat ((λ j, torch.block (numel rest) j (tdata t)) <$>
                   torch.slice_positions n start stop
                     (Z.to_nat (default 1%Z step))))
          (torch.slice_strides (tstrides t) (Z.to_nat (default 1%Z step)))).
Proof.
  intros Ht Hs. unfold torch.slice. rewrite Ht. by rewrite decide_True.
Qed.

Lemma drop_slice_strides st step :
  drop 1 (torch.slice_strides st step) = drop 1 st.
Proof. by destruct st. Qed.

Lemma slice_select t (n : nat) rest start stop step (i j : nat) :
  tshape t = n :: rest → tensor_wf t → (0 < default 1 step)%Z →
  torch.slice_positions n start stop (Z.to_nat (default 1%Z step)) !! i
    = Some j →
  (t' ← torch.slice t start stop step; torch.select t' (Z.of_nat i)) =
  torch.select t (Z.of_nat j).
Proof.
  intros Ht Hwf Hs Hi. rewrite (slice_Ok t n rest) by done.
  cbn [mbind result_bind]. unfold torch.select. cbn [tshape tdata tdtype].
  rewrite Ht.
  set (js := torch.slice_positions _ _ _ _) in *.
  assert (∀ j', j' ∈ js → j' < n) as Hlt.
  { intros j' Hj'.
    apply (slice_positions_lt n start stop (Z.to_nat (default 1%Z step)) j');
      [lia|done]. }
  rewrite norm_index_nat by (by apply lookup_lt_Some in Hi).
  rewrite norm_index_nat by (by apply Hlt, list_elem_of_lookup_2 with i).
  cbn [tstrides]. rewrite drop_slice_strides.
  do 2 f_equal. apply block_concat.
  - apply Forall_fmap, list.Forall_forall. intros j' Hj'. cbn.
    apply length_block. unfold tensor_wf in Hwf. rewrite Hwf, Ht.
    specialize (Hlt j' Hj'). simpl. fold (numel rest). nia.
  - by rewrite list_lookup_fmap, Hi.
Qed.

Lemma getitem_int_fields s i g :
  has_core (items s) →
  (∀ k v, items s !! k = Some v → py.getitem_int v i = Ok (g v)) →
  StateTensor_getitem s (KInt i) =
    Ok (IState (MkState CState (g <$> items s) [] (device s))).
Proof.
  intros Hc Hg. unfold StateTensor_getitem.
  rewrite (dict_mapM_Ok _ g) by done. cbn [mbind result_bind].
  by rewrite State_init_id by by apply has_core_fmap.
Qed.

(** X9. Taking a slice and then an item gives the item at the sliced
    position.  For a batch whose fields have the batch shape as leading
    dimensions and a slice with a positive step, [s[start:stop:step]] is
    a [StateTensor] whose [len] is the number of positions of the slice,
    and its [i]-th item is the item of [s] at the [i]-th of those
    positions. *)
Theorem slice_then_item (s : state) (n : nat) (S' : list nat)
    (start stop step : option Z) (i j : nat) :
  constructed s → batched s → shape s = n :: S' →
  (∀ k t, items s !! k = Some (VTensor t) → tensor_wf t) →
  (0 < default 1 step)%Z →
  torch.slice_positions n start stop (Z.to_nat (default 1%Z step)) !! i
    = Some j →
  ∃ r, StateTensor_getitem s (KSlice start stop step) = Ok (IState r) ∧
       cls r = CStateTensor ∧
       len r = Ok (length (torch.slice_positions n start stop
                             (Z.to_nat (default 1%Z step)))) ∧
       StateTensor_getitem r (KInt (Z.of_nat i)) =
         StateTensor_getitem s (KInt (Z.of_nat j)) ∧
       is_Ok (StateTensor_getitem s (KInt (Z.of_nat j))).
Proof.
  intros Hc Hb Hs Hwf Hstep Hi.
  set (js := torch.slice_positions _ _ _ _) in *.
  set (g := λ v, from_ok v (py.getitem_slice v start stop step)).
  assert (∀ k v, items s !! k = Some v →
    ∃ t rest, v = VTensor t ∧ tshape t = n :: rest ∧ tensor_wf t) as Hfield.
  { intros k v Hk. destruct (Hb k v Hk) as (t & -> & Ht). rewrite Hs in Ht.
    destruct (tshape t) as [|a rest] eqn:E; [done|]. injection Ht as -> _.
    exists t, rest. split; [done|]. split; [done|]. by apply (Hwf k). }
  assert (∀ k v, items s !! k = Some v →
            py.getitem_slice v start stop step = Ok (g v)) as Hg.
  { intros k v Hk. destruct (Hfield k v Hk) as (t & rest & -> & Ht & _).
    unfold g, py.getitem_slice. by rewrite (slice_Ok t n rest). }
  destruct (has_core_elim _ (proj1 Hc)) as (_ & _ & _ & [mv Hm]).
  destruct (Hfield _ _ Hm) as (m & mrest & -> & Hmt & _).
  exists (MkState CStateTensor (g <$> items s) (length js :: mrest) (device s)).
  split.
  { assert (StateTensor_getitem_str s "mask" = VTensor m) as Hmask.
    { unfold StateTensor_getitem_str, State_getitem. by rewrite Hm. }
    unfold StateTensor_getitem. rewrite Hmask. cbn [py.getitem_slice].
    rewrite (slice_Ok m n mrest) by done.
    cbn [fmap result_fmap mbind result_bind py.shape_of tshape].
    rewrite (dict_mapM_Ok _ g) by done. cbn [mbind result_bind].
    by rewrite StateTensor_init_id by by apply has_core_fmap, Hc. }
  split; [done|]. split; [done|].
  assert (∀ k v, items s !! k = Some v →
            py.getitem_int v (Z.of_nat j) = Ok (slot_field j v)) as Hsj.
  { intros k v Hk. destruct (Hfield k v Hk) as (t & rest & -> & Ht & _).
    unfold py.getitem_int, torch.select, slot_field. rewrite Ht.
    rewrite norm_index_nat; [done|].
    apply (slice_positions_lt n start stop (Z.to_nat (default 1%Z step)));
      [lia|]. by apply list_elem_of_lookup_2 with i. }
  assert (∀ k v, items s !! k = Some v →
            py.getitem_int (g v) (Z.of_nat i) = Ok (slot_field i (g v)) ∧
            slot_field i (g v) = slot_field j v) as Hsi.
  { intros k v Hk. pose proof (Hsj k v Hk) as Hj.
    destruct (Hfield k v Hk) as (t & rest & -> & Ht & Htwf).
    pose proof (slice_select t n rest start stop step i j Ht Htwf Hstep Hi)
      as Hsel.
    unfold g, py.getitem_slice. rewrite (slice_Ok t n rest) in * by done.
    cbn [from_ok fmap result_fmap mbind result_bind] in Hsel |- *.
    unfold py.getitem_int in Hj |- *. rewrite <- Hsel in Hj.
    match goal with |- ?a = ?b ∧ _ => assert (a = b) as E end.
    { unfold torch.select, slot_field. cbn [tshape tdtype tdata drop].
      rewrite norm_index_nat by (apply lookup_lt_Some in Hi; exact Hi).
      reflexivity. }
    split; [exact E|]. rewrite E in Hj.
    exact (f_equal (from_ok VNone) Hj). }
  rewrite (getitem_int_fields s _ (slot_field j) (proj1 Hc) Hsj).
  split; [|by eexists].
  rewrite (getitem_int_fields _ _ (slot_field i)).
  - cbn [items device]. do 3 f_equal. rewrite <- map_fmap_compose.
    apply map_fmap_ext. intros k v Hk. apply (Hsi k v Hk).
  - cbn [items]. by apply has_core_fmap, Hc.
  - cbn [items]. intros k v. rewrite lookup_fmap.
    destruct (items s !! k) as [v0|] eqn:Ek; [|done]. cbn. intros [= <-].
    apply (Hsi k v0 Ek).
Qed.

Lemma fields_wf_to_list (s : state) :
  Forall (λ kv, ∀ t, kv.2 = VTensor t → tensor_wf t)
    (map_to_list (items s)) →
  ∀ k t, items s !! k = Some (VTensor t) → tensor_wf t.
Proof.
  intros H k t Hk%elem_of_map_to_list.
  by apply (proj1 (list.Forall_forall _ _) H (k, VTensor t)).
Qed.

Ltac check_fields_wf :=
  apply fields_wf_to_list; vm_compute;
  repeat constructor; intros ? [= <-]; reflexivity.

Lemma slice_then_item_witness :
  constructed sample_batch ∧ batched sample_batch ∧
  ∃ r, StateTensor_getitem sample_batch (KSlice (Some 1%Z) None None) =
         Ok (IState r) ∧
       cls r = CStateTensor ∧ len r = Ok 1 ∧
       StateTensor_getitem r (KInt 0) =
         StateTensor_getitem sample_batch (KInt 1).
Proof.
  assert (constructed sample_batch) as Hc by check_constructed.
  assert (batched sample_batch) as Hb by check_batched.
  assert (∀ k t, items sample_batch !! k = Some (VTensor t) → tensor_wf t)
    as Hwf by check_fields_wf.
  split; [exact Hc|]. split; [exact Hb|].
  destruct (slice_then_item sample_batch 2 [] (Some 1%Z) None None 0 1
              Hc Hb eq_refl Hwf eq_refl eq_refl) as (r & H1 & H2 & H3 & H4 & _).
  exists r. split; [exact H1|]. split; [exact H2|]. split; [exact H3|].
  exact H4.
Defined.

(** ** Reshaping a batch *)

Lemma reshape_field_twice (a b : list nat) (dims : nat) (v : value) :
  reshape_field b (length a) (reshape_field a dims v) = reshape_field b dims v.
Proof.
  destruct v as [| | | |t]; try done. cbn [reshape_field tshape tdtype tdata].
  by rewrite drop_app_length.
Qed.

Lemma as_input_field (s : state) (k : string) (t : tensor) :
  shape s ≠ [] → items s !! k = Some (VTensor t) →
  take (length (shape s)) (tshape t) = shape s → contiguous t →
  StateTensor_as_input s k =
    Ok (Tensor DFloat (numel (shape s) :: drop (length (shape s)) (tshape t))
          (tdata t)).
Proof.
  intros Hs Hk Ht Hc.
  unfold StateTensor_as_input, StateTensor_getitem_str, State_getitem.
  rewrite Hk.
  assert (np_prod (shape s) = NpInt (numel (shape s))) as ->
    by by destruct (shape s).
  cbn [as_index mbind result_bind].
  rewrite view_contiguous; [|done|].
  - cbn [mbind result_bind]. by rewrite float_contiguous.
  - rewrite (numel_take_drop (length (shape s)) (tshape t)), Ht. done.
Qed.

(** X10. Reshaping a batch keeps what it holds.  For a batch of shape [S]
    whose fields have leading dimensions [S] and are laid out row-major,
    and two shapes [a] and [b] with as many slots as [S]: [view(a)]
    succeeds and gives a batch of shape [a] whose fields have leading
    dimensions [a] and are laid out row-major; [view(a).view(b)] is
    [view(b)]; when [S] is not empty, [flatten()] is [view((numel S,))];
    and when neither [S] nor [a] is empty, the model input [as_input(k)]
    of the reshaped batch is that of the original one, for every key
    [k]. *)
Theorem view_compose (s : state) (a b : list nat) :
  constructed s → batched s → contiguous_fields s →
  numel a = numel (shape s) → numel b = numel (shape s) →
  ∃ r, StateTensor_view s a = Ok r ∧ shape r = a ∧ batched r ∧
       contiguous_fields r ∧
       StateTensor_view r b = StateTensor_view s b ∧
       is_Ok (StateTensor_view s b) ∧
       (shape s ≠ [] →
          StateTensor_flatten s = StateTensor_view s [numel (shape s)]) ∧
       (shape s ≠ [] → a ≠ [] →
          ∀ k, StateTensor_as_input r k = StateTensor_as_input s k).
Proof.
  intros Hc Hb Hcf Ha Hn.
  pose proof (reshape_constructed s a Hc) as Hrc.
  pose proof (reshape_batched s a Hb) as Hrb.
  pose proof (reshape_contiguous s a Hb) as Hrcf.
  set (r := MkState CStateTensor _ a _) in *.
  exists r. split; [by apply StateTensor_view_Ok|]. split; [done|].
  split; [done|]. split; [done|]. split; [|split; [|split]].
  - rewrite (StateTensor_view_Ok s b Hc Hb Hcf Hn).
    rewrite (StateTensor_view_Ok r b Hrc Hrb Hrcf) by (cbn [shape r]; lia).
    unfold r. cbn [items shape device]. do 2 f_equal.
    rewrite <-map_fmap_compose. apply map_fmap_ext. intros k v _.
    apply reshape_field_twice.
  - rewrite (StateTensor_view_Ok s b Hc Hb Hcf Hn). by eexists.
  - intros Hs. rewrite (StateTensor_flatten_Ok s Hc Hb Hcf Hs).
    rewrite (StateTensor_view_Ok s _ Hc Hb Hcf); [done|]. simpl. lia.
  - intros Hs Hane k. destruct (items s !! k) as [v|] eqn:Ek.
    + destruct (Hb k v Ek) as (t & -> & Ht).
      rewrite (as_input_field s k t Hs Ek Ht) by by apply (Hcf k).
      rewrite (as_input_field r k
                 (Tensor (tdtype t) (a ++ drop (length (shape s)) (tshape t))
                    (tdata t))).
      * cbn [shape r tshape tdata]. by rewrite drop_app_length, Ha.
      * done.
      * unfold r. cbn [items]. by rewrite lookup_fmap, Ek.
      * cbn [shape r tshape]. by rewrite take_app_length.
      * done.
    + unfold StateTensor_as_input, StateTensor_getitem_str, State_getitem.
      unfold r. cbn [items]. by rewrite lookup_fmap, Ek.
Qed.

Lemma view_compose_witness :
  constructed sample_grid ∧ batched sample_grid ∧
  contiguous_fields sample_grid ∧
  ∃ r, StateTensor_view sample_grid [4] = Ok r ∧ shape r = [4] ∧
       StateTensor_view r [1; 4] = StateTensor_view sample_grid [1; 4] ∧
       StateTensor_flatten sample_grid = StateTensor_view sample_grid [4] ∧
       StateTensor_as_input r "observation" =
         StateTensor_as_input sample_grid "observation".
Proof.
  assert (constructed sample_grid) as Hc by check_constructed.
  assert (batched sample_grid) as Hb by check_batched.
  assert (contiguous_fields sample_grid) as Hcf by check_contiguous.
  assert (shape sample_grid ≠ []) as Hs by discriminate.
  assert ([4] ≠ @nil nat) as Ha by discriminate.
  split; [exact Hc|]. split; [exact Hb|]. split; [exact Hcf|].
  destruct (view_compose sample_grid [4] [1; 4] Hc Hb Hcf eq_refl eq_refl)
    as (r & H1 & H2 & _ & _ & H4 & _ & H6 & H7).
  exists r. split; [exact H1|]. split; [exact H2|]. split; [exact H4|].
  split; [exact (H6 Hs)|]. exact (H7 Hs Ha "observation").
Defined.
